(** * ROOTfileMerger: a shallow embedding of [mergeOutput.py] and
      [jobScriptGenerator.py], and the properties of their specification.

    Layout: the definitions come first (Python strings and paths, the
    exception/trace monad, the merge orchestrator, the job descriptor
    generator), the lemmas and theorems follow.

    Modelling conventions.
    - A Python [str] is the [string] of its bytes in UTF-8.  File names and
      command-line arguments reach Python as bytes and are decoded with the
      [surrogateescape] handler, so a byte that belongs to no UTF-8 sequence
      stands for the lone surrogate [0xDC00 + byte] and every [string] is
      the text of exactly one [str].
    - [str.lower] is the lower-casing of CPython 3.11 (Unicode 14.0) on
      the code points of the text: the simple mappings, the two code points
      of U+0130 and the final-sigma rule.  The substring test [in] compares
      code points.
    - Writing a text to a file opened in text mode encodes it first; the
      generator's [open], [write] and [chmod] are separate steps of the
      run, each of which can fail and leave the effects of the steps before
      it.  [print] is taken to succeed.
    - A Python [int] is a [Z].
    - The operating system and the external merge engine (ROOT's
      [TFileMerger]) are not code of this repository: they appear as oracles
      in a record, so every theorem holds for every behaviour they can show.
    - Statements that log or print append an event to a trace; statements
      that can raise return in an error monad over that trace. *)

From Stdlib Require Import ZArith Ascii String DecimalString List Bool Lia.
From stdpp Require Import base gmap list strings.

Local Open Scope Z_scope.

(* ===================================================================== *)
(** ** Unicode text: UTF-8 and the lower-casing of [str.lower] *)
(* ===================================================================== *)

Module Unicode.
Local Open Scope N_scope.

(** *** Code points and bytes *)

(** A byte in [0x80..0xBF], the continuation bytes of UTF-8. *)
Definition continuation (b : N) : bool := (128 <=? b) && (b <=? 191).

(** The second byte a three-byte sequence may have after the lead [b0]:
    no overlong form after [0xE0], no surrogate after [0xED]. *)
Definition second_of_three (b0 b1 : N) : bool :=
  if b0 =? 224 then (160 <=? b1) && (b1 <=? 191)
  else if b0 =? 237 then (128 <=? b1) && (b1 <=? 159)
  else continuation b1.

(** The second byte a four-byte sequence may have after the lead [b0]:
    no overlong form after [0xF0], nothing above U+10FFFF after [0xF4]. *)
Definition second_of_four (b0 b1 : N) : bool :=
  if b0 =? 240 then (144 <=? b1) && (b1 <=? 191)
  else if b0 =? 244 then (128 <=? b1) && (b1 <=? 143)
  else continuation b1.

(** The code point that starts at a byte [b0] followed by the text [s1],
    with the number of bytes of [s1] it takes: a valid sequence of strict
    UTF-8, or else the byte alone as the lone surrogate [0xDC00 + b0]
    (the [surrogateescape] error handler). *)
Definition sequence_at (b0 : N) (s1 : string) : N * nat :=
  let escaped := (56320 + b0, 0%nat) in
  if b0 <? 128 then (b0, 0%nat)
  else
    match s1 with
    | EmptyString => escaped
    | String a1 s2 =>
        let b1 := N_of_ascii a1 in
        if (194 <=? b0) && (b0 <=? 223) then
          if continuation b1
          then ((b0 - 192) * 64 + (b1 - 128), 1%nat)
          else escaped
        else
          match s2 with
          | EmptyString => escaped
          | String a2 s3 =>
              let b2 := N_of_ascii a2 in
              if (224 <=? b0) && (b0 <=? 239) then
                if second_of_three b0 b1 && continuation b2
                then ((b0 - 224) * 4096 + (b1 - 128) * 64 + (b2 - 128),
                      2%nat)
                else escaped
              else
                match s3 with
                | EmptyString => escaped
                | String a3 _ =>
                    let b3 := N_of_ascii a3 in
                    if (240 <=? b0) && (b0 <=? 244)
                       && second_of_four b0 b1
                       && continuation b2 && continuation b3
                    then ((b0 - 240) * 262144 + (b1 - 128) * 4096
                          + (b2 - 128) * 64 + (b3 - 128), 3%nat)
                    else escaped
                end
          end
    end.

(** The code points of a text given by its bytes, as Python decodes file
    names and command-line arguments. *)
Fixpoint decode (s : string) : list N :=
  match s with
  | EmptyString => []
  | String a0 s1 =>
      let '(c, taken) := sequence_at (N_of_ascii a0) s1 in
      c :: match taken, s1 with
           | 1%nat, String _ s2 => decode s2
           | 2%nat, String _ (String _ s3) => decode s3
           | 3%nat, String _ (String _ (String _ s4)) => decode s4
           | _, _ => decode s1
           end
  end.

(** The bytes of one code point; an escaped byte goes back to itself. *)
Definition encode_code_point (c : N) : string :=
  if c <? 128 then String (ascii_of_N c) EmptyString
  else if c <? 2048 then
    String (ascii_of_N (192 + c / 64))
      (String (ascii_of_N (128 + c mod 64)) EmptyString)
  else if (56448 <=? c) && (c <=? 56575) then
    String (ascii_of_N (c - 56320)) EmptyString
  else if c <? 65536 then
    String (ascii_of_N (224 + c / 4096))
      (String (ascii_of_N (128 + (c / 64) mod 64))
         (String (ascii_of_N (128 + c mod 64)) EmptyString))
  else
    String (ascii_of_N (240 + c / 262144))
      (String (ascii_of_N (128 + (c / 4096) mod 64))
         (String (ascii_of_N (128 + (c / 64) mod 64))
            (String (ascii_of_N (128 + c mod 64)) EmptyString))).

Fixpoint encode (l : list N) : string :=
  match l with
  | [] => EmptyString
  | c :: l' => encode_code_point c +:+ encode l'
  end.

(** A text every byte of which belongs to a valid UTF-8 sequence. *)
Definition valid (s : string) : bool :=
  forallb (fun c => negb ((56448 <=? c) && (c <=? 56575))) (decode s).

(** *** The case tables of CPython 3.11 (Unicode 14.0) *)

(** The one-to-one lower-case mappings, in runs: [(first, last, step,
    target)] sends [first + k * step], up to [last], to
    [target + k * step]. *)
Definition lower_runs : list (N * N * N * N) :=
  [
   (65, 90, 1, 97); (192, 214, 1, 224); (216, 222, 1, 248);
   (256, 302, 2, 257); (306, 310, 2, 307); (313, 327, 2, 314);
   (330, 374, 2, 331); (376, 376, 1, 255); (377, 381, 2, 378);
   (385, 385, 1, 595); (386, 388, 2, 387); (390, 390, 1, 596);
   (391, 391, 1, 392); (393, 394, 1, 598); (395, 395, 1, 396);
   (398, 398, 1, 477); (399, 399, 1, 601); (400, 400, 1, 603);
   (401, 401, 1, 402); (403, 403, 1, 608); (404, 404, 1, 611);
   (406, 406, 1, 617); (407, 407, 1, 616); (408, 408, 1, 409);
   (412, 412, 1, 623); (413, 413, 1, 626); (415, 415, 1, 629);
   (416, 420, 2, 417); (422, 422, 1, 640); (423, 423, 1, 424);
   (425, 425, 1, 643); (428, 428, 1, 429); (430, 430, 1, 648);
   (431, 431, 1, 432); (433, 434, 1, 650); (435, 437, 2, 436);
   (439, 439, 1, 658); (440, 440, 1, 441); (444, 444, 1, 445);
   (452, 452, 1, 454); (453, 453, 1, 454); (455, 455, 1, 457);
   (456, 456, 1, 457); (458, 458, 1, 460); (459, 475, 2, 460);
   (478, 494, 2, 479); (497, 497, 1, 499); (498, 500, 2, 499);
   (502, 502, 1, 405); (503, 503, 1, 447); (504, 542, 2, 505);
   (544, 544, 1, 414); (546, 562, 2, 547); (570, 570, 1, 11365);
   (571, 571, 1, 572); (573, 573, 1, 410); (574, 574, 1, 11366);
   (577, 577, 1, 578); (579, 579, 1, 384); (580, 580, 1, 649);
   (581, 581, 1, 652); (582, 590, 2, 583); (880, 882, 2, 881);
   (886, 886, 1, 887); (895, 895, 1, 1011); (902, 902, 1, 940);
   (904, 906, 1, 941); (908, 908, 1, 972); (910, 911, 1, 973);
   (913, 929, 1, 945); (931, 939, 1, 963); (975, 975, 1, 983);
   (984, 1006, 2, 985); (1012, 1012, 1, 952); (1015, 1015, 1, 1016);
   (1017, 1017, 1, 1010); (1018, 1018, 1, 1019); (1021, 1023, 1, 891);
   (1024, 1039, 1, 1104); (1040, 1071, 1, 1072); (1120, 1152, 2, 1121);
   (1162, 1214, 2, 1163); (1216, 1216, 1, 1231); (1217, 1229, 2, 1218);
   (1232, 1326, 2, 1233); (1329, 1366, 1, 1377); (4256, 4293, 1, 11520);
   (4295, 4295, 1, 11559); (4301, 4301, 1, 11565); (5024, 5103, 1, 43888);
   (5104, 5109, 1, 5112); (7312, 7354, 1, 4304); (7357, 7359, 1, 4349);
   (7680, 7828, 2, 7681); (7838, 7838, 1, 223); (7840, 7934, 2, 7841);
   (7944, 7951, 1, 7936); (7960, 7965, 1, 7952); (7976, 7983, 1, 7968);
   (7992, 7999, 1, 7984); (8008, 8013, 1, 8000); (8025, 8031, 2, 8017);
   (8040, 8047, 1, 8032); (8072, 8079, 1, 8064); (8088, 8095, 1, 8080);
   (8104, 8111, 1, 8096); (8120, 8121, 1, 8112); (8122, 8123, 1, 8048);
   (8124, 8124, 1, 8115); (8136, 8139, 1, 8050); (8140, 8140, 1, 8131);
   (8152, 8153, 1, 8144); (8154, 8155, 1, 8054); (8168, 8169, 1, 8160);
   (8170, 8171, 1, 8058); (8172, 8172, 1, 8165); (8184, 8185, 1, 8056);
   (8186, 8187, 1, 8060); (8188, 8188, 1, 8179); (8486, 8486, 1, 969);
   (8490, 8490, 1, 107); (8491, 8491, 1, 229); (8498, 8498, 1, 8526);
   (8544, 8559, 1, 8560); (8579, 8579, 1, 8580); (9398, 9423, 1, 9424);
   (11264, 11311, 1, 11312); (11360, 11360, 1, 11361); (11362, 11362, 1, 619);
   (11363, 11363, 1, 7549); (11364, 11364, 1, 637); (11367, 11371, 2, 11368);
   (11373, 11373, 1, 593); (11374, 11374, 1, 625); (11375, 11375, 1, 592);
   (11376, 11376, 1, 594); (11378, 11378, 1, 11379); (11381, 11381, 1, 11382);
   (11390, 11391, 1, 575); (11392, 11490, 2, 11393); (11499, 11501, 2, 11500);
   (11506, 11506, 1, 11507); (42560, 42604, 2, 42561); (42624, 42650, 2, 42625);
   (42786, 42798, 2, 42787); (42802, 42862, 2, 42803); (42873, 42875, 2, 42874);
   (42877, 42877, 1, 7545); (42878, 42886, 2, 42879); (42891, 42891, 1, 42892);
   (42893, 42893, 1, 613); (42896, 42898, 2, 42897); (42902, 42920, 2, 42903);
   (42922, 42922, 1, 614); (42923, 42923, 1, 604); (42924, 42924, 1, 609);
   (42925, 42925, 1, 620); (42926, 42926, 1, 618); (42928, 42928, 1, 670);
   (42929, 42929, 1, 647); (42930, 42930, 1, 669); (42931, 42931, 1, 43859);
   (42932, 42946, 2, 42933); (42948, 42948, 1, 42900); (42949, 42949, 1, 642);
   (42950, 42950, 1, 7566); (42951, 42953, 2, 42952); (42960, 42960, 1, 42961);
   (42966, 42968, 2, 42967); (42997, 42997, 1, 42998); (65313, 65338, 1, 65345);
   (66560, 66599, 1, 66600); (66736, 66771, 1, 66776); (66928, 66938, 1, 66967);
   (66940, 66954, 1, 66979); (66956, 66962, 1, 66995); (66964, 66965, 1, 67003);
   (68736, 68786, 1, 68800); (71840, 71871, 1, 71872); (93760, 93791, 1, 93792);
   (125184, 125217, 1, 125218)
  ].

(** The code points the scan for a final sigma steps over
    ([Case_Ignorable]), as ranges [(first, last)]. *)
Definition case_ignorable_ranges : list (N * N) :=
  [
   (39, 39); (46, 46); (58, 58); (94, 94); (96, 96); (168, 168);
   (173, 173); (175, 175); (180, 180); (183, 184); (688, 879); (884, 885);
   (890, 890); (900, 901); (903, 903); (1155, 1161); (1369, 1369); (1375, 1375);
   (1425, 1469); (1471, 1471); (1473, 1474); (1476, 1477); (1479, 1479); (1524, 1524);
   (1536, 1541); (1552, 1562); (1564, 1564); (1600, 1600); (1611, 1631); (1648, 1648);
   (1750, 1757); (1759, 1768); (1770, 1773); (1807, 1807); (1809, 1809); (1840, 1866);
   (1958, 1968); (2027, 2037); (2042, 2042); (2045, 2045); (2070, 2093); (2137, 2139);
   (2184, 2184); (2192, 2193); (2200, 2207); (2249, 2306); (2362, 2362); (2364, 2364);
   (2369, 2376); (2381, 2381); (2385, 2391); (2402, 2403); (2417, 2417); (2433, 2433);
   (2492, 2492); (2497, 2500); (2509, 2509); (2530, 2531); (2558, 2558); (2561, 2562);
   (2620, 2620); (2625, 2626); (2631, 2632); (2635, 2637); (2641, 2641); (2672, 2673);
   (2677, 2677); (2689, 2690); (2748, 2748); (2753, 2757); (2759, 2760); (2765, 2765);
   (2786, 2787); (2810, 2815); (2817, 2817); (2876, 2876); (2879, 2879); (2881, 2884);
   (2893, 2893); (2901, 2902); (2914, 2915); (2946, 2946); (3008, 3008); (3021, 3021);
   (3072, 3072); (3076, 3076); (3132, 3132); (3134, 3136); (3142, 3144); (3146, 3149);
   (3157, 3158); (3170, 3171); (3201, 3201); (3260, 3260); (3263, 3263); (3270, 3270);
   (3276, 3277); (3298, 3299); (3328, 3329); (3387, 3388); (3393, 3396); (3405, 3405);
   (3426, 3427); (3457, 3457); (3530, 3530); (3538, 3540); (3542, 3542); (3633, 3633);
   (3636, 3642); (3654, 3662); (3761, 3761); (3764, 3772); (3782, 3782); (3784, 3789);
   (3864, 3865); (3893, 3893); (3895, 3895); (3897, 3897); (3953, 3966); (3968, 3972);
   (3974, 3975); (3981, 3991); (3993, 4028); (4038, 4038); (4141, 4144); (4146, 4151);
   (4153, 4154); (4157, 4158); (4184, 4185); (4190, 4192); (4209, 4212); (4226, 4226);
   (4229, 4230); (4237, 4237); (4253, 4253); (4348, 4348); (4957, 4959); (5906, 5908);
   (5938, 5939); (5970, 5971); (6002, 6003); (6068, 6069); (6071, 6077); (6086, 6086);
   (6089, 6099); (6103, 6103); (6109, 6109); (6155, 6159); (6211, 6211); (6277, 6278);
   (6313, 6313); (6432, 6434); (6439, 6440); (6450, 6450); (6457, 6459); (6679, 6680);
   (6683, 6683); (6742, 6742); (6744, 6750); (6752, 6752); (6754, 6754); (6757, 6764);
   (6771, 6780); (6783, 6783); (6823, 6823); (6832, 6862); (6912, 6915); (6964, 6964);
   (6966, 6970); (6972, 6972); (6978, 6978); (7019, 7027); (7040, 7041); (7074, 7077);
   (7080, 7081); (7083, 7085); (7142, 7142); (7144, 7145); (7149, 7149); (7151, 7153);
   (7212, 7219); (7222, 7223); (7288, 7293); (7376, 7378); (7380, 7392); (7394, 7400);
   (7405, 7405); (7412, 7412); (7416, 7417); (7468, 7530); (7544, 7544); (7579, 7679);
   (8125, 8125); (8127, 8129); (8141, 8143); (8157, 8159); (8173, 8175); (8189, 8190);
   (8203, 8207); (8216, 8217); (8228, 8228); (8231, 8231); (8234, 8238); (8288, 8292);
   (8294, 8303); (8305, 8305); (8319, 8319); (8336, 8348); (8400, 8432); (11388, 11389);
   (11503, 11505); (11631, 11631); (11647, 11647); (11744, 11775); (11823, 11823); (12293, 12293);
   (12330, 12333); (12337, 12341); (12347, 12347); (12441, 12446); (12540, 12542); (40981, 40981);
   (42232, 42237); (42508, 42508); (42607, 42610); (42612, 42621); (42623, 42623); (42652, 42655);
   (42736, 42737); (42752, 42785); (42864, 42864); (42888, 42890); (42994, 42996); (43000, 43001);
   (43010, 43010); (43014, 43014); (43019, 43019); (43045, 43046); (43052, 43052); (43204, 43205);
   (43232, 43249); (43263, 43263); (43302, 43309); (43335, 43345); (43392, 43394); (43443, 43443);
   (43446, 43449); (43452, 43453); (43471, 43471); (43493, 43494); (43561, 43566); (43569, 43570);
   (43573, 43574); (43587, 43587); (43596, 43596); (43632, 43632); (43644, 43644); (43696, 43696);
   (43698, 43700); (43703, 43704); (43710, 43711); (43713, 43713); (43741, 43741); (43756, 43757);
   (43763, 43764); (43766, 43766); (43867, 43871); (43881, 43883); (44005, 44005); (44008, 44008);
   (44013, 44013); (64286, 64286); (64434, 64450); (65024, 65039); (65043, 65043); (65056, 65071);
   (65106, 65106); (65109, 65109); (65279, 65279); (65287, 65287); (65294, 65294); (65306, 65306);
   (65342, 65342); (65344, 65344); (65392, 65392); (65438, 65439); (65507, 65507); (65529, 65531);
   (66045, 66045); (66272, 66272); (66422, 66426); (67456, 67461); (67463, 67504); (67506, 67514);
   (68097, 68099); (68101, 68102); (68108, 68111); (68152, 68154); (68159, 68159); (68325, 68326);
   (68900, 68903); (69291, 69292); (69446, 69456); (69506, 69509); (69633, 69633); (69688, 69702);
   (69744, 69744); (69747, 69748); (69759, 69761); (69811, 69814); (69817, 69818); (69821, 69821);
   (69826, 69826); (69837, 69837); (69888, 69890); (69927, 69931); (69933, 69940); (70003, 70003);
   (70016, 70017); (70070, 70078); (70089, 70092); (70095, 70095); (70191, 70193); (70196, 70196);
   (70198, 70199); (70206, 70206); (70367, 70367); (70371, 70378); (70400, 70401); (70459, 70460);
   (70464, 70464); (70502, 70508); (70512, 70516); (70712, 70719); (70722, 70724); (70726, 70726);
   (70750, 70750); (70835, 70840); (70842, 70842); (70847, 70848); (70850, 70851); (71090, 71093);
   (71100, 71101); (71103, 71104); (71132, 71133); (71219, 71226); (71229, 71229); (71231, 71232);
   (71339, 71339); (71341, 71341); (71344, 71349); (71351, 71351); (71453, 71455); (71458, 71461);
   (71463, 71467); (71727, 71735); (71737, 71738); (71995, 71996); (71998, 71998); (72003, 72003);
   (72148, 72151); (72154, 72155); (72160, 72160); (72193, 72202); (72243, 72248); (72251, 72254);
   (72263, 72263); (72273, 72278); (72281, 72283); (72330, 72342); (72344, 72345); (72752, 72758);
   (72760, 72765); (72767, 72767); (72850, 72871); (72874, 72880); (72882, 72883); (72885, 72886);
   (73009, 73014); (73018, 73018); (73020, 73021); (73023, 73029); (73031, 73031); (73104, 73105);
   (73109, 73109); (73111, 73111); (73459, 73460); (78896, 78904); (92912, 92916); (92976, 92982);
   (92992, 92995); (94031, 94031); (94095, 94111); (94176, 94177); (94179, 94180); (110576, 110579);
   (110581, 110587); (110589, 110590); (113821, 113822); (113824, 113827); (118528, 118573); (118576, 118598);
   (119143, 119145); (119155, 119170); (119173, 119179); (119210, 119213); (119362, 119364); (121344, 121398);
   (121403, 121452); (121461, 121461); (121476, 121476); (121499, 121503); (121505, 121519); (122880, 122886);
   (122888, 122904); (122907, 122913); (122915, 122916); (122918, 122922); (123184, 123197); (123566, 123566);
   (123628, 123631); (125136, 125142); (125252, 125259); (127995, 127999); (917505, 917505); (917536, 917631);
   (917760, 917999)
  ].

(** The cased code points among those the scan does not step over. *)
Definition cased_ranges : list (N * N) :=
  [
   (65, 90); (97, 122); (170, 170); (181, 181); (186, 186); (192, 214);
   (216, 246); (248, 442); (444, 447); (452, 659); (661, 687); (880, 883);
   (886, 887); (891, 893); (895, 895); (902, 902); (904, 906); (908, 908);
   (910, 929); (931, 1013); (1015, 1153); (1162, 1327); (1329, 1366); (1376, 1416);
   (4256, 4293); (4295, 4295); (4301, 4301); (4304, 4346); (4349, 4351); (5024, 5109);
   (5112, 5117); (7296, 7304); (7312, 7354); (7357, 7359); (7424, 7467); (7531, 7543);
   (7545, 7578); (7680, 7957); (7960, 7965); (7968, 8005); (8008, 8013); (8016, 8023);
   (8025, 8025); (8027, 8027); (8029, 8029); (8031, 8061); (8064, 8116); (8118, 8124);
   (8126, 8126); (8130, 8132); (8134, 8140); (8144, 8147); (8150, 8155); (8160, 8172);
   (8178, 8180); (8182, 8188); (8450, 8450); (8455, 8455); (8458, 8467); (8469, 8469);
   (8473, 8477); (8484, 8484); (8486, 8486); (8488, 8488); (8490, 8493); (8495, 8500);
   (8505, 8505); (8508, 8511); (8517, 8521); (8526, 8526); (8544, 8575); (8579, 8580);
   (9398, 9449); (11264, 11387); (11390, 11492); (11499, 11502); (11506, 11507); (11520, 11557);
   (11559, 11559); (11565, 11565); (42560, 42605); (42624, 42651); (42786, 42863); (42865, 42887);
   (42891, 42894); (42896, 42954); (42960, 42961); (42963, 42963); (42965, 42969); (42997, 42998);
   (43002, 43002); (43824, 43866); (43872, 43880); (43888, 43967); (64256, 64262); (64275, 64279);
   (65313, 65338); (65345, 65370); (66560, 66639); (66736, 66771); (66776, 66811); (66928, 66938);
   (66940, 66954); (66956, 66962); (66964, 66965); (66967, 66977); (66979, 66993); (66995, 67001);
   (67003, 67004); (68736, 68786); (68800, 68850); (71840, 71903); (93760, 93823); (119808, 119892);
   (119894, 119964); (119966, 119967); (119970, 119970); (119973, 119974); (119977, 119980); (119982, 119993);
   (119995, 119995); (119997, 120003); (120005, 120069); (120071, 120074); (120077, 120084); (120086, 120092);
   (120094, 120121); (120123, 120126); (120128, 120132); (120134, 120134); (120138, 120144); (120146, 120485);
   (120488, 120512); (120514, 120538); (120540, 120570); (120572, 120596); (120598, 120628); (120630, 120654);
   (120656, 120686); (120688, 120712); (120714, 120744); (120746, 120770); (120772, 120779); (122624, 122633);
   (122635, 122654); (125184, 125251); (127280, 127305); (127312, 127337); (127344, 127369)
  ].

Fixpoint lookup_run (runs : list (N * N * N * N)) (c : N) : option N :=
  match runs with
  | [] => None
  | (first, last, step, target) :: runs' =>
      if (first <=? c) && (c <=? last) && ((c - first) mod step =? 0)
      then Some (target + (c - first))
      else lookup_run runs' c
  end.

Fixpoint in_ranges (ranges : list (N * N)) (c : N) : bool :=
  match ranges with
  | [] => false
  | (first, last) :: ranges' =>
      ((first <=? c) && (c <=? last)) || in_ranges ranges' c
  end.

(** The lower case of one code point outside any context: U+0130 becomes
    two code points, the others one. *)
Definition to_lower_full (c : N) : list N :=
  if c =? 304 then [105; 775]
  else match lookup_run lower_runs c with
       | Some target => [target]
       | None => [c]
       end.

(** The first code point of [l] that the scan does not step over. *)
Fixpoint first_not_ignorable (l : list N) : option N :=
  match l with
  | [] => None
  | c :: l' =>
      if in_ranges case_ignorable_ranges c then first_not_ignorable l'
      else Some c
  end.

(** Whether a capital sigma stands at the end of a word: a cased letter
    before it and none after it, stepping over the ignorable code points.
    [before] is the text before the sigma, nearest code point first. *)
Definition final_sigma (before after : list N) : bool :=
  match first_not_ignorable before with
  | None => false
  | Some b =>
      in_ranges cased_ranges b &&
      match first_not_ignorable after with
      | None => true
      | Some a => negb (in_ranges cased_ranges a)
      end
  end.

(** [str.lower] on code points: each code point by the table, the capital
    sigma U+03A3 to the final sigma U+03C2 at the end of a word and to
    U+03C3 elsewhere. *)
Fixpoint lower_code_points (before l : list N) : list N :=
  match l with
  | [] => []
  | c :: l' =>
      (if c =? 931
       then [if final_sigma before l' then 962 else 963]
       else to_lower_full c)
      ++ lower_code_points (c :: before) l'
  end.

End Unicode.

(* ===================================================================== *)
(** ** Python strings *)
(* ===================================================================== *)

Module PyStr.

(** The code points of [s.lower()]: the text is decoded to code points and
    lower-cased as CPython does. *)
Definition lower_points (s : string) : list N :=
  Unicode.lower_code_points [] (Unicode.decode s).

(** [s.lower()], as bytes again. *)
Definition lower (s : string) : string := Unicode.encode (lower_points s).

(** [s.startswith(p)] *)
Fixpoint startswith (s p : string) {struct p} : bool :=
  match p, s with
  | EmptyString, _ => true
  | String a p', String b s' => Ascii.eqb a b && startswith s' p'
  | String _ _, EmptyString => false
  end.

(** [s.endswith(suf)]: some suffix of [s] is [suf]. *)
Fixpoint endswith (s suf : string) : bool :=
  String.eqb s suf ||
  match s with
  | EmptyString => false
  | String _ s' => endswith s' suf
  end.

(** [sub in s], for two texts given by their code points: [sub] starts at
    some position of [s]. *)
Fixpoint starts (s sub : list N) {struct sub} : bool :=
  match sub, s with
  | [], _ => true
  | c :: sub', d :: s' => N.eqb c d && starts s' sub'
  | _ :: _, [] => false
  end.

Fixpoint contains (s sub : list N) : bool :=
  starts s sub ||
  match s with
  | [] => false
  | _ :: s' => contains s' sub
  end.

(** [s.split(sep)] for a one-character separator: the pieces between the
    occurrences of [sep]; never the empty list. *)
Fixpoint split (sep : ascii) (s : string) : list string :=
  match s with
  | EmptyString => [EmptyString]
  | String c s' =>
      if Ascii.eqb c sep then EmptyString :: split sep s'
      else match split sep s' with
           | piece :: rest => String c piece :: rest
           | [] => [String c EmptyString]
           end
  end.

(** [sep.join(pieces)] *)
Fixpoint join (sep : string) (pieces : list string) : string :=
  match pieces with
  | [] => EmptyString
  | [p] => p
  | p :: rest => p +:+ sep +:+ join sep rest
  end.

(** [c in s] for one character. *)
Fixpoint has_char (c : ascii) (s : string) : bool :=
  match s with
  | EmptyString => false
  | String a s' => Ascii.eqb a c || has_char c s'
  end.

End PyStr.

(* ===================================================================== *)
(** ** [os.path.join] (posixpath), two arguments *)
(* ===================================================================== *)

Module PosixPath.
Import PyStr.

(** [posixpath.join(a, b)]: an absolute [b] replaces [a]; an empty [a] or
    one that ends in the separator takes [b] directly; otherwise the
    separator is put between them. *)
Definition join (a b : string) : string :=
  if startswith b "/" then b
  else if String.eqb a EmptyString || endswith a "/" then a +:+ b
  else a +:+ "/" +:+ b.

(** The text after the last separator ([posixpath.basename]); used to
    state that a joined path still shows the file name it was built from. *)
Fixpoint basename (p : string) : string :=
  match p with
  | EmptyString => EmptyString
  | String c p' =>
      if has_char "/" p' then basename p'
      else if Ascii.eqb c "/" then p' else p
  end.

End PosixPath.

(* ===================================================================== *)
(** ** Exceptions and the monad of the scripts *)
(* ===================================================================== *)

Module Py.

(** The exceptions the two scripts can meet.  All are subclasses of
    [Exception], so an [except Exception] clause catches any of them. *)
Inductive exn : Type :=
| OSError (path : string)      (* a failed file-system call on [path] *)
| NameError (name : string)    (* name '...' is not defined *)
| UnicodeEncodeError (text : string).  (* [text] cannot be encoded *)

Inductive result (A : Type) : Type :=
| Ok (a : A)
| Raise (e : exn).
Arguments Ok {A} a.
Arguments Raise {A} e.

(** State [W] (the world a script runs in) and exceptions. *)
Definition M (W A : Type) : Type := W -> result A * W.

Definition ret {W A} (a : A) : M W A := fun w => (Ok a, w).

Definition bind {W A B} (m : M W A) (k : A -> M W B) : M W B :=
  fun w =>
    match m w with
    | (Ok a, w') => k a w'
    | (Raise e, w') => (Raise e, w')
    end.

Definition raise {W A} (e : exn) : M W A := fun w => (Raise e, w).

(** [try: body / except Exception as e: handler e].  What the body did to
    the world before it raised stays done. *)
Definition try_except {W A} (body : M W A) (handler : exn -> M W A)
  : M W A :=
  fun w =>
    match body w with
    | (Ok a, w') => (Ok a, w')
    | (Raise e, w') => handler e w'
    end.

Declare Scope py_scope.
Delimit Scope py_scope with py.
Notation "x <- m ;; k" := (bind m (fun x => k))
  (at level 100, m at next level, right associativity) : py_scope.
Notation "m ;; k" := (bind m (fun _ => k))
  (at level 100, right associativity) : py_scope.

(** [for x in l: acc = body acc x] *)
Fixpoint for_each {W A S} (body : S -> A -> M W S) (l : list A) (acc : S)
  : M W S :=
  match l with
  | [] => ret acc
  | x :: l' => bind (body acc x) (for_each body l')
  end.

(** Evaluating a name in a scope given by the names bound in it: an
    unbound name raises [NameError]. *)
Definition load_name {W} (scope : list string) (name : string) : M W unit :=
  if existsb (String.eqb name) scope then ret tt else raise (NameError name).

End Py.

(* ===================================================================== *)
(** ** mergeOutput.py *)
(* ===================================================================== *)

Module MergeOutput.
Import PyStr Py.
Local Open Scope py_scope.

(** *** The log *)

(** One constructor per message template of the script; the arguments
    are the values the f-string formats.  Sizes are carried as the integer
    number of bytes; [shown_2f] below is how the script displays them. *)
Inductive message : Type :=
| MsgCollecting                                (* line 123 *)
| MsgRuleOpen                                  (* lines 39, 58, 90 *)
| MsgRuleClose                                 (* lines 41, 61, 141 *)
| MsgDirCount (n : nat) (root : string)        (* line 40 *)
| MsgFileSizeKB (path : string) (size : Z)     (* line 53 *)
| MsgFileSizeGB (path : string) (size : Z)     (* line 54 *)
| MsgSizeFailed (path : string) (e : exn)      (* line 56 *)
| MsgEstimatedKB (total : Z)                   (* line 59 *)
| MsgEstimatedGB (total : Z)                   (* line 60 *)
| MsgAdded (path : string)                     (* line 75 *)
| MsgStartMerge                                (* line 76 *)
| MsgMergeFailed                               (* line 79 *)
| MsgMergeSucceeded                            (* line 82 *)
| MsgMergedSizeKB (out : string) (final : Z)   (* line 94 *)
| MsgDifferenceKB (diff : Z)                   (* line 96 *)
| MsgMergedSizeFailed (e : exn)                (* line 99 *)
| MsgOverallFailed                             (* line 133 *)
| MsgJobCompleted.                             (* lines 138-139 *)

(** [f"{x/d:.2f}"] for an integer [x] and [d] a power of two (1024 or
    1024**3), for |x| below 2**53 where the float quotient is exact: the
    quotient rounded to hundredths, ties to the even digit, sign first. *)
Definition hundredths (x d : Z) : Z :=
  let a := Z.abs x * 100 in
  let q := a / d in
  let r := a mod d in
  if d <? 2 * r then q + 1
  else if d =? 2 * r then q + q mod 2
  else q.

Definition decimal (n : Z) : string :=
  DecimalString.NilZero.string_of_uint (N.to_uint (Z.to_N n)).

Definition shown_2f (x d : Z) : string :=
  let h := hundredths x d in
  (if x <? 0 then "-" else EmptyString) +:+
  decimal (h / 100) +:+ "." +:+
  decimal (h mod 100 / 10) +:+ decimal (h mod 10).

(** The rule of 73 dashes of the separator messages. *)
Definition dashes : string :=
  "-------------------------------------------------------------------------".

Definition nl : string := String "010" EmptyString.

(** The text of a message, for the templates whose arguments are strings
    and integers.  The text of an exception ([{e}]) and the clock readings
    of the closing message are not modelled: those give [None]. *)
Definition text_of (m : message) : option string :=
  match m with
  | MsgCollecting => Some "Collecting .root files from subdirectories."
  | MsgRuleOpen => Some (nl +:+ nl +:+ dashes +:+ nl)
  | MsgRuleClose => Some (nl +:+ dashes +:+ nl +:+ nl)
  | MsgDirCount n root =>
      Some ("There are " +:+ decimal (Z.of_nat n) +:+
            " .root files in directory '" +:+ root +:+ "'.")
  | MsgFileSizeKB path size =>
      Some ("The size of file '" +:+ path +:+ "' is " +:+
            shown_2f size 1024 +:+ " KB.")
  | MsgFileSizeGB path size =>
      Some ("The size of file '" +:+ path +:+ "' is " +:+
            shown_2f size (1024 ^ 3) +:+ " GB.")
  | MsgSizeFailed _ _ => None
  | MsgEstimatedKB total_size =>
      Some ("Estimated total size before merging is " +:+
            shown_2f total_size 1024 +:+ " KB.")
  | MsgEstimatedGB total_size =>
      Some ("Estimated total size before merging is " +:+
            shown_2f total_size (1024 ^ 3) +:+ " GB.")
  | MsgAdded path =>
      Some ("Added file '" +:+ path +:+ "' to the merge list.")
  | MsgStartMerge => Some "Starting the merge process."
  | MsgMergeFailed => Some "The merge process failed!"
  | MsgMergeSucceeded => Some "The merge process completed successfully."
  | MsgMergedSizeKB out final =>
      Some ("The merged file '" +:+ out +:+ "' has a size of " +:+
            shown_2f final 1024 +:+ " KB.")
  | MsgDifferenceKB diff =>
      Some ("The difference between the estimated and merged file size is "
            +:+ shown_2f diff 1024 +:+ " KB.")
  | MsgMergedSizeFailed _ => None
  | MsgOverallFailed => Some "The overall merge process failed."
  | MsgJobCompleted => None
  end.

(** The methods of [RootFileMerger] whose invocation is traced. *)
Inductive method : Type :=
| Gather_files | Estimate_total_size | Merge_files | Compare_sizes.

(** The calls the script makes on the external merge engine. *)
Inductive engine_call : Type :=
| New_TFileMerger (isLocal : bool)
| SetPrintLevel (level : Z)
| OutputFile (path : string)
| AddFile (path : string)
| Merge (success : bool).      (* [Merge()] and the flag it returned *)

Inductive event : Type :=
| Log (m : message)
| Enter (f : method)
| Engine (c : engine_call).

(** *** The merge engine, as the script sees it *)

(** The state of a [TFileMerger] object per its contract: the constructor
    flag, the print level, the output path, the ordered input list. *)
Record TFileMerger : Type := {
  isLocal : bool;
  printLevel : Z;
  outputFile : option string;
  inputFiles : list string
}.

(** *** The world the script runs in *)

(** [sizes p] is what [os.path.getsize(p)] gives now: a byte count or an
    [OSError]. *)
Record World : Type := {
  sizes : string -> result Z;
  trace : list event
}.

(** The parts of the environment the script only observes.
    [engine_Merge] is the engine's [Merge()]: from the engine object and
    the current file sizes it gives the success flag and the file sizes
    after the merge (the engine writes the output file). *)
Record Env : Type := {
  os_walk : string -> list (string * list string * list string);
  os_path_abspath : string -> string;
  engine_Merge : TFileMerger -> (string -> result Z) ->
                 bool * (string -> result Z)
}.

Definition emit (e : event) : M World unit :=
  fun w => (Ok tt, {| sizes := sizes w; trace := trace w ++ [e] |}).

(** [self.log(message)], [logger.info(message)] *)
Definition log (m : message) : M World unit := emit (Log m).

(** [os.path.getsize(path)] *)
Definition os_path_getsize (path : string) : M World Z :=
  fun w => (sizes w path, w).

(** *** class RootFileMerger *)

Record RootFileMerger : Type := {
  base_dir : string;
  mergeFilePattern : string;
  output_file_name : string;
  file_dict : gmap string (list string);
  all_files : list string
}.

(** [RootFileMerger.__init__], lines 18-22 *)
Definition init (base pat out : string) : RootFileMerger :=
  {| base_dir := base; mergeFilePattern := pat; output_file_name := out;
     file_dict := ∅; all_files := [] |}.

(** [self.mergeFilePattern.split('*')[0]] *)
Definition pattern_prefix (pat : string) : string :=
  match split "*" pat with
  | piece :: _ => piece
  | [] => EmptyString   (* [split] never gives the empty list *)
  end.

(** The condition of the comprehension on line 35,
    [f.lower().endswith('.root') and
     self.mergeFilePattern.split('*')[0].lower() in f.lower()].
    The substring test compares code points.  The two tests on one ASCII
    character or on ASCII text, [split('*')] and [endswith('.root')], read
    the bytes: in the encoding of a text a byte below 128 is always a code
    point of its own. *)
Definition file_matches (pat f : string) : bool :=
  endswith (lower f) ".root" &&
  contains (lower_points f) (lower_points (pattern_prefix pat)).

(** [[os.path.join(root, f) for f in files if ...]], lines 34-35 *)
Definition matching_files (pat root : string) (files : list string)
  : list string :=
  List.map (PosixPath.join root) (List.filter (file_matches pat) files).

(** What lines 37-38 do to the object. *)
Definition record_found (self : RootFileMerger) (root : string)
    (found : list string) : RootFileMerger :=
  {| base_dir := base_dir self;
     mergeFilePattern := mergeFilePattern self;
     output_file_name := output_file_name self;
     file_dict := <[root := found]> (file_dict self);
     all_files := all_files self ++ found |}.

(** The body of the loop of [gather_files], lines 34-41. *)
Definition gather_step (self : RootFileMerger)
    (entry : string * list string * list string)
  : M World RootFileMerger :=
  let '(root, _, files) := entry in
  let found := matching_files (mergeFilePattern self) root files in
  match found with
  | [] => ret self
  | _ :: _ =>
      log MsgRuleOpen ;;
      log (MsgDirCount (length found) root) ;;
      log MsgRuleClose ;;
      ret (record_found self root found)
  end.

(** [gather_files], lines 28-41 *)
Definition gather_files (env : Env) (self : RootFileMerger)
  : M World RootFileMerger :=
  emit (Enter Gather_files) ;;
  for_each gather_step (os_walk env (base_dir self)) self.

(** The body of the loop of [estimate_total_size], lines 50-56. *)
Definition estimate_step (total_size : Z) (file_path : string)
  : M World Z :=
  try_except
    (size <- os_path_getsize file_path ;;
     let total_size := total_size + size in
     log (MsgFileSizeKB file_path size) ;;
     log (MsgFileSizeGB file_path size) ;;
     ret total_size)
    (fun e => log (MsgSizeFailed file_path e) ;; ret total_size).

(** [estimate_total_size], lines 43-63 *)
Definition estimate_total_size (self : RootFileMerger) : M World Z :=
  emit (Enter Estimate_total_size) ;;
  total_size <- for_each estimate_step (all_files self) 0 ;;
  log MsgRuleOpen ;;
  log (MsgEstimatedKB total_size) ;;
  log (MsgEstimatedGB total_size) ;;
  log MsgRuleClose ;;
  ret total_size.

(** [merger.AddFile(path)]: the engine appends the path to its inputs. *)
Definition add_input (merger : TFileMerger) (path : string) : TFileMerger :=
  {| isLocal := isLocal merger; printLevel := printLevel merger;
     outputFile := outputFile merger;
     inputFiles := inputFiles merger ++ [path] |}.

(** The body of the loop of [merge_files], lines 74-75. *)
Definition add_step (merger : TFileMerger) (file_path : string)
  : M World TFileMerger :=
  emit (Engine (AddFile file_path)) ;;
  log (MsgAdded file_path) ;;
  ret (add_input merger file_path).

(** [merger.Merge()], line 77 *)
Definition call_Merge (env : Env) (merger : TFileMerger) : M World bool :=
  fun w =>
    let '(success, sizes') := engine_Merge env merger (sizes w) in
    (Ok success,
     {| sizes := sizes'; trace := trace w ++ [Engine (Merge success)] |}).

(** [merge_files], lines 65-83 *)
Definition merge_files (env : Env) (self : RootFileMerger) : M World bool :=
  emit (Enter Merge_files) ;;
  emit (Engine (New_TFileMerger false)) ;;
  emit (Engine (SetPrintLevel 0)) ;;
  emit (Engine (OutputFile (output_file_name self))) ;;
  let merger :=
    {| isLocal := false; printLevel := 0;
       outputFile := Some (output_file_name self); inputFiles := [] |} in
  merger <- for_each add_step (all_files self) merger ;;
  log MsgStartMerge ;;
  success <- call_Merge env merger ;;
  if negb success then log MsgMergeFailed ;; ret false
  else log MsgMergeSucceeded ;; ret true.

(** [compare_sizes], lines 85-100 *)
Definition compare_sizes (self : RootFileMerger) (estimated_size : Z)
  : M World (option Z) :=
  emit (Enter Compare_sizes) ;;
  log MsgRuleOpen ;;
  try_except
    (final_size <- os_path_getsize (output_file_name self) ;;
     log (MsgMergedSizeKB (output_file_name self) final_size) ;;
     let diff := final_size - estimated_size in
     log (MsgDifferenceKB diff) ;;
     ret (Some final_size))
    (fun e => log (MsgMergedSizeFailed e) ;; ret None).

(** The names [main] can evaluate: its own local variables (the names it
    assigns, lines 103-137) and the module's globals (lines 3-9, 102).
    No builtin is called [self]. *)
Definition main_locals : list string :=
  ["parser"; "args"; "logger"; "formatter"; "sh"; "start_time";
   "merger_instance"; "estimated_size"; "elapsed_time"; "minutes";
   "seconds"].

Definition module_globals : list string :=
  ["os"; "argparse"; "logging"; "time"; "TFileMerger"; "RootFileMerger";
   "main"].

(** [main], lines 102-141, after the arguments are parsed: [dir], [pat]
    and [out] are the values of [--dir], [--pat] and [--out].  Setting up
    the logger and reading the clock (lines 116-121, 125, 135-137) leave no
    event: the closing message carries no value. *)
Definition main (env : Env) (dir pat out : string) : M World unit :=
  let base := os_path_abspath env dir in
  log MsgCollecting ;;
  let merger_instance := init base pat out in
  merger_instance <- gather_files env merger_instance ;;
  estimated_size <- estimate_total_size merger_instance ;;
  ok <- merge_files env merger_instance ;;
  (if ok then compare_sizes merger_instance estimated_size ;; ret tt
   else log MsgOverallFailed) ;;
  log MsgJobCompleted ;;
  (* line 141: self.log(...) *)
  load_name (main_locals ++ module_globals) "self" ;;
  log MsgRuleClose.

(** *** Reading a trace *)

Definition logged (t : list event) : list message :=
  omap (fun e => match e with Log m => Some m | _ => None end) t.

Definition entered (f : method) (t : list event) : nat :=
  List.length
    (List.filter
       (fun e => match e, f with
                 | Enter Gather_files, Gather_files
                 | Enter Estimate_total_size, Estimate_total_size
                 | Enter Merge_files, Merge_files
                 | Enter Compare_sizes, Compare_sizes => true
                 | _, _ => false
                 end) t).

Definition added_files (t : list event) : list string :=
  omap (fun e => match e with Engine (AddFile p) => Some p | _ => None end) t.

Definition merge_calls (t : list event) : nat :=
  List.length
    (List.filter
       (fun e => match e with Engine (Merge _) => true | _ => false end) t).

(** The messages only [compare_sizes] writes (lines 94, 96, 99). *)
Definition is_comparison (m : message) : bool :=
  match m with
  | MsgMergedSizeKB _ _ | MsgDifferenceKB _ | MsgMergedSizeFailed _ => true
  | _ => false
  end.

(** *** What the loops compute, without the log *)

(** The paths one entry of the walk contributes. *)
Definition found_in (pat : string)
    (entry : string * list string * list string) : list string :=
  let '(root, _, files) := entry in matching_files pat root files.

(** The paths a whole walk contributes, in the order of the walk. *)
Definition discovered (pat : string)
    (walk : list (string * list string * list string)) : list string :=
  concat (List.map (found_in pat) walk).

(** The object after the loop of [gather_files] ran over [walk]. *)
Definition gathered (self : RootFileMerger)
    (walk : list (string * list string * list string)) : RootFileMerger :=
  fold_left
    (fun s entry =>
       match found_in (mergeFilePattern s) entry with
       | [] => s
       | found => record_found s (fst (fst entry)) found
       end)
    walk self.

(** The directory table after the loop of [gather_files] ran over
    [walk], starting from the table [d]. *)
Definition found_dict (pat : string)
    (walk : list (string * list string * list string))
    (d : gmap string (list string)) : gmap string (list string) :=
  fold_left
    (fun d entry =>
       match found_in pat entry with
       | [] => d
       | found => <[fst (fst entry) := found]> d
       end)
    walk d.

(** The directories a walk visits. *)
Definition roots (walk : list (string * list string * list string))
  : list string :=
  List.map (fun entry => fst (fst entry)) walk.

(** How many times a path occurs in a list. *)
Definition occurrences (path : string) (files : list string) : nat :=
  List.length (List.filter (String.eqb path) files).

(** The sum of the sizes that could be read. *)
Definition counted (sz : string -> result Z) (files : list string) : Z :=
  fold_right
    (fun f acc => match sz f with Ok n => n + acc | Raise _ => acc end)
    0 files.

(** What [estimate_total_size] logs for one file. *)
Definition size_report (sz : string -> result Z) (f : string)
  : list event :=
  match sz f with
  | Ok n => [Log (MsgFileSizeKB f n); Log (MsgFileSizeGB f n)]
  | Raise e => [Log (MsgSizeFailed f e)]
  end.

(** The sum of [size_of] over a list of paths. *)
Definition total (size_of : string -> Z) (files : list string) : Z :=
  fold_right (fun f acc => size_of f + acc) 0 files.

(** The engine object [merge_files] hands to [Merge()]. *)
Definition loaded_merger (self : RootFileMerger) : TFileMerger :=
  {| isLocal := false; printLevel := 0;
     outputFile := Some (output_file_name self);
     inputFiles := all_files self |}.

(** What [gather_files] logs for one entry of the walk. *)
Definition gather_report (pat : string)
    (entry : string * list string * list string) : list event :=
  match found_in pat entry with
  | [] => []
  | found =>
      [Log MsgRuleOpen; Log (MsgDirCount (length found) (fst (fst entry)));
       Log MsgRuleClose]
  end.

(** What [merge_files] does for one file. *)
Definition add_report (f : string) : list event :=
  [Engine (AddFile f); Log (MsgAdded f)].

(** The world with more events at the end of its trace. *)
Definition extend (w : World) (t : list event) : World :=
  {| sizes := sizes w; trace := trace w ++ t |}.

(** What [merge_files] adds to the trace when [Merge()] returns
    [success]. *)
Definition merge_report (self : RootFileMerger) (success : bool)
  : list event :=
  [Enter Merge_files; Engine (New_TFileMerger false);
   Engine (SetPrintLevel 0); Engine (OutputFile (output_file_name self))]
  ++ concat (List.map add_report (all_files self))
  ++ [Log MsgStartMerge; Engine (Merge success);
      Log (if success then MsgMergeSucceeded else MsgMergeFailed)].

(** What [estimate_total_size] adds to the trace. *)
Definition estimate_report (sz : string -> result Z) (files : list string)
  : list event :=
  Enter Estimate_total_size ::
  concat (List.map (size_report sz) files)
  ++ [Log MsgRuleOpen; Log (MsgEstimatedKB (counted sz files));
      Log (MsgEstimatedGB (counted sz files)); Log MsgRuleClose].

(** What [compare_sizes] adds to the trace. *)
Definition compare_report (sz : string -> result Z) (out : string)
    (estimated_size : Z) : list event :=
  [Enter Compare_sizes; Log MsgRuleOpen] ++
  match sz out with
  | Ok final =>
      [Log (MsgMergedSizeKB out final);
       Log (MsgDifferenceKB (final - estimated_size))]
  | Raise e => [Log (MsgMergedSizeFailed e)]
  end.

(** What [main] adds to the trace, from the file sizes [sz] it starts
    with. *)
Definition main_report (env : Env) (dir pat out : string)
    (sz : string -> result Z) : list event :=
  let base := os_path_abspath env dir in
  let self := gathered (init base pat out) (os_walk env base) in
  let estimated_size := counted sz (all_files self) in
  let merged := engine_Merge env (loaded_merger self) sz in
  [Log MsgCollecting]
  ++ (Enter Gather_files ::
      concat (List.map (gather_report pat) (os_walk env base)))
  ++ estimate_report sz (all_files self)
  ++ merge_report self (fst merged)
  ++ (if fst merged
      then compare_report (snd merged) (output_file_name self)
             estimated_size
      else [Log MsgOverallFailed])
  ++ [Log MsgJobCompleted].

(** An event that does not come from [compare_sizes]. *)
Definition not_from_compare (e : event) : Prop :=
  match e with
  | Log m => is_comparison m = false
  | Enter f => f <> Compare_sizes
  | Engine _ => True
  end.

(** An event that is not a return of the engine's [Merge()]. *)
Definition not_a_merge (e : event) : Prop :=
  match e with Engine (Merge _) => False | _ => True end.

(** *** More readings of a trace and of the object *)

(** The calls made on the merge engine, in order. *)
Definition engine_calls (t : list event) : list engine_call :=
  omap (fun e => match e with Engine c => Some c | _ => None end) t.

(** The methods entered, in order. *)
Definition entries (t : list event) : list method :=
  omap (fun e => match e with Enter f => Some f | _ => None end) t.

(** The per-directory counts logged on line 40, in order. *)
Definition dir_counts (t : list event) : list nat :=
  omap (fun e => match e with
                 | Log (MsgDirCount n _) => Some n
                 | _ => None
                 end) t.

(** The differences logged on line 96, in order. *)
Definition differences (t : list event) : list Z :=
  omap (fun e => match e with
                 | Log (MsgDifferenceKB d) => Some d
                 | _ => None
                 end) t.

(** The two collections of the object agree: no directory of [file_dict]
    has an empty list, and every path listed there is in [all_files]. *)
Definition well_recorded (self : RootFileMerger) : Prop :=
  forall root found,
    file_dict self !! root = Some found ->
    found <> [] /\ (forall p, In p found -> In p (all_files self)).

(** The world before the script starts: nothing logged yet. *)
Definition start (sz : string -> result Z) : World :=
  {| sizes := sz; trace := [] |}.

End MergeOutput.

(* ===================================================================== *)
(** ** jobScriptGenerator.py *)
(* ===================================================================== *)

Module JobScriptGenerator.
Import PyStr Py.
Local Open Scope py_scope.

(** The double quote and the line feed, as one-character strings. *)
Definition dq : string := String "034" EmptyString.
Definition nl : string := String "010" EmptyString.

(** *** The operating system, as the generator sees it *)

(** [os_listdir] and [os_path_isdir] answer queries; [may_open],
    [may_chmod] and [may_makedirs] say whether the call on that path
    succeeds (otherwise it raises [OSError]); [encodable] says whether a
    text can be encoded in the encoding the file was opened with (that of
    the locale), [may_write] whether the system then takes the data for
    that path, and [torn] what a write the system refused leaves of the
    text in the file.  [file_text] and [file_mode] hold the contents and
    the permission bits of the files written so far, [made_dirs] the
    directories [os.makedirs] was asked for, [stdout] what was printed.
    [umask] is the process's file-creation mask. *)
Record OS : Type := {
  os_listdir : string -> result (list string);
  os_path_isdir : string -> bool;
  may_open : string -> bool;
  encodable : string -> bool;
  may_write : string -> bool;
  torn : string -> string -> string;
  may_chmod : string -> bool;
  may_makedirs : string -> bool;
  umask : Z;
  file_text : gmap string string;
  file_mode : gmap string Z;
  made_dirs : list string;
  stdout : list string
}.

Definition listdir (path : string) : M OS (list string) :=
  fun os => (os_listdir os path, os).

(** [open(path, "w")]: the file is created with mode [0o666 & ~umask] when
    it is new, and emptied when it exists; a refused call changes
    nothing. *)
Definition open_for_writing (path : string) : M OS unit :=
  fun os =>
    if may_open os path then
      (Ok tt,
       {| os_listdir := os_listdir os; os_path_isdir := os_path_isdir os;
          may_open := may_open os; encodable := encodable os;
          may_write := may_write os; torn := torn os;
          may_chmod := may_chmod os;
          may_makedirs := may_makedirs os; umask := umask os;
          file_text := <[path := EmptyString]> (file_text os);
          file_mode :=
            match file_mode os !! path with
            | Some _ => file_mode os
            | None =>
                <[path := Z.land 438 (Z.lnot (umask os))]> (file_mode os)
            end;
          made_dirs := made_dirs os; stdout := stdout os |})
    else (Raise (OSError path), os).

(** [f.write(text)] and the closing of the file when the [with] block is
    left.  [write] encodes the text first: a text that cannot be encoded
    raises [UnicodeEncodeError] and the file stays empty.  The data reach
    the system when the file is closed: if the system refuses them,
    [OSError] is raised and the file holds what [torn] says. *)
Definition write_and_close (path text : string) : M OS unit :=
  fun os =>
    if negb (encodable os text) then (Raise (UnicodeEncodeError text), os)
    else if may_write os path then
      (Ok tt,
       {| os_listdir := os_listdir os; os_path_isdir := os_path_isdir os;
          may_open := may_open os; encodable := encodable os;
          may_write := may_write os; torn := torn os;
          may_chmod := may_chmod os;
          may_makedirs := may_makedirs os; umask := umask os;
          file_text := <[path := text]> (file_text os);
          file_mode := file_mode os;
          made_dirs := made_dirs os; stdout := stdout os |})
    else
      (Raise (OSError path),
       {| os_listdir := os_listdir os; os_path_isdir := os_path_isdir os;
          may_open := may_open os; encodable := encodable os;
          may_write := may_write os; torn := torn os;
          may_chmod := may_chmod os;
          may_makedirs := may_makedirs os; umask := umask os;
          file_text := <[path := torn os path text]> (file_text os);
          file_mode := file_mode os;
          made_dirs := made_dirs os; stdout := stdout os |}).

(** [with open(path, "w") as f: f.write(text)] *)
Definition write_file (path text : string) : M OS unit :=
  open_for_writing path ;; write_and_close path text.

(** [os.chmod(path, mode)] *)
Definition chmod (path : string) (mode : Z) : M OS unit :=
  fun os =>
    if may_chmod os path then
      (Ok tt,
       {| os_listdir := os_listdir os; os_path_isdir := os_path_isdir os;
          may_open := may_open os; encodable := encodable os;
          may_write := may_write os; torn := torn os;
          may_chmod := may_chmod os;
          may_makedirs := may_makedirs os; umask := umask os;
          file_text := file_text os;
          file_mode := <[path := mode]> (file_mode os);
          made_dirs := made_dirs os; stdout := stdout os |})
    else (Raise (OSError path), os).

(** [os.makedirs(path, exist_ok=True)] *)
Definition makedirs (path : string) : M OS unit :=
  fun os =>
    if may_makedirs os path then
      (Ok tt,
       {| os_listdir := os_listdir os; os_path_isdir := os_path_isdir os;
          may_open := may_open os; encodable := encodable os;
          may_write := may_write os; torn := torn os;
          may_chmod := may_chmod os;
          may_makedirs := may_makedirs os; umask := umask os;
          file_text := file_text os; file_mode := file_mode os;
          made_dirs := made_dirs os ++ [path]; stdout := stdout os |})
    else (Raise (OSError path), os).

(** [print(line)] *)
Definition print (line : string) : M OS unit :=
  fun os =>
    (Ok tt,
     {| os_listdir := os_listdir os; os_path_isdir := os_path_isdir os;
        may_open := may_open os; encodable := encodable os;
          may_write := may_write os; torn := torn os;
          may_chmod := may_chmod os;
        may_makedirs := may_makedirs os; umask := umask os;
        file_text := file_text os; file_mode := file_mode os;
        made_dirs := made_dirs os; stdout := stdout os ++ [line] |}).

(** [[d for d in os.listdir(storage_path)
      if os.path.isdir(os.path.join(storage_path, d))]], lines 12 and 53 *)
Definition list_subdirs (storage_path : string) : M OS (list string) :=
  names <- listdir storage_path ;;
  fun os =>
    (Ok (List.filter
           (fun d => os_path_isdir os (PosixPath.join storage_path d))
           names),
     os).

(** *** Local mode *)

(** Lines 14-19. *)
Definition local_header (storage_path : string) : list string :=
  [ "#!/bin/bash";
    "MERGE_DIR=" +:+ dq +:+ storage_path +:+ dq;
    "echo -e " +:+ dq +:+
      "  -- merger script -- > Set ntuple path [ ${MERGE_DIR} ]" +:+ dq;
    EmptyString ].

(** Line 23. *)
Definition progress_line (subdir : string) : string :=
  "echo " +:+ dq +:+ "Processing directory: " +:+ subdir +:+ dq.

(** Line 28: the invocation of the merge orchestrator. *)
Definition invocation_line (mergeFilePattern subdir : string) : string :=
  "python3 -u mergeOutput.py --dir " +:+ dq +:+ "${MERGE_DIR}/" +:+ subdir
    +:+ dq +:+ " --pat " +:+ mergeFilePattern +:+ " --out " +:+ dq +:+
    "${MERGE_DIR}/" +:+ subdir +:+ ".root" +:+ dq.

(** The body of the loop, lines 23-29. *)
Definition local_entry (mergeFilePattern : string) (lines : list string)
    (subdir : string) : list string :=
  lines ++ [progress_line subdir] ++
    [invocation_line mergeFilePattern subdir] ++ [EmptyString].

(** Lines 14-31: the list [lines] when the file is written. *)
Definition local_lines (storage_path mergeFilePattern : string)
    (subdirs : list string) : list string :=
  fold_left (local_entry mergeFilePattern) subdirs
    (local_header storage_path)
  ++ ["echo " +:+ dq +:+ "All merge jobs completed." +:+ dq].

(** [generate_local_merge_script], lines 6-36 *)
Definition generate_local_merge_script
    (storage_path scriptForMerge mergeFilePattern : string) : M OS unit :=
  subdirs <- list_subdirs storage_path ;;
  let lines := local_lines storage_path mergeFilePattern subdirs in
  write_file scriptForMerge (join nl lines) ;;
  chmod scriptForMerge 493 ;;      (* 0o755 *)
  print ("Local run script generated: " +:+ scriptForMerge).

(** *** Batch (Condor) mode *)

(** Lines 44-50. *)
Definition condor_header : list string :=
  [ "Executable      = mergeOutput.py";
    "getenv          = True";
    "should_transfer_files = No";
    "+JobFlavour      = " +:+ dq +:+ "tomorrow" +:+ dq;
    EmptyString ].

(** The lines one subdirectory adds, lines 60-67. *)
Definition condor_stanza (storage_path mergeFilePattern subdir : string)
  : list string :=
  let full_dir := PosixPath.join storage_path subdir in
  [ "arguments = --dir " +:+ full_dir +:+ " --pat " +:+ mergeFilePattern
      +:+ " --out " +:+ full_dir +:+ ".root";
    "Output          = merge_condor_logs/" +:+ subdir +:+
      "_$(Cluster)_$(Process).out";
    "Error           = merge_condor_logs/" +:+ subdir +:+
      "_$(Cluster)_$(Process).err";
    "Log             = merge_condor_logs/" +:+ subdir +:+
      "_$(Cluster).log";
    "queue";
    EmptyString ].

(** Lines 44-67: the list [lines] when the file is written. *)
Definition condor_lines (storage_path mergeFilePattern : string)
    (subdirs : list string) : list string :=
  fold_left
    (fun lines subdir =>
       lines ++ condor_stanza storage_path mergeFilePattern subdir)
    subdirs condor_header.

(** [generate_condorMerge_submission_file], lines 38-71 *)
Definition generate_condorMerge_submission_file
    (storage_path scriptForMerge mergeFilePattern : string) : M OS unit :=
  subdirs <- list_subdirs storage_path ;;
  makedirs "merge_condor_logs" ;;
  let lines := condor_lines storage_path mergeFilePattern subdirs in
  write_file scriptForMerge (join nl lines) ;;
  print ("Condor submission file generated: " +:+ scriptForMerge).

(** [f"{username}"] for the value of [os.getenv("USER")]: an unset
    variable gives [None], which prints as None. *)
Definition shown_username (username : option string) : string :=
  match username with
  | Some name => name
  | None => "None"
  end.

(** Line 83. *)
Definition main_storage_path (username : option string) : string :=
  "/eos/cms/store/group/phys_jetmet/" +:+ shown_username username +:+
  "/JMETriggerAnalysis/JESC/JESC_ntuple/250407_winter25v9/".

(** How a run of the script ends: [main] returns, an exception leaves it,
    or [argparse] ends the process with an exit status. *)
Inductive ending : Type :=
| Returned
| Raised (e : exn)
| Exited (status : Z).

Definition ending_of (r : result unit) : ending :=
  match r with
  | Ok _ => Returned
  | Raise e => Raised e
  end.

(** [main], lines 73-91.  [mode] is the value given to [--mode] on the
    command line, [None] when the flag is absent (the command line holds
    nothing else); [username] is what [os.getenv("USER")] returns.  [parse_args] (line 80) ends the process
    with status 2 when the required flag is missing or its value is not
    one of the choices [local] and [condor]; the usage text it writes to
    the error stream is not modelled, nor is the [-h] flag. *)
Definition main (username : option string) (mode : option string)
  : OS -> ending * OS :=
  fun os =>
    match mode with
    | None => (Exited 2, os)
    | Some mode =>
        if negb (String.eqb mode "local" || String.eqb mode "condor")
        then (Exited 2, os)
        else
          let storage_path := main_storage_path username in
          let mergeFilePattern := "out_*.root" in
          if String.eqb mode "local" then
            let '(r, os') :=
              generate_local_merge_script storage_path "merge_Locally.sh"
                mergeFilePattern os in
            (ending_of r, os')
          else if String.eqb mode "condor" then
            let '(r, os') :=
              generate_condorMerge_submission_file storage_path
                "merge_using_condor.sub" mergeFilePattern os in
            (ending_of r, os')
          else (Returned, os)
    end.


(** The three lines one subdirectory adds to the local script. *)
Definition local_block (mergeFilePattern subdir : string) : list string :=
  [progress_line subdir; invocation_line mergeFilePattern subdir;
   EmptyString].

(** *** Reading the generated text *)

(** A text that holds no line feed. *)
Definition one_line (text : string) : Prop := has_char "010" text = false.


(** A line that invokes the merge orchestrator. *)
Definition is_invocation (line : string) : bool :=
  startswith line "python3 -u mergeOutput.py ".

(** The queue directive that ends a job stanza. *)
Definition is_queue (line : string) : bool := String.eqb line "queue".

Definition count (p : string -> bool) (lines : list string) : nat :=
  List.length (List.filter p lines).

(** The lines of a text file: the pieces between its line feeds. *)
Definition text_lines (text : string) : list string := split "010" text.

(** [0o755], and the three execute bits [0o100], [0o010], [0o001]. *)
Definition mode_0755 : Z := 493.
Definition owner_execute (mode : Z) : bool := Z.testbit mode 6.
Definition group_execute (mode : Z) : bool := Z.testbit mode 3.
Definition other_execute (mode : Z) : bool := Z.testbit mode 0.

End JobScriptGenerator.

(* ===================================================================== *)
(** ** Concrete directories and engines *)
(* ===================================================================== *)

Module Examples.
Import Py MergeOutput.

(** A base directory [/data] holding [out_1.root], [out_2.root] and
    [skip.dat]. *)
Definition walk_plain (base : string)
  : list (string * list string * list string) :=
  if String.eqb base "/data"
  then [("/data", [], ["out_1.root"; "out_2.root"; "skip.dat"])]
  else [].

(** The same directory with [notout_1.root] as well. *)
Definition walk_loose (base : string)
  : list (string * list string * list string) :=
  if String.eqb base "/data"
  then [("/data", [],
         ["out_1.root"; "out_2.root"; "skip.dat"; "notout_1.root"])]
  else [].

(** The two matching files hold 1000 bytes each; nothing else can be
    read. *)
Definition sizes_1000 (path : string) : result Z :=
  if String.eqb path "/data/out_1.root" || String.eqb path "/data/out_2.root"
  then Ok 1000
  else Raise (OSError path).

(** An engine stub: it reports [success] and, when it succeeds, leaves an
    output file of [bytes] bytes. *)
Definition stub_Merge (success : bool) (bytes : Z) (merger : TFileMerger)
    (sz : string -> result Z) : bool * (string -> result Z) :=
  (success,
   fun path =>
     match outputFile merger with
     | Some out => if success && String.eqb path out then Ok bytes
                   else sz path
     | None => sz path
     end).

Definition env_plain (success : bool) : Env :=
  {| os_walk := walk_plain; os_path_abspath := fun dir => dir;
     engine_Merge := stub_Merge success 1900 |}.

Definition env_loose : Env :=
  {| os_walk := walk_loose; os_path_abspath := fun dir => dir;
     engine_Merge := stub_Merge true 1900 |}.

(** A storage root [/store] holding the directories [runA] and [runB]
    and the plain file [notes.txt]; every write is allowed, the umask is
    [0o022], nothing was written yet. *)
Definition os_store : JobScriptGenerator.OS :=
  {| JobScriptGenerator.os_listdir :=
       fun path => if String.eqb path "/store"
                   then Ok ["runA"; "notes.txt"; "runB"]
                   else Raise (OSError path);
     JobScriptGenerator.os_path_isdir :=
       fun path => String.eqb path "/store/runA"
                   || String.eqb path "/store/runB";
     JobScriptGenerator.may_open := fun _ => true;
     JobScriptGenerator.encodable := Unicode.valid;
     JobScriptGenerator.may_write := fun _ => true;
     JobScriptGenerator.torn := fun _ _ => EmptyString;
     JobScriptGenerator.may_chmod := fun _ => true;
     JobScriptGenerator.may_makedirs := fun _ => true;
     JobScriptGenerator.umask := 18;
     JobScriptGenerator.file_text := ∅;
     JobScriptGenerator.file_mode := ∅;
     JobScriptGenerator.made_dirs := [];
     JobScriptGenerator.stdout := [] |}.

(** The same storage root on a file system that refuses to open files
    for writing. *)
Definition os_read_only : JobScriptGenerator.OS :=
  {| JobScriptGenerator.os_listdir :=
       JobScriptGenerator.os_listdir os_store;
     JobScriptGenerator.os_path_isdir :=
       JobScriptGenerator.os_path_isdir os_store;
     JobScriptGenerator.may_open := fun _ => false;
     JobScriptGenerator.encodable := Unicode.valid;
     JobScriptGenerator.may_write := fun _ => true;
     JobScriptGenerator.torn := fun _ _ => EmptyString;
     JobScriptGenerator.may_chmod := fun _ => true;
     JobScriptGenerator.may_makedirs := fun _ => true;
     JobScriptGenerator.umask := 18;
     JobScriptGenerator.file_text := ∅;
     JobScriptGenerator.file_mode := ∅;
     JobScriptGenerator.made_dirs := [];
     JobScriptGenerator.stdout := [] |}.

(** The same storage root where files can be written but their mode
    cannot be changed. *)
Definition os_no_chmod : JobScriptGenerator.OS :=
  {| JobScriptGenerator.os_listdir :=
       JobScriptGenerator.os_listdir os_store;
     JobScriptGenerator.os_path_isdir :=
       JobScriptGenerator.os_path_isdir os_store;
     JobScriptGenerator.may_open := fun _ => true;
     JobScriptGenerator.encodable := Unicode.valid;
     JobScriptGenerator.may_write := fun _ => true;
     JobScriptGenerator.torn := fun _ _ => EmptyString;
     JobScriptGenerator.may_chmod := fun _ => false;
     JobScriptGenerator.may_makedirs := fun _ => true;
     JobScriptGenerator.umask := 18;
     JobScriptGenerator.file_text := ∅;
     JobScriptGenerator.file_mode := ∅;
     JobScriptGenerator.made_dirs := [];
     JobScriptGenerator.stdout := [] |}.

(** The storage root of the user [alice], holding the directories [runA]
    and [runB]; no other directory can be listed.  Every write is
    allowed. *)
Definition os_eos_alice : JobScriptGenerator.OS :=
  {| JobScriptGenerator.os_listdir :=
       fun path =>
         if String.eqb path
              ("/eos/cms/store/group/phys_jetmet/alice/" +:+
               "JMETriggerAnalysis/JESC/JESC_ntuple/250407_winter25v9/")
         then Ok ["runA"; "runB"]
         else Raise (OSError path);
     JobScriptGenerator.os_path_isdir := fun _ => true;
     JobScriptGenerator.may_open := fun _ => true;
     JobScriptGenerator.encodable := Unicode.valid;
     JobScriptGenerator.may_write := fun _ => true;
     JobScriptGenerator.torn := fun _ _ => EmptyString;
     JobScriptGenerator.may_chmod := fun _ => true;
     JobScriptGenerator.may_makedirs := fun _ => true;
     JobScriptGenerator.umask := 18;
     JobScriptGenerator.file_text := ∅;
     JobScriptGenerator.file_mode := ∅;
     JobScriptGenerator.made_dirs := [];
     JobScriptGenerator.stdout := [] |}.

(** The same storage root on a full disk: files can be created, and what
    is written to them is lost. *)
Definition os_disk_full : JobScriptGenerator.OS :=
  {| JobScriptGenerator.os_listdir :=
       JobScriptGenerator.os_listdir os_store;
     JobScriptGenerator.os_path_isdir :=
       JobScriptGenerator.os_path_isdir os_store;
     JobScriptGenerator.may_open := fun _ => true;
     JobScriptGenerator.encodable := Unicode.valid;
     JobScriptGenerator.may_write := fun _ => false;
     JobScriptGenerator.torn := fun _ _ => EmptyString;
     JobScriptGenerator.may_chmod := fun _ => true;
     JobScriptGenerator.may_makedirs := fun _ => true;
     JobScriptGenerator.umask := 18;
     JobScriptGenerator.file_text := ∅;
     JobScriptGenerator.file_mode := ∅;
     JobScriptGenerator.made_dirs := [];
     JobScriptGenerator.stdout := [] |}.

(** A text given by its bytes. *)
Definition text_of_bytes (l : list N) : string :=
  fold_right (fun b s => String (ascii_of_N b) s) EmptyString l.

(** A directory name with two line feeds in it: [a], [queue] and [b] on
    three lines. *)
Definition name_with_line_feeds : string :=
  "a" +:+ String "010" "queue" +:+ String "010" "b".

(** A storage root [/store] whose one subdirectory has that name. *)
Definition os_line_feed : JobScriptGenerator.OS :=
  {| JobScriptGenerator.os_listdir := fun _ => Ok [name_with_line_feeds];
     JobScriptGenerator.os_path_isdir := fun _ => true;
     JobScriptGenerator.may_open := fun _ => true;
     JobScriptGenerator.encodable := Unicode.valid;
     JobScriptGenerator.may_write := fun _ => true;
     JobScriptGenerator.torn := fun _ _ => EmptyString;
     JobScriptGenerator.may_chmod := fun _ => true;
     JobScriptGenerator.may_makedirs := fun _ => true;
     JobScriptGenerator.umask := 18;
     JobScriptGenerator.file_text := ∅;
     JobScriptGenerator.file_mode := ∅;
     JobScriptGenerator.made_dirs := [];
     JobScriptGenerator.stdout := [] |}.

(** A directory name of two lines, [a] and [python3 -u mergeOutput.py b],
    and a storage root [/store] whose one subdirectory has that name. *)
Definition name_with_command : string :=
  "a" +:+ String "010" "python3 -u mergeOutput.py b".

Definition os_command : JobScriptGenerator.OS :=
  {| JobScriptGenerator.os_listdir := fun _ => Ok [name_with_command];
     JobScriptGenerator.os_path_isdir := fun _ => true;
     JobScriptGenerator.may_open := fun _ => true;
     JobScriptGenerator.encodable := Unicode.valid;
     JobScriptGenerator.may_write := fun _ => true;
     JobScriptGenerator.torn := fun _ _ => EmptyString;
     JobScriptGenerator.may_chmod := fun _ => true;
     JobScriptGenerator.may_makedirs := fun _ => true;
     JobScriptGenerator.umask := 18;
     JobScriptGenerator.file_text := ∅;
     JobScriptGenerator.file_mode := ∅;
     JobScriptGenerator.made_dirs := [];
     JobScriptGenerator.stdout := [] |}.

(** A directory name that is not valid UTF-8: [run] and the byte
    [0xFF]. *)
Definition name_with_stray_byte : string := "run" +:+ String "255" EmptyString.

(** A storage root whose one subdirectory has that name. *)
Definition os_stray_byte : JobScriptGenerator.OS :=
  {| JobScriptGenerator.os_listdir := fun _ => Ok [name_with_stray_byte];
     JobScriptGenerator.os_path_isdir := fun _ => true;
     JobScriptGenerator.may_open := fun _ => true;
     JobScriptGenerator.encodable := Unicode.valid;
     JobScriptGenerator.may_write := fun _ => true;
     JobScriptGenerator.torn := fun _ _ => EmptyString;
     JobScriptGenerator.may_chmod := fun _ => true;
     JobScriptGenerator.may_makedirs := fun _ => true;
     JobScriptGenerator.umask := 18;
     JobScriptGenerator.file_text := ∅;
     JobScriptGenerator.file_mode := ∅;
     JobScriptGenerator.made_dirs := [];
     JobScriptGenerator.stdout := [] |}.

(** A base directory [/data] with names in several cases and scripts:
    [OUT_1.ROOT], [É2.ROOT], [é1.root] and [e3.root] (É is the bytes
    [0xC3 0x89], é the bytes [0xC3 0xA9]). *)
Definition E_acute : string := text_of_bytes [195; 137]%N.
Definition e_acute : string := text_of_bytes [195; 169]%N.

Definition walk_cases (base : string)
  : list (string * list string * list string) :=
  if String.eqb base "/data"
  then [("/data", [],
         ["OUT_1.ROOT"; E_acute +:+ "2.ROOT"; e_acute +:+ "1.root";
          "e3.root"])]
  else [].

Definition env_cases : Env :=
  {| os_walk := walk_cases; os_path_abspath := fun dir => dir;
     engine_Merge := stub_Merge true 1900 |}.

End Examples.

(* ===================================================================== *)
(** * Properties *)
(* ===================================================================== *)

(** ** Concrete checks of the embedding *)

Example lower_mixed_case : PyStr.lower "Out_7.ROOT" = "out_7.root".
Proof. reflexivity. Qed.

(** É (the bytes [0xC3 0x89]) becomes é (the bytes [0xC3 0xA9]). *)
Example lower_E_acute : PyStr.lower Examples.E_acute = Examples.e_acute.
Proof. reflexivity. Qed.

(** The capital sigma U+03A3 becomes the final sigma U+03C2 at the end of a
    word, as in ΟΔΟΣ, and U+03C3 elsewhere: alone, inside a word, or before
    the extension of a file name. *)
Example lower_sigma :
  PyStr.lower_points
    (Examples.text_of_bytes [206; 159; 206; 148; 206; 159; 206; 163]%N)
  = [959; 948; 959; 962]%N /\
  PyStr.lower_points (Examples.text_of_bytes [206; 163]%N) = [963]%N /\
  PyStr.lower_points
    (Examples.text_of_bytes [206; 145; 206; 163; 206; 145]%N)
  = [945; 963; 945]%N /\
  PyStr.lower_points (Examples.text_of_bytes [65; 206; 163]%N +:+ ".ROOT")
  = [97; 963; 46; 114; 111; 111; 116]%N.
Proof. by repeat split. Qed.

(** The capital I with a dot, U+0130, becomes two code points. *)
Example lower_dotted_I :
  PyStr.lower_points (Examples.text_of_bytes [196; 176]%N) = [105; 775]%N.
Proof. reflexivity. Qed.

(** A byte that belongs to no UTF-8 sequence goes through unchanged. *)
Example lower_stray_byte :
  PyStr.lower (Examples.text_of_bytes [82; 255]%N)
  = Examples.text_of_bytes [114; 255]%N.
Proof. reflexivity. Qed.

(** Decoding: an overlong form, an encoded surrogate, a truncated sequence
    and a code point above U+10FFFF are escaped byte by byte; a four-byte
    sequence is one code point. *)
Example decode_strict :
  Unicode.decode (Examples.text_of_bytes [192; 128]%N) = [56512; 56448]%N /\
  Unicode.decode (Examples.text_of_bytes [237; 160; 128]%N)
  = [56557; 56480; 56448]%N /\
  Unicode.decode (Examples.text_of_bytes [226; 130]%N) = [56546; 56450]%N /\
  Unicode.decode (Examples.text_of_bytes [244; 144; 128; 128]%N)
  = [56564; 56464; 56448; 56448]%N /\
  Unicode.decode (Examples.text_of_bytes [240; 159; 152; 128]%N)
  = [128512]%N.
Proof. by repeat split. Qed.

Example valid_text :
  Unicode.valid Examples.e_acute = true /\
  Unicode.valid Examples.name_with_stray_byte = false.
Proof. by split. Qed.

(** The substring test compares code points: the byte [0xA9] alone is not
    inside é, whose second byte it is. *)
Example stray_byte_not_inside_letter :
  MergeOutput.file_matches (Examples.text_of_bytes [169]%N +:+ "*.root")
    (Examples.e_acute +:+ "1.root") = false /\
  MergeOutput.file_matches (Examples.e_acute +:+ "*.root")
    (Examples.e_acute +:+ "1.root") = true.
Proof. by split. Qed.

Example split_pattern : PyStr.split "*" "out_*.root" = ["out_"; ".root"].
Proof. reflexivity. Qed.

Example split_without_star : PyStr.split "*" "merged" = ["merged"].
Proof. reflexivity. Qed.

Example split_leading_star : PyStr.split "*" "*.root" = [EmptyString; ".root"].
Proof. reflexivity. Qed.

Example prefix_of_default_pattern :
  MergeOutput.pattern_prefix "out_*.root" = "out_".
Proof. reflexivity. Qed.

Example endswith_extension :
  PyStr.endswith "skip.dat" ".root" = false /\
  PyStr.endswith "out_1.root" ".root" = true /\
  PyStr.endswith "root" ".root" = false.
Proof. by repeat split. Qed.

Example contains_inside :
  PyStr.contains (PyStr.lower_points "notout_1.root")
    (PyStr.lower_points "out_") = true /\
  PyStr.contains (PyStr.lower_points "output.root")
    (PyStr.lower_points "out_") = false /\
  PyStr.contains (PyStr.lower_points "anything") [] = true.
Proof. by repeat split. Qed.

Example upper_case_name_matches :
  MergeOutput.file_matches "out_*.root" "OUT_3.ROOT" = true.
Proof. reflexivity. Qed.

Example join_plain : PosixPath.join "/data" "out_1.root" = "/data/out_1.root".
Proof. reflexivity. Qed.

Example join_trailing_slash :
  PosixPath.join "/store/" "runA" = "/store/runA".
Proof. reflexivity. Qed.

Example join_absolute : PosixPath.join "/data" "/tmp/x" = "/tmp/x".
Proof. reflexivity. Qed.

Example join_lines :
  PyStr.join JobScriptGenerator.nl ["a"; "b"; EmptyString]
  = String "a" (String "010" (String "b" (String "010" EmptyString))).
Proof. reflexivity. Qed.

Example shown_kilobytes :
  MergeOutput.shown_2f 2000 1024 = "1.95" /\
  MergeOutput.shown_2f 128 1024 = "0.12" /\
  MergeOutput.shown_2f 384 1024 = "0.38" /\
  MergeOutput.shown_2f (-1) 1024 = "-0.00" /\
  MergeOutput.shown_2f 1900 (1024 ^ 3) = "0.00".
Proof. by repeat split. Qed.

Example condor_stanza_runA :
  JobScriptGenerator.condor_stanza "/store/" "out_*.root" "runA"
  = ["arguments = --dir /store/runA --pat out_*.root --out /store/runA.root";
     "Output          = merge_condor_logs/runA_$(Cluster)_$(Process).out";
     "Error           = merge_condor_logs/runA_$(Cluster)_$(Process).err";
     "Log             = merge_condor_logs/runA_$(Cluster).log";
     "queue";
     EmptyString].
Proof. reflexivity. Qed.

Example local_script_of_one_directory :
  JobScriptGenerator.count JobScriptGenerator.is_invocation
    (JobScriptGenerator.local_lines "/store/" "out_*.root" ["runA"]) = 1%nat /\
  length (JobScriptGenerator.local_lines "/store/" "out_*.root" ["runA"])
  = 8%nat.
Proof. by split. Qed.

(** ** Facts about Python strings *)

Section StringFacts.
Import PyStr.

Lemma app_nil_left (s : string) : EmptyString +:+ s = s.
Proof. reflexivity. Qed.

Lemma app_cons (c : ascii) (s t : string) :
  String c s +:+ t = String c (s +:+ t).
Proof. reflexivity. Qed.

Lemma app_nil_right (s : string) : s +:+ EmptyString = s.
Proof. induction s as [|c s IH]; [reflexivity|]. by rewrite app_cons, IH. Qed.

Lemma app_assoc_str (s t u : string) : (s +:+ t) +:+ u = s +:+ t +:+ u.
Proof.
  induction s as [|c s IH]; [reflexivity|]. by rewrite !app_cons, IH.
Qed.

(** [s.startswith(p)] holds exactly when [s] is [p] followed by a rest. *)
Lemma startswith_spec (s p : string) :
  startswith s p = true <-> exists rest, s = p +:+ rest.
Proof.
  revert s. induction p as [|a p IH]; intros s; simpl.
  - split; [intros _; by exists s | done].
  - destruct s as [|b s].
    + split; [done | intros [rest H]; discriminate H].
    + rewrite andb_true_iff, Ascii.eqb_eq, IH. split.
      * intros [-> [rest ->]]. by exists rest.
      * intros [rest H]. rewrite app_cons in H. injection H as -> ->.
        split; [done | by exists rest].
Qed.

(** [s.endswith(suf)] holds exactly when [s] is a text followed by [suf]. *)
Lemma endswith_spec (s suf : string) :
  endswith s suf = true <-> exists before, s = before +:+ suf.
Proof.
  induction s as [|c s IH]; cbn [endswith].
  - rewrite orb_false_r, String.eqb_eq. split.
    + intros <-. by exists EmptyString.
    + intros [[|b before] H]; [done | discriminate H].
  - rewrite orb_true_iff, String.eqb_eq, IH. split.
    + intros [<- | [before ->]].
      * by exists EmptyString.
      * by exists (String c before).
    + intros [[|b before] H].
      * left. by rewrite app_nil_left in H.
      * right. rewrite app_cons in H. injection H as _ ->. by exists before.
Qed.

Lemma starts_spec (s sub : list N) :
  starts s sub = true <-> exists rest, s = sub ++ rest.
Proof.
  revert s. induction sub as [|a sub IH]; intros s; cbn [starts].
  - split; [intros _; by exists s | done].
  - destruct s as [|b s].
    + split; [done | intros [rest H]; discriminate H].
    + rewrite andb_true_iff, N.eqb_eq, IH. split.
      * intros [-> [rest ->]]. by exists rest.
      * intros [rest H]. injection H as -> ->.
        split; [done | by exists rest].
Qed.

(** [sub in s] holds exactly when [sub] occurs somewhere inside [s]. *)
Lemma contains_spec (s sub : list N) :
  contains s sub = true <-> exists before after, s = before ++ sub ++ after.
Proof.
  induction s as [|c s IH]; cbn [contains].
  - rewrite orb_false_r, starts_spec. split.
    + intros [rest H]. by exists [], rest.
    + intros [[|b before] [after H]]; [by exists after | discriminate H].
  - rewrite orb_true_iff, starts_spec, IH. split.
    + intros [[rest H] | (before & after & ->)].
      * by exists [], rest.
      * by exists (c :: before), after.
    + intros ([|b before] & after & H).
      * left. by exists after.
      * right. injection H as _ ->. by exists before, after.
Qed.

Lemma has_char_app (c : ascii) (s t : string) :
  has_char c (s +:+ t) = has_char c s || has_char c t.
Proof.
  induction s as [|a s IH]; [reflexivity|].
  rewrite app_cons. simpl. by rewrite IH, orb_assoc.
Qed.

Lemma split_not_nil (sep : ascii) (s : string) : split sep s <> [].
Proof.
  induction s as [|c s IH]; simpl; [done|].
  destruct (Ascii.eqb c sep); [done|]. by destruct (split sep s).
Qed.

(** The first piece of [s.split(sep)] is the text of [s] before the first
    [sep] (all of [s] when there is none). *)
Lemma split_head (sep : ascii) (before rest : string) :
  has_char sep before = false ->
  rest = EmptyString \/ (exists r, rest = String sep r) ->
  exists pieces, split sep (before +:+ rest) = before :: pieces.
Proof.
  intros Hb Hr. induction before as [|c before IH].
  - rewrite app_nil_left. destruct Hr as [-> | [r ->]]; simpl.
    + by exists [].
    + rewrite Ascii.eqb_refl. by eexists.
  - simpl in Hb. apply orb_false_iff in Hb as [Hc Hb].
    rewrite app_cons. simpl. rewrite Hc.
    destruct (IH Hb) as [pieces ->]. by eexists.
Qed.

(** A text without the separator is one piece; joining pieces that hold no
    separator and splitting again gives the pieces back. *)
Lemma split_no_sep (sep : ascii) (s : string) :
  has_char sep s = false -> split sep s = [s].
Proof.
  induction s as [|c s IH]; intros H; [done|].
  simpl in *. apply orb_false_iff in H as [Hc H].
  by rewrite Hc, (IH H).
Qed.

Lemma split_app (sep : ascii) (s t : string) :
  has_char sep s = false ->
  split sep (s +:+ String sep t) = s :: split sep t.
Proof.
  intros H. induction s as [|c s IH].
  - rewrite app_nil_left. simpl. by rewrite Ascii.eqb_refl.
  - simpl in H. apply orb_false_iff in H as [Hc H].
    rewrite app_cons. simpl. by rewrite Hc, (IH H).
Qed.

Lemma split_join (sep : ascii) (pieces : list string) :
  pieces <> [] ->
  Forall (fun p => has_char sep p = false) pieces ->
  split sep (join (String sep EmptyString) pieces) = pieces.
Proof.
  intros Hne Hall. induction Hall as [|p rest Hp Hrest IH]; [done|].
  destruct rest as [|q rest].
  - simpl. by apply split_no_sep.
  - change (join (String sep EmptyString) (p :: q :: rest))
      with (p +:+ String sep EmptyString +:+
            join (String sep EmptyString) (q :: rest)).
    rewrite app_cons, app_nil_left, split_app by done.
    by rewrite IH.
Qed.

End StringFacts.

(** ** The runs of the methods of [RootFileMerger] *)

Section MergeRuns.
Import PyStr Py MergeOutput.
Local Open Scope py_scope.

Lemma extend_nil (w : World) : extend w [] = w.
Proof. destruct w. unfold extend. simpl. by rewrite app_nil_r. Qed.

Lemma extend_extend (w : World) (t u : list event) :
  extend (extend w t) u = extend w (t ++ u).
Proof. unfold extend. simpl. by rewrite app_assoc. Qed.

Lemma emit_run (e : event) (w : World) : emit e w = (Ok tt, extend w [e]).
Proof. reflexivity. Qed.

Lemma log_run (m : message) (w : World) :
  log m w = (Ok tt, extend w [Log m]).
Proof. reflexivity. Qed.

Lemma bind_ok {A B} (m : M World A) (k : A -> M World B) w a w' :
  m w = (Ok a, w') -> bind m k w = k a w'.
Proof. intros H. unfold bind. by rewrite H. Qed.

Lemma bind_raise {A B} (m : M World A) (k : A -> M World B) w e w' :
  m w = (Raise e, w') -> bind m k w = (Raise e, w').
Proof. intros H. unfold bind. by rewrite H. Qed.

(** *** Discovery *)

Lemma gathered_pattern self walk :
  mergeFilePattern (gathered self walk) = mergeFilePattern self.
Proof.
  revert self. induction walk as [|entry walk IH]; intros self; [done|].
  simpl. rewrite IH. by destruct (found_in _ entry).
Qed.

Lemma gathered_output self walk :
  output_file_name (gathered self walk) = output_file_name self.
Proof.
  revert self. induction walk as [|entry walk IH]; intros self; [done|].
  simpl. rewrite IH. by destruct (found_in _ entry).
Qed.

Lemma gathered_all_files self walk :
  all_files (gathered self walk)
  = all_files self ++ discovered (mergeFilePattern self) walk.
Proof.
  revert self. induction walk as [|entry walk IH]; intros self.
  - simpl. by rewrite app_nil_r.
  - change (gathered self (entry :: walk))
      with (gathered (gathered self [entry]) walk).
    rewrite IH, gathered_pattern.
    change (discovered (mergeFilePattern self) (entry :: walk))
      with (found_in (mergeFilePattern self) entry
            ++ discovered (mergeFilePattern self) walk).
    rewrite app_assoc. f_equal. simpl.
    destruct (found_in (mergeFilePattern self) entry); simpl;
      [by rewrite app_nil_r | done].
Qed.

Lemma gather_step_run self entry w :
  gather_step self entry w
  = (Ok (gathered self [entry]),
     extend w (gather_report (mergeFilePattern self) entry)).
Proof.
  destruct entry as [[root dirs] files].
  unfold gather_step, gather_report, gathered, found_in. simpl.
  destruct (matching_files (mergeFilePattern self) root files) as [|p found].
  - unfold ret. by rewrite extend_nil.
  - unfold bind. rewrite !log_run, !extend_extend. reflexivity.
Qed.

Lemma gather_loop_run walk self w :
  for_each gather_step walk self w
  = (Ok (gathered self walk),
     extend w
       (concat (List.map (gather_report (mergeFilePattern self)) walk))).
Proof.
  revert self w. induction walk as [|entry walk IH]; intros self w.
  - simpl. unfold ret. by rewrite extend_nil.
  - cbn [for_each]. erewrite bind_ok by apply gather_step_run.
    rewrite IH, extend_extend, gathered_pattern. reflexivity.
Qed.

(** [gather_files] never raises; it leaves the object [gathered] and the
    file sizes as they were. *)
Lemma gather_files_run env self w :
  gather_files env self w
  = (Ok (gathered self (os_walk env (base_dir self))),
     extend w
       (Enter Gather_files ::
        concat (List.map (gather_report (mergeFilePattern self))
                  (os_walk env (base_dir self))))).
Proof.
  unfold gather_files. erewrite bind_ok by apply emit_run.
  by rewrite gather_loop_run, extend_extend.
Qed.

(** *** Size estimation *)

Lemma estimate_step_run total_size f w :
  estimate_step total_size f w
  = (Ok (total_size + counted (sizes w) [f]),
     extend w (size_report (sizes w) f)).
Proof.
  unfold estimate_step, try_except, bind, os_path_getsize, size_report,
    log, emit, ret, extend.
  simpl. destruct (sizes w f) as [n|e]; simpl;
    by rewrite Z.add_0_r, <- ?app_assoc.
Qed.

Lemma counted_cons sz f files :
  counted sz (f :: files) = counted sz [f] + counted sz files.
Proof. simpl. destruct (sz f); lia. Qed.

Lemma counted_app sz l1 l2 :
  counted sz (l1 ++ l2) = counted sz l1 + counted sz l2.
Proof.
  induction l1 as [|f l1 IH]; [done|].
  rewrite <- app_comm_cons, (counted_cons _ f (l1 ++ l2)),
    (counted_cons _ f l1), IH. lia.
Qed.

Lemma estimate_loop_run files total_size w :
  for_each estimate_step files total_size w
  = (Ok (total_size + counted (sizes w) files),
     extend w (concat (List.map (size_report (sizes w)) files))).
Proof.
  revert total_size w.
  induction files as [|f files IH]; intros total_size w.
  - simpl. unfold ret. by rewrite extend_nil, Z.add_0_r.
  - cbn [for_each]. erewrite bind_ok by apply estimate_step_run.
    rewrite IH, extend_extend. cbn [extend sizes].
    rewrite (counted_cons _ f files). do 2 f_equal. lia.
Qed.

(** [estimate_total_size] never raises: it returns the sum of the sizes
    that could be read and leaves the file sizes as they were. *)
Lemma estimate_total_size_run self w :
  estimate_total_size self w
  = (Ok (counted (sizes w) (all_files self)),
     extend w (estimate_report (sizes w) (all_files self))).
Proof.
  unfold estimate_total_size, estimate_report.
  erewrite bind_ok by apply emit_run.
  erewrite bind_ok by apply estimate_loop_run.
  unfold bind. rewrite !log_run, !extend_extend. unfold ret.
  cbn [extend sizes]. rewrite Z.add_0_l. reflexivity.
Qed.

(** *** The merge *)

Lemma add_loop_run files merger w :
  for_each add_step files merger w
  = (Ok {| isLocal := isLocal merger; printLevel := printLevel merger;
           outputFile := outputFile merger;
           inputFiles := inputFiles merger ++ files |},
     extend w (concat (List.map add_report files))).
Proof.
  revert merger w. induction files as [|f files IH]; intros merger w.
  - simpl. unfold ret. rewrite extend_nil, app_nil_r. by destruct merger.
  - cbn [for_each]. unfold add_step at 1. unfold bind at 1.
    unfold bind at 1. rewrite emit_run. unfold bind at 1.
    rewrite log_run. unfold ret at 1. rewrite IH, !extend_extend.
    unfold add_input. simpl. by rewrite <- app_assoc.
Qed.

(** [merge_files] never raises: it returns the flag of the engine's
    [Merge()], called on the engine loaded with [all_files]. *)
Lemma merge_files_run env self w :
  merge_files env self w
  = (Ok (fst (engine_Merge env (loaded_merger self) (sizes w))),
     {| sizes := snd (engine_Merge env (loaded_merger self) (sizes w));
        trace := trace w ++
          merge_report self
            (fst (engine_Merge env (loaded_merger self) (sizes w))) |}).
Proof.
  unfold merge_files, merge_report.
  do 4 (erewrite bind_ok by apply emit_run).
  erewrite bind_ok by apply add_loop_run.
  erewrite bind_ok by apply log_run.
  rewrite !extend_extend. unfold bind, call_Merge.
  cbn [extend sizes trace inputFiles isLocal printLevel outputFile app].
  fold (loaded_merger self).
  destruct (engine_Merge env (loaded_merger self) (sizes w))
    as [[|] sizes']; unfold log, emit, ret, extend; simpl;
    repeat (rewrite <- app_assoc || rewrite <- app_comm_cons);
    reflexivity.
Qed.

(** *** The comparison *)

Lemma compare_sizes_run self estimated_size w :
  compare_sizes self estimated_size w
  = (Ok (match sizes w (output_file_name self) with
         | Ok final => Some final
         | Raise _ => None
         end),
     extend w
       (compare_report (sizes w) (output_file_name self) estimated_size)).
Proof.
  unfold compare_sizes, compare_report.
  do 2 (erewrite bind_ok by first [apply emit_run | apply log_run]).
  rewrite extend_extend.
  unfold try_except, bind, os_path_getsize. cbn [extend sizes].
  destruct (sizes w (output_file_name self)) as [final|e].
  - rewrite !log_run, !extend_extend. reflexivity.
  - rewrite log_run, extend_extend. reflexivity.
Qed.

(** *** The main flow *)

(** Every run of [main] ends on line 141, where [self] is not a name
    [main] can evaluate: the run raises [NameError] after the closing
    message of line 138. *)
Lemma main_run env dir pat out w :
  main env dir pat out w
  = (Raise (NameError "self"),
     {| sizes :=
          (let base := os_path_abspath env dir in
           let self := gathered (init base pat out) (os_walk env base) in
           snd (engine_Merge env (loaded_merger self) (sizes w)));
        trace := trace w ++ main_report env dir pat out (sizes w) |}).
Proof.
  unfold main, main_report.
  erewrite bind_ok by apply log_run.
  erewrite bind_ok by apply gather_files_run.
  erewrite bind_ok by apply estimate_total_size_run.
  erewrite bind_ok by apply merge_files_run.
  cbn [extend sizes trace base_dir mergeFilePattern init].
  set (base := os_path_abspath env dir).
  set (self := gathered (init base pat out) (os_walk env base)).
  destruct (engine_Merge env (loaded_merger self) (sizes w))
    as [[|] sizes'] eqn:E; cbn [fst snd].
  - erewrite bind_ok.
    2:{ erewrite bind_ok by apply compare_sizes_run. reflexivity. }
    erewrite bind_ok by apply log_run.
    unfold bind, load_name, raise, extend.
    unfold estimate_report, merge_report, compare_report. simpl.
    repeat (rewrite <- app_assoc || rewrite <- app_comm_cons).
    reflexivity.
  - erewrite bind_ok by apply log_run.
    erewrite bind_ok by apply log_run.
    unfold bind, load_name, raise, extend.
    unfold estimate_report, merge_report, compare_report. simpl.
    repeat (rewrite <- app_assoc || rewrite <- app_comm_cons).
    reflexivity.
Qed.

(** *** Which events each step can add *)

Lemma gather_report_quiet pat walk :
  Forall (fun e => not_from_compare e /\ not_a_merge e)
    (concat (List.map (gather_report pat) walk)).
Proof.
  apply Forall_concat, Forall_map, Forall_forall. intros entry _.
  unfold gather_report. destruct (found_in pat entry); [constructor|].
  repeat constructor.
Qed.

Lemma estimate_report_quiet sz files :
  Forall (fun e => not_from_compare e /\ not_a_merge e)
    (estimate_report sz files).
Proof.
  unfold estimate_report. constructor; [by split|].
  apply Forall_app. split; [|repeat constructor].
  apply Forall_concat, Forall_map, Forall_forall. intros f _.
  unfold size_report. destruct (sz f); repeat constructor.
Qed.

Lemma add_report_quiet files :
  Forall (fun e => not_from_compare e /\ not_a_merge e)
    (concat (List.map add_report files)).
Proof.
  apply Forall_concat, Forall_map, Forall_forall. intros f _.
  repeat constructor.
Qed.

Lemma merge_report_quiet self success :
  Forall not_from_compare (merge_report self success).
Proof.
  unfold merge_report. repeat (apply Forall_app; split).
  - repeat constructor; done.
  - eapply Forall_impl; [apply add_report_quiet|]. by intros e [H _].
  - destruct success; repeat constructor.
Qed.

Lemma merge_report_flag self success b :
  In (Engine (Merge b)) (merge_report self success) -> b = success.
Proof.
  unfold merge_report. rewrite !in_app_iff. intros [H | [H | H]].
  - simpl in H. repeat (destruct H as [H|H]; [discriminate H|]). done.
  - pose proof (add_report_quiet (all_files self)) as Q.
    rewrite Forall_forall in Q. apply list_elem_of_In, Q in H.
    by destruct H as [_ []].
  - destruct success; simpl in H;
      repeat (destruct H as [H|H]; [by inversion H|]); done.
Qed.

Lemma quiet_entered t :
  Forall not_from_compare t -> entered Compare_sizes t = 0%nat.
Proof.
  unfold entered. induction 1 as [|e t He _ IH]; [done|].
  simpl. destruct e as [m|[]|c]; simpl in *; done.
Qed.

Lemma quiet_logged t m :
  Forall not_from_compare t -> In m (logged t) -> is_comparison m = false.
Proof.
  unfold logged. induction 1 as [|e t He _ IH]; [done|].
  destruct e as [m'|f|c]; simpl; [|done..].
  intros [<- | H]; [done | by apply IH].
Qed.

End MergeRuns.

(** ** Discovery: the matching rule *)

Section Discovery.
Import PyStr Py MergeOutput.

Lemma basename_plain (f : string) :
  has_char "/" f = false -> PosixPath.basename f = f.
Proof.
  induction f as [|c f IH]; [done|]. cbn [has_char PosixPath.basename].
  intros H. apply orb_false_iff in H as [Hc Hf]. by rewrite Hf, Hc.
Qed.

Lemma basename_after_slash (p f : string) :
  has_char "/" f = false -> PosixPath.basename (p +:+ "/" +:+ f) = f.
Proof.
  intros Hf. induction p as [|c p IH].
  - rewrite app_nil_left, app_cons, app_nil_left.
    cbn [PosixPath.basename]. by rewrite Hf.
  - rewrite app_cons. cbn [PosixPath.basename].
    rewrite has_char_app, app_cons. cbn [has_char].
    rewrite Ascii.eqb_refl, orb_true_r. exact IH.
Qed.

(** A joined path still ends in the file name it was built from. *)
Lemma basename_join (root f : string) :
  has_char "/" f = false ->
  PosixPath.basename (PosixPath.join root f) = f.
Proof.
  intros Hf. unfold PosixPath.join.
  destruct (startswith f "/") eqn:Hs.
  { by apply basename_plain. }
  destruct (String.eqb root EmptyString) eqn:He; cbn [orb].
  { apply String.eqb_eq in He as ->. rewrite app_nil_left.
    by apply basename_plain. }
  destruct (endswith root "/") eqn:Hend.
  - apply endswith_spec in Hend as [before ->].
    rewrite app_assoc_str. by apply basename_after_slash.
  - by apply basename_after_slash.
Qed.

(** [split('*')[0]] is the text of the pattern before its first star. *)
Lemma pattern_prefix_spec (prefix rest : string) :
  has_char "*" prefix = false ->
  rest = EmptyString \/ (exists r, rest = String "*" r) ->
  pattern_prefix (prefix +:+ rest) = prefix.
Proof.
  intros Hp Hr. unfold pattern_prefix.
  by destruct (split_head "*" prefix rest Hp Hr) as [pieces ->].
Qed.

Lemma file_matches_spec (pat f : string) :
  file_matches pat f = true <->
  (exists stem, lower f = stem +:+ ".root") /\
  (exists a b,
      lower_points f = a ++ lower_points (pattern_prefix pat) ++ b).
Proof.
  unfold file_matches.
  by rewrite andb_true_iff, endswith_spec, contains_spec.
Qed.

Lemma in_matching_files (pat root : string) (files : list string) p :
  In p (matching_files pat root files) <->
  exists g, p = PosixPath.join root g /\ In g files /\
            file_matches pat g = true.
Proof.
  unfold matching_files. rewrite in_map_iff. split.
  - intros (g & <- & Hg). apply filter_In in Hg. by exists g.
  - intros (g & -> & Hg). exists g. split; [done|]. by apply filter_In.
Qed.

Lemma in_discovered (pat : string) walk p :
  In p (discovered pat walk) <->
  exists root dirs files g,
    In (root, dirs, files) walk /\ In g files /\
    p = PosixPath.join root g /\ file_matches pat g = true.
Proof.
  unfold discovered. rewrite in_concat. split.
  - intros (l & Hl & Hp). apply in_map_iff in Hl as ([[r ds] fs] & <- & He).
    apply in_matching_files in Hp as (g & -> & Hg & Hm).
    by exists r, ds, fs, g.
  - intros (r & ds & fs & g & He & Hg & -> & Hm).
    exists (found_in pat (r, ds, fs)). split.
    + apply in_map_iff. by exists (r, ds, fs).
    + apply in_matching_files. by exists g.
Qed.

(** In a directory whose file names hold no path separator, the path of a
    file is among the matching ones exactly when the file's own name
    matches. *)
Lemma matching_files_iff (pat root : string) (files : list string) f :
  (forall g, In g files -> has_char "/" g = false) -> In f files ->
  In (PosixPath.join root f) (matching_files pat root files) <->
  file_matches pat f = true.
Proof.
  intros Hnames Hf. rewrite in_matching_files. split.
  - intros (g & Hj & Hg & Hm).
    apply (f_equal PosixPath.basename) in Hj.
    rewrite !basename_join in Hj by eauto. by subst g.
  - intros Hm. by exists f.
Qed.

(** Over a walk whose file names hold no path separator, the path of a
    file is discovered exactly when the file's own name matches. *)
Lemma discovered_iff (pat : string) walk root dirs files f :
  (forall r ds fs g, In (r, ds, fs) walk -> In g fs ->
                     has_char "/" g = false) ->
  In (root, dirs, files) walk -> In f files ->
  In (PosixPath.join root f) (discovered pat walk) <->
  file_matches pat f = true.
Proof.
  intros Hnames He Hf. rewrite in_discovered. split.
  - intros (r & ds & fs & g & He' & Hg & Hj & Hm).
    apply (f_equal PosixPath.basename) in Hj.
    rewrite !basename_join in Hj by eauto. by subst g.
  - intros Hm. by exists root, dirs, files, f.
Qed.

Lemma gathered_file_dict self walk :
  file_dict (gathered self walk)
  = found_dict (mergeFilePattern self) walk (file_dict self).
Proof.
  revert self. induction walk as [|entry walk IH]; intros self; [done|].
  change (gathered self (entry :: walk))
    with (gathered (gathered self [entry]) walk).
  rewrite IH, gathered_pattern. simpl.
  by destruct (found_in (mergeFilePattern self) entry).
Qed.

(** A directory the walk does not visit keeps its entry. *)
Lemma found_dict_other pat walk (d : gmap string (list string)) k :
  ~ In k (roots walk) -> found_dict pat walk d !! k = d !! k.
Proof.
  revert d. induction walk as [|entry walk IH]; intros d Hk; [done|].
  simpl in *. rewrite IH by tauto.
  destruct (found_in pat entry); [done|].
  apply lookup_insert_ne. tauto.
Qed.

(** A directory the walk visits once gets the paths found in it, or keeps
    its entry when nothing in it matches. *)
Lemma found_dict_lookup pat walk (d : gmap string (list string))
    root dirs files :
  List.NoDup (roots walk) -> In (root, dirs, files) walk ->
  found_dict pat walk d !! root
  = match matching_files pat root files with
    | [] => d !! root
    | found => Some found
    end.
Proof.
  revert d. induction walk as [|entry walk IH]; intros d Hnd Hin; [done|].
  simpl in Hnd. apply List.NoDup_cons_iff in Hnd as [Hfresh Hnd].
  destruct Hin as [-> | Hin]; simpl.
  - rewrite found_dict_other by exact Hfresh.
    destruct (matching_files pat root files); [done|].
    apply lookup_insert_eq.
  - rewrite (IH _ Hnd Hin).
    destruct (matching_files pat root files); [|done].
    destruct (found_in pat entry); [done|].
    apply lookup_insert_ne. intros Heq. apply Hfresh. rewrite Heq.
    apply (in_map (fun e => fst (fst e)) walk (root, dirs, files) Hin).
Qed.

End Discovery.

(** C1.  For every file seen during the walk of the base directory (a walk
    whose file names hold no path separator), [gather_files] on a fresh
    [RootFileMerger] records the file's path in [all_files] if and only if
    the name, lower-cased as [str.lower] does, ends with [.root] and
    contains, code point for code point, the lower-cased text of the pattern
    before its first star; when the walk visits no directory twice, the same
    holds for the entry of the file's directory in [file_dict].  With the
    pattern [out_*.root], a directory holding [out_1.root], [out_2.root] and
    [skip.dat] yields exactly the two [.root] files, and [notout_1.root] is
    recorded as well when it is present.  The case of the letters does not
    count, in the name or in the pattern: of [OUT_1.ROOT], [É2.ROOT],
    [é1.root] and [e3.root], the pattern [out_*.root] and the pattern
    [Out_*.root] record [OUT_1.ROOT] alone, and the pattern [É*.root]
    records [É2.ROOT] and [é1.root], not [e3.root]. *)
Theorem gather_files_matching_rule :
  (forall (env : MergeOutput.Env) (w : MergeOutput.World)
          (base pat out prefix rest root : string)
          (dirs files : list string) (f : string),
      pat = prefix +:+ rest ->
      PyStr.has_char "*" prefix = false ->
      rest = EmptyString \/ (exists r, rest = String "*" r) ->
      (forall r ds fs g,
          In (r, ds, fs) (MergeOutput.os_walk env base) -> In g fs ->
          PyStr.has_char "/" g = false) ->
      In (root, dirs, files) (MergeOutput.os_walk env base) ->
      In f files ->
      exists self' w',
        MergeOutput.gather_files env (MergeOutput.init base pat out) w
        = (Py.Ok self', w') /\
        (In (PosixPath.join root f) (MergeOutput.all_files self') <->
         (exists stem, PyStr.lower f = stem +:+ ".root") /\
         (exists a b,
             PyStr.lower_points f = a ++ PyStr.lower_points prefix ++ b)) /\
        (List.NoDup (MergeOutput.roots (MergeOutput.os_walk env base)) ->
         (exists found,
             MergeOutput.file_dict self' !! root = Some found /\
             In (PosixPath.join root f) found) <->
         (exists stem, PyStr.lower f = stem +:+ ".root") /\
         (exists a b,
             PyStr.lower_points f = a ++ PyStr.lower_points prefix ++ b)))
  /\ (exists self' w',
        MergeOutput.gather_files (Examples.env_plain true)
          (MergeOutput.init "/data" "out_*.root" "merged.root")
          (MergeOutput.start Examples.sizes_1000)
        = (Py.Ok self', w') /\
        MergeOutput.all_files self'
        = ["/data/out_1.root"; "/data/out_2.root"] /\
        MergeOutput.file_dict self' !! "/data"
        = Some ["/data/out_1.root"; "/data/out_2.root"])
  /\ (exists self' w',
        MergeOutput.gather_files Examples.env_loose
          (MergeOutput.init "/data" "out_*.root" "merged.root")
          (MergeOutput.start Examples.sizes_1000)
        = (Py.Ok self', w') /\
        MergeOutput.all_files self'
        = ["/data/out_1.root"; "/data/out_2.root"; "/data/notout_1.root"] /\
        ~ In "/data/skip.dat" (MergeOutput.all_files self'))
  /\ (forall pat, pat = "out_*.root" \/ pat = "Out_*.root" ->
      exists self' w',
        MergeOutput.gather_files Examples.env_cases
          (MergeOutput.init "/data" pat "merged.root")
          (MergeOutput.start Examples.sizes_1000)
        = (Py.Ok self', w') /\
        MergeOutput.all_files self' = ["/data/OUT_1.ROOT"])
  /\ (exists self' w',
        MergeOutput.gather_files Examples.env_cases
          (MergeOutput.init "/data" (Examples.E_acute +:+ "*.root")
             "merged.root")
          (MergeOutput.start Examples.sizes_1000)
        = (Py.Ok self', w') /\
        MergeOutput.all_files self'
        = ["/data/" +:+ Examples.E_acute +:+ "2.ROOT";
           "/data/" +:+ Examples.e_acute +:+ "1.root"]).
Proof.
  split; [|split; [|split; [|split]]].
  - intros env w base pat out prefix rest root dirs files f
      -> Hprefix Hrest Hnames Hentry Hf.
    eexists _, _. split; [apply gather_files_run|].
    rewrite gathered_all_files, gathered_file_dict.
    cbn [MergeOutput.all_files MergeOutput.init MergeOutput.file_dict
      MergeOutput.base_dir MergeOutput.mergeFilePattern app].
    rewrite (discovered_iff _ _ root dirs files f Hnames Hentry Hf).
    rewrite file_matches_spec.
    rewrite (pattern_prefix_spec prefix rest Hprefix Hrest).
    split; [done|]. intros Hroots.
    rewrite (found_dict_lookup _ _ _ root dirs files Hroots Hentry).
    assert (Hiff :
      In (PosixPath.join root f)
         (MergeOutput.matching_files (prefix +:+ rest) root files) <->
      (exists stem, PyStr.lower f = stem +:+ ".root") /\
      (exists a b,
          PyStr.lower_points f = a ++ PyStr.lower_points prefix ++ b)).
    { rewrite matching_files_iff by eauto.
      by rewrite file_matches_spec,
        (pattern_prefix_spec prefix rest Hprefix Hrest). }
    rewrite <- Hiff.
    destruct (MergeOutput.matching_files (prefix +:+ rest) root files)
      as [|p found].
    + rewrite lookup_empty. split; [by intros (l & [=] & _) | intros []].
    + split; [by intros (l & [= <-] & Hin) | intros Hin; by eexists].
  - eexists _, _. split; [apply gather_files_run|]. split; reflexivity.
  - eexists _, _. split; [apply gather_files_run|]. split; [reflexivity|].
    vm_compute. intros [H|[H|[H|[]]]]; discriminate H.
  - intros pat [-> | ->]; eexists _, _;
      (split; [apply gather_files_run|]); vm_compute; reflexivity.
  - eexists _, _. split; [apply gather_files_run|]. vm_compute. reflexivity.
Qed.

Lemma gather_files_matching_rule_witness :
  exists self' w',
    MergeOutput.gather_files Examples.env_cases
      (MergeOutput.init "/data" (Examples.E_acute +:+ "*.root") "merged.root")
      (MergeOutput.start Examples.sizes_1000)
    = (Py.Ok self', w') /\
    (In (PosixPath.join "/data" (Examples.e_acute +:+ "1.root"))
        (MergeOutput.all_files self')
     <-> (exists stem,
             PyStr.lower (Examples.e_acute +:+ "1.root") = stem +:+ ".root") /\
         (exists a b, PyStr.lower_points (Examples.e_acute +:+ "1.root")
                      = a ++ PyStr.lower_points Examples.E_acute ++ b)) /\
    ((exists found,
         MergeOutput.file_dict self' !! "/data" = Some found /\
         In (PosixPath.join "/data" (Examples.e_acute +:+ "1.root")) found)
     <-> (exists stem,
             PyStr.lower (Examples.e_acute +:+ "1.root") = stem +:+ ".root") /\
         (exists a b, PyStr.lower_points (Examples.e_acute +:+ "1.root")
                      = a ++ PyStr.lower_points Examples.E_acute ++ b)).
Proof.
  destruct (proj1 gather_files_matching_rule Examples.env_cases
              (MergeOutput.start Examples.sizes_1000)
              "/data" (Examples.E_acute +:+ "*.root") "merged.root"
              Examples.E_acute "*.root" "/data" []
              ["OUT_1.ROOT"; Examples.E_acute +:+ "2.ROOT";
               Examples.e_acute +:+ "1.root"; "e3.root"]
              (Examples.e_acute +:+ "1.root"))
    as (self' & w' & Hrun & Hflat & Hdict).
  - reflexivity.
  - reflexivity.
  - right. by exists ".root".
  - intros r ds fs g [H|[]] Hg. injection H as <- <- <-.
    destruct Hg as [<-|[<-|[<-|[<-|[]]]]]; reflexivity.
  - left. reflexivity.
  - do 2 right. left. reflexivity.
  - exists self', w'. split; [exact Hrun|]. split; [exact Hflat|].
    apply Hdict. repeat constructor. intros [].
Defined.

(** ** Size estimation *)

Section Estimation.
Import Py MergeOutput.

Lemma counted_total sz size_of files :
  (forall f, In f files -> sz f = Ok (size_of f)) ->
  counted sz files = total size_of files.
Proof.
  induction files as [|f files IH]; intros H; [done|].
  simpl. rewrite (H f) by (by left). rewrite IH; [done|].
  intros g Hg. apply H. by right.
Qed.

Lemma total_app size_of l1 l2 :
  total size_of (l1 ++ l2) = total size_of l1 + total size_of l2.
Proof. induction l1 as [|f l1 IH]; simpl; lia. Qed.

Lemma in_logged m t : In (Log m) t -> In m (logged t).
Proof.
  unfold logged. induction t as [|e t IH]; [done|].
  intros [-> | H]; [by left|].
  destruct e; simpl; [right|..]; by apply IH.
Qed.

Lemma size_report_in sz files f e :
  In f files -> In e (size_report sz f) ->
  In e (estimate_report sz files).
Proof.
  intros Hf He. unfold estimate_report. right.
  apply in_app_iff. left. apply in_concat.
  exists (size_report sz f). split; [|done].
  apply in_map_iff. by exists f.
Qed.

End Estimation.

(** C3.  When the size of every discovered file can be read, with
    [size_of f] the byte size the system reports for [f],
    [estimate_total_size] returns exactly the sum of [size_of] over
    [all_files]; and on the list with one file removed it returns that sum
    less the size of the removed file. *)
Theorem estimate_total_size_exact_sum
    (self : MergeOutput.RootFileMerger) (w : MergeOutput.World)
    (size_of : string -> Z) :
  (forall f, In f (MergeOutput.all_files self) ->
             MergeOutput.sizes w f = Py.Ok (size_of f)) ->
  (exists w',
      MergeOutput.estimate_total_size self w
      = (Py.Ok (MergeOutput.total size_of (MergeOutput.all_files self)), w'))
  /\ (forall (shorter : MergeOutput.RootFileMerger) before f after,
        MergeOutput.all_files self = before ++ f :: after ->
        MergeOutput.all_files shorter = before ++ after ->
        exists w',
          MergeOutput.estimate_total_size shorter w
          = (Py.Ok (MergeOutput.total size_of (MergeOutput.all_files self)
                    - size_of f), w')).
Proof.
  intros Hsizes. split.
  - eexists. rewrite estimate_total_size_run. by rewrite (counted_total _ size_of).
  - intros shorter before f after Hself Hshorter.
    eexists. rewrite estimate_total_size_run, Hshorter, Hself.
    rewrite (counted_total _ size_of).
    + rewrite !total_app. simpl. f_equal. f_equal. lia.
    + intros g Hg. apply Hsizes. rewrite Hself.
      apply in_app_iff in Hg as [Hg | Hg]; apply in_app_iff;
        [by left | right; by right].
Qed.

Lemma estimate_total_size_exact_sum_witness :
  (exists w',
      MergeOutput.estimate_total_size
        {| MergeOutput.base_dir := "/data";
           MergeOutput.mergeFilePattern := "out_*.root";
           MergeOutput.output_file_name := "merged.root";
           MergeOutput.file_dict := ∅;
           MergeOutput.all_files := ["/data/out_1.root"; "/data/out_2.root"] |}
        (MergeOutput.start Examples.sizes_1000)
      = (Py.Ok 2000, w'))
  /\ (exists w',
        MergeOutput.estimate_total_size
          {| MergeOutput.base_dir := "/data";
             MergeOutput.mergeFilePattern := "out_*.root";
             MergeOutput.output_file_name := "merged.root";
             MergeOutput.file_dict := ∅;
             MergeOutput.all_files := ["/data/out_2.root"] |}
          (MergeOutput.start Examples.sizes_1000)
        = (Py.Ok (2000 - 1000), w')).
Proof.
  pose proof (estimate_total_size_exact_sum
    {| MergeOutput.base_dir := "/data";
       MergeOutput.mergeFilePattern := "out_*.root";
       MergeOutput.output_file_name := "merged.root";
       MergeOutput.file_dict := ∅;
       MergeOutput.all_files := ["/data/out_1.root"; "/data/out_2.root"] |}
    (MergeOutput.start Examples.sizes_1000) (fun _ => 1000)) as H.
  destruct H as [Hsum Hless].
  - intros f [<- | [<- | []]]; reflexivity.
  - split; [exact Hsum|].
    apply (Hless
      {| MergeOutput.base_dir := "/data";
         MergeOutput.mergeFilePattern := "out_*.root";
         MergeOutput.output_file_name := "merged.root";
         MergeOutput.file_dict := ∅;
         MergeOutput.all_files := ["/data/out_2.root"] |}
      [] "/data/out_1.root" ["/data/out_2.root"]); reflexivity.
Defined.

(** C8.  [estimate_total_size] never raises.  A file whose size cannot be
    read is logged as a failure and adds nothing; every file whose size can
    be read is logged and counted: the value returned is the sum of the
    sizes that could be read, and the file system is left as it was. *)
Theorem estimate_total_size_best_effort
    (self : MergeOutput.RootFileMerger) (w : MergeOutput.World) :
  exists total_size w',
    MergeOutput.estimate_total_size self w = (Py.Ok total_size, w') /\
    total_size
    = MergeOutput.counted (MergeOutput.sizes w) (MergeOutput.all_files self) /\
    MergeOutput.sizes w' = MergeOutput.sizes w /\
    (forall f e,
        In f (MergeOutput.all_files self) ->
        MergeOutput.sizes w f = Py.Raise e ->
        In (MergeOutput.MsgSizeFailed f e)
           (MergeOutput.logged (MergeOutput.trace w'))) /\
    (forall f n,
        In f (MergeOutput.all_files self) ->
        MergeOutput.sizes w f = Py.Ok n ->
        In (MergeOutput.MsgFileSizeKB f n)
           (MergeOutput.logged (MergeOutput.trace w'))) /\
    (forall before f after e,
        MergeOutput.all_files self = before ++ f :: after ->
        MergeOutput.sizes w f = Py.Raise e ->
        total_size
        = MergeOutput.counted (MergeOutput.sizes w) before
          + MergeOutput.counted (MergeOutput.sizes w) after).
Proof.
  eexists _, _. split; [apply estimate_total_size_run|].
  split; [reflexivity|]. split; [reflexivity|].
  cbn [MergeOutput.extend MergeOutput.trace]. repeat split.
  - intros f e Hf He. apply in_logged, in_app_iff. right.
    apply (size_report_in _ _ f); [done|].
    unfold MergeOutput.size_report. rewrite He. by left.
  - intros f n Hf Hn. apply in_logged, in_app_iff. right.
    apply (size_report_in _ _ f); [done|].
    unfold MergeOutput.size_report. rewrite Hn. by left.
  - intros before f after e -> He.
    rewrite counted_app, (counted_cons _ f after). simpl. rewrite He. lia.
Qed.

(** ** The merge *)

Section Merging.
Import Py MergeOutput.

Lemma added_files_app t u :
  added_files (t ++ u) = added_files t ++ added_files u.
Proof. unfold added_files. apply omap_app. Qed.

Lemma merge_calls_app t u :
  merge_calls (t ++ u) = (merge_calls t + merge_calls u)%nat.
Proof. unfold merge_calls. by rewrite List.filter_app, length_app. Qed.

Lemma added_files_add_reports files :
  added_files (concat (List.map add_report files)) = files.
Proof.
  induction files as [|f files IH]; [done|].
  cbn [List.map concat]. rewrite added_files_app, IH. reflexivity.
Qed.

Lemma merge_calls_add_reports files :
  merge_calls (concat (List.map add_report files)) = 0%nat.
Proof.
  induction files as [|f files IH]; [done|].
  cbn [List.map concat]. rewrite merge_calls_app, IH. reflexivity.
Qed.

Lemma added_files_merge_report self success :
  added_files (merge_report self success) = all_files self.
Proof.
  unfold merge_report.
  rewrite !added_files_app, added_files_add_reports.
  destruct success; simpl; by rewrite app_nil_r.
Qed.

Lemma merge_calls_merge_report self success :
  merge_calls (merge_report self success) = 1%nat.
Proof.
  unfold merge_report.
  rewrite !merge_calls_app, merge_calls_add_reports.
  by destruct success.
Qed.

Lemma merge_report_has_flag self success :
  In (Engine (Merge success)) (merge_report self success).
Proof.
  unfold merge_report. apply in_app_iff. right. apply in_app_iff. right.
  right. by left.
Qed.

End Merging.

(** C4.  [merge_files] hands every path of [all_files] to the engine's
    [AddFile] exactly once and in the order of [all_files], calls the
    engine's [Merge()] exactly once, on the engine whose input list is
    [all_files], and returns exactly the flag that call reported. *)
Theorem merge_files_feeds_engine_in_order
    (env : MergeOutput.Env) (self : MergeOutput.RootFileMerger)
    (w : MergeOutput.World) :
  exists success w' t,
    MergeOutput.merge_files env self w = (Py.Ok success, w') /\
    MergeOutput.trace w' = MergeOutput.trace w ++ t /\
    MergeOutput.added_files t = MergeOutput.all_files self /\
    MergeOutput.merge_calls t = 1%nat /\
    In (MergeOutput.Engine (MergeOutput.Merge success)) t /\
    success
    = fst (MergeOutput.engine_Merge env (MergeOutput.loaded_merger self)
             (MergeOutput.sizes w)) /\
    MergeOutput.inputFiles (MergeOutput.loaded_merger self)
    = MergeOutput.all_files self.
Proof.
  eexists _, _, _. split; [apply merge_files_run|].
  split; [reflexivity|].
  split; [apply added_files_merge_report|].
  split; [apply merge_calls_merge_report|].
  split; [apply merge_report_has_flag|].
  split; reflexivity.
Qed.

(** ** The main flow *)

Section MainFlow.
Import Py MergeOutput.

Lemma compare_report_no_merge sz out estimated_size :
  Forall not_a_merge (compare_report sz out estimated_size).
Proof.
  unfold compare_report. destruct (sz out); repeat constructor.
Qed.

Lemma no_merge_in t b : Forall not_a_merge t -> ~ In (Engine (Merge b)) t.
Proof.
  intros H Hin. rewrite Forall_forall in H.
  by apply list_elem_of_In, H in Hin.
Qed.

Lemma Forall_quiet_no_merge t :
  Forall (fun e => not_from_compare e /\ not_a_merge e) t ->
  Forall not_a_merge t.
Proof. intros H. eapply Forall_impl; [exact H|]. by intros e [_ He]. Qed.

Lemma Forall_quiet_not_compare t :
  Forall (fun e => not_from_compare e /\ not_a_merge e) t ->
  Forall not_from_compare t.
Proof. intros H. eapply Forall_impl; [exact H|]. by intros e [He _]. Qed.

(** The only return of [Merge()] in a run of [main] is the one of the
    call in [merge_files]. *)
Lemma main_report_flag env dir pat out sz b :
  In (Engine (Merge b)) (main_report env dir pat out sz) ->
  b = fst (engine_Merge env
             (loaded_merger
                (gathered (init (os_path_abspath env dir) pat out)
                   (os_walk env (os_path_abspath env dir)))) sz).
Proof.
  unfold main_report. cbv zeta.
  set (self := gathered _ _). set (merged := engine_Merge env _ sz).
  rewrite !in_app_iff. intros [H | [H | [H | [H | [H | H]]]]].
  - by destruct H as [H | []].
  - destruct H as [H | H]; [done|].
    by apply no_merge_in in H;
      [|apply Forall_quiet_no_merge, gather_report_quiet].
  - by apply no_merge_in in H;
      [|apply Forall_quiet_no_merge, estimate_report_quiet].
  - by apply merge_report_flag in H.
  - destruct (fst merged).
    + by apply no_merge_in in H; [|apply compare_report_no_merge].
    + by destruct H as [H | []].
  - by destruct H as [H | []].
Qed.

(** When [Merge()] reports failure, nothing in the run comes from
    [compare_sizes]. *)
Lemma main_report_quiet env dir pat out sz :
  fst (engine_Merge env
         (loaded_merger
            (gathered (init (os_path_abspath env dir) pat out)
               (os_walk env (os_path_abspath env dir)))) sz) = false ->
  Forall not_from_compare (main_report env dir pat out sz).
Proof.
  intros Hfail. unfold main_report. cbv zeta. rewrite Hfail.
  apply Forall_app; split; [|apply Forall_app; split;
    [|apply Forall_app; split; [|apply Forall_app; split;
      [|apply Forall_app; split]]]].
  - by repeat constructor.
  - constructor; [done|].
    apply Forall_quiet_not_compare, gather_report_quiet.
  - apply Forall_quiet_not_compare, estimate_report_quiet.
  - apply merge_report_quiet.
  - by repeat constructor.
  - by repeat constructor.
Qed.

End MainFlow.

(** C5.  In every run of [main] in which the engine's [Merge()] reports
    failure, [compare_sizes] is never entered and none of its messages (the
    merged size, the difference, the failure to read the merged size) is
    logged. *)
Theorem compare_skipped_on_merge_failure
    (env : MergeOutput.Env) (dir pat out : string)
    (sz : string -> Py.result Z)
    (r : Py.result unit) (w' : MergeOutput.World) :
  MergeOutput.main env dir pat out (MergeOutput.start sz) = (r, w') ->
  In (MergeOutput.Engine (MergeOutput.Merge false)) (MergeOutput.trace w') ->
  MergeOutput.entered MergeOutput.Compare_sizes (MergeOutput.trace w') = 0%nat
  /\ (forall m, In m (MergeOutput.logged (MergeOutput.trace w')) ->
                MergeOutput.is_comparison m = false).
Proof.
  rewrite main_run. intros [= <- <-].
  cbn [MergeOutput.trace MergeOutput.start MergeOutput.sizes app].
  intros Hfail. apply main_report_flag in Hfail. symmetry in Hfail.
  pose proof (main_report_quiet env dir pat out sz Hfail) as Q.
  split; [by apply quiet_entered | intros m; by apply quiet_logged].
Qed.

Lemma compare_skipped_on_merge_failure_witness :
  MergeOutput.entered MergeOutput.Compare_sizes
    (MergeOutput.trace
       (snd (MergeOutput.main (Examples.env_plain false) "/data" "out_*.root"
               "merged.root" (MergeOutput.start Examples.sizes_1000))))
  = 0%nat
  /\ (forall m,
        In m (MergeOutput.logged
                (MergeOutput.trace
                   (snd (MergeOutput.main (Examples.env_plain false) "/data"
                           "out_*.root" "merged.root"
                           (MergeOutput.start Examples.sizes_1000))))) ->
        MergeOutput.is_comparison m = false).
Proof.
  apply (compare_skipped_on_merge_failure (Examples.env_plain false) "/data"
           "out_*.root" "merged.root" Examples.sizes_1000
           (fst (MergeOutput.main (Examples.env_plain false) "/data"
                   "out_*.root" "merged.root"
                   (MergeOutput.start Examples.sizes_1000)))).
  - by destruct (MergeOutput.main _ _ _ _ _).
  - vm_compute. repeat (first [left; reflexivity | right]).
Defined.

(** C2.  The run of [main] on the directory [/data] with an engine that
    reports failure: both failure messages are logged, and then the run does
    not stop quietly: line 141 evaluates [self], a name [main] does not
    have, and [NameError] leaves [main]. *)
Theorem main_merge_failure_raises_NameError :
  exists w',
    MergeOutput.main (Examples.env_plain false) "/data" "out_*.root"
      "merged.root" (MergeOutput.start Examples.sizes_1000)
    = (Py.Raise (Py.NameError "self"), w') /\
    In MergeOutput.MsgMergeFailed (MergeOutput.logged (MergeOutput.trace w')) /\
    In MergeOutput.MsgOverallFailed
       (MergeOutput.logged (MergeOutput.trace w')) /\
    MergeOutput.entered MergeOutput.Merge_files (MergeOutput.trace w') = 1%nat.
Proof.
  eexists. split; [apply main_run|].
  split; [|split]; vm_compute; [| |reflexivity];
    repeat (first [left; reflexivity | right]).
Qed.

(** ** The comparison *)

Section Comparison.
Import Py MergeOutput.

(** In a run of [main] in which [Merge()] reports success, the messages
    of [compare_sizes] are in the log, computed from the estimate
    [estimate_total_size] returned and the file sizes after the merge. *)
Lemma main_report_compares env dir pat out sz e :
  let self := gathered (init (os_path_abspath env dir) pat out)
                (os_walk env (os_path_abspath env dir)) in
  let merged := engine_Merge env (loaded_merger self) sz in
  fst merged = true ->
  In e (compare_report (snd merged) out (counted sz (all_files self))) ->
  In e (main_report env dir pat out sz).
Proof.
  intros self merged Hok He. unfold main_report. cbv zeta.
  fold self. fold merged. rewrite Hok.
  replace (output_file_name self) with out
    by (unfold self; by rewrite gathered_output).
  rewrite !in_app_iff. do 4 right. by left.
Qed.

End Comparison.

(** C7.  [compare_sizes] logs the size of the output file and the signed
    difference (size of the output file) - (estimate it was given).  In a
    run of [main] in which the merge succeeds and the output file can be
    read, the logged difference is the output size less the sum
    [estimate_total_size] returned.  With two discovered files of 1000 bytes
    and an engine that leaves an output of 1900 bytes the difference is
    -100 bytes and no other difference is logged; line 96 shows it in KB
    with two decimals, as -0.10. *)
Theorem compare_sizes_logs_signed_difference :
  (forall (self : MergeOutput.RootFileMerger) (estimated_size : Z)
          (w : MergeOutput.World) (final : Z),
      MergeOutput.sizes w (MergeOutput.output_file_name self) = Py.Ok final ->
      exists w',
        MergeOutput.compare_sizes self estimated_size w
        = (Py.Ok (Some final), w') /\
        MergeOutput.trace w'
        = MergeOutput.trace w ++
          [MergeOutput.Enter MergeOutput.Compare_sizes;
           MergeOutput.Log MergeOutput.MsgRuleOpen;
           MergeOutput.Log
             (MergeOutput.MsgMergedSizeKB
                (MergeOutput.output_file_name self) final);
           MergeOutput.Log
             (MergeOutput.MsgDifferenceKB (final - estimated_size))])
  /\ (forall (env : MergeOutput.Env) (dir pat out : string)
             (sz : string -> Py.result Z) (r : Py.result unit)
             (w' : MergeOutput.World) (final : Z),
        MergeOutput.main env dir pat out (MergeOutput.start sz) = (r, w') ->
        In (MergeOutput.Engine (MergeOutput.Merge true))
           (MergeOutput.trace w') ->
        MergeOutput.sizes w' out = Py.Ok final ->
        In (MergeOutput.MsgDifferenceKB
              (final
               - MergeOutput.counted sz
                   (MergeOutput.discovered pat
                      (MergeOutput.os_walk env
                         (MergeOutput.os_path_abspath env dir)))))
           (MergeOutput.logged (MergeOutput.trace w')))
  /\ (exists r w',
        MergeOutput.main (Examples.env_plain true) "/data" "out_*.root"
          "merged.root" (MergeOutput.start Examples.sizes_1000) = (r, w') /\
        In (MergeOutput.MsgEstimatedKB 2000)
           (MergeOutput.logged (MergeOutput.trace w')) /\
        In (MergeOutput.MsgMergedSizeKB "merged.root" 1900)
           (MergeOutput.logged (MergeOutput.trace w')) /\
        In (MergeOutput.MsgDifferenceKB (-100))
           (MergeOutput.logged (MergeOutput.trace w')) /\
        (forall d,
            In (MergeOutput.MsgDifferenceKB d)
               (MergeOutput.logged (MergeOutput.trace w')) ->
            d = -100))
  /\ MergeOutput.text_of (MergeOutput.MsgDifferenceKB (-100))
     = Some "The difference between the estimated and merged file size is -0.10 KB.".
Proof.
  split; [|split; [|split]].
  - intros self estimated_size w final Hfinal.
    eexists. rewrite compare_sizes_run. unfold MergeOutput.compare_report.
    rewrite Hfinal. split; reflexivity.
  - intros env dir pat out sz r w' final.
    rewrite main_run. intros [= <- <-].
    cbn [MergeOutput.trace MergeOutput.start MergeOutput.sizes app].
    intros Hok Hfinal. apply main_report_flag in Hok. symmetry in Hok.
    apply in_logged.
    apply (main_report_compares env dir pat out sz _ Hok).
    unfold MergeOutput.compare_report. rewrite Hfinal.
    rewrite gathered_all_files. cbn [MergeOutput.init MergeOutput.all_files
      MergeOutput.mergeFilePattern app].
    do 3 right. by left.
  - eexists _, _. split; [apply main_run|]. vm_compute.
    split; [|split; [|split]];
      try (repeat (first [left; reflexivity | right])).
    intros d H.
    repeat (destruct H as [H|H]; [try discriminate H; by injection H|]).
    destruct H.
  - reflexivity.
Qed.

Lemma compare_sizes_logs_signed_difference_witness :
  exists w',
    MergeOutput.compare_sizes
      (MergeOutput.init "/data" "out_*.root" "merged.root") 2000
      (MergeOutput.start (fun _ => Py.Ok 1900))
    = (Py.Ok (Some 1900), w') /\
    MergeOutput.trace w'
    = [MergeOutput.Enter MergeOutput.Compare_sizes;
       MergeOutput.Log MergeOutput.MsgRuleOpen;
       MergeOutput.Log (MergeOutput.MsgMergedSizeKB "merged.root" 1900);
       MergeOutput.Log (MergeOutput.MsgDifferenceKB (1900 - 2000))].
Proof.
  apply (proj1 compare_sizes_logs_signed_difference
           (MergeOutput.init "/data" "out_*.root" "merged.root") 2000
           (MergeOutput.start (fun _ => Py.Ok 1900)) 1900).
  reflexivity.
Defined.

(** ** Discovery run twice *)

Section Repetition.
Import Py MergeOutput.

(** The loop only adds to the table or overwrites entries: the result is
    the table of the walk laid over the table it started from. *)
Lemma found_dict_union pat walk (d : gmap string (list string)) :
  found_dict pat walk d = found_dict pat walk ∅ ∪ d.
Proof.
  revert d. induction walk as [|entry walk IH]; intros d.
  - simpl. by rewrite (left_id_L ∅ (∪)).
  - simpl. destruct (found_in pat entry) as [|p found].
    + apply IH.
    + rewrite IH, (IH (<[_ := _]> ∅)).
      rewrite insert_empty, insert_union_singleton_l.
      by rewrite (assoc_L (∪)).
Qed.

Lemma found_dict_again pat walk (d : gmap string (list string)) :
  found_dict pat walk (found_dict pat walk d) = found_dict pat walk d.
Proof.
  rewrite (found_dict_union pat walk (found_dict pat walk d)).
  rewrite (found_dict_union pat walk d).
  by rewrite (assoc_L (∪)), (idemp_L (∪)).
Qed.

Lemma occurrences_app p l1 l2 :
  occurrences p (l1 ++ l2) = (occurrences p l1 + occurrences p l2)%nat.
Proof. unfold occurrences. by rewrite List.filter_app, length_app. Qed.

Lemma occurrences_absent p l : ~ In p l -> occurrences p l = 0%nat.
Proof.
  unfold occurrences. induction l as [|q l IH]; [done|].
  intros H. simpl. destruct (String.eqb p q) eqn:E.
  - apply String.eqb_eq in E as ->. destruct H. by left.
  - apply IH. intros Hin. apply H. by right.
Qed.

(** In a list without repetition every member occurs once. *)
Lemma occurrences_NoDup p l :
  List.NoDup l -> In p l -> occurrences p l = 1%nat.
Proof.
  induction 1 as [|q l Hq Hl IH]; [done|].
  intros [<- | Hin].
  - change (q :: l) with ([q] ++ l).
    rewrite occurrences_app, (occurrences_absent q l Hq).
    unfold occurrences. simpl. by rewrite String.eqb_refl.
  - change (q :: l) with ([q] ++ l). rewrite occurrences_app, (IH Hin).
    unfold occurrences. simpl.
    destruct (String.eqb p q) eqn:E; [|done].
    apply String.eqb_eq in E as ->. by destruct Hq.
Qed.

End Repetition.

Lemma gathered_base_dir (self : MergeOutput.RootFileMerger) walk :
  MergeOutput.base_dir (MergeOutput.gathered self walk)
  = MergeOutput.base_dir self.
Proof.
  revert self. induction walk as [|entry walk IH]; intros self; [done|].
  simpl. rewrite IH. by destruct (MergeOutput.found_in _ entry).
Qed.

(** C10.  [gather_files] does not start from a clean state.  Called twice on
    a fresh [RootFileMerger] over an unchanged file system, the second call
    appends the same paths to [all_files] again and rewrites the same
    entries of [file_dict]: [all_files] is the list of the first call
    followed by itself, every path occurs twice as often as after one call
    (exactly twice when the first call found it once), [file_dict] is
    unchanged, the size estimate doubles, and the merge engine is given
    every path twice. *)
Theorem gather_files_twice_doubles
    (env : MergeOutput.Env) (base pat out : string) (w : MergeOutput.World) :
  exists once w1 twice w2,
    MergeOutput.gather_files env (MergeOutput.init base pat out) w
    = (Py.Ok once, w1) /\
    MergeOutput.gather_files env once w1 = (Py.Ok twice, w2) /\
    MergeOutput.all_files twice
    = MergeOutput.all_files once ++ MergeOutput.all_files once /\
    MergeOutput.file_dict twice = MergeOutput.file_dict once /\
    (forall p,
        MergeOutput.occurrences p (MergeOutput.all_files twice)
        = (2 * MergeOutput.occurrences p (MergeOutput.all_files once))%nat) /\
    (List.NoDup (MergeOutput.all_files once) ->
     forall p, In p (MergeOutput.all_files once) ->
               MergeOutput.occurrences p (MergeOutput.all_files twice)
               = 2%nat) /\
    (exists e1 v1 e2 v2,
        MergeOutput.estimate_total_size once w1 = (Py.Ok e1, v1) /\
        MergeOutput.estimate_total_size twice w2 = (Py.Ok e2, v2) /\
        e2 = 2 * e1) /\
    (exists success u t,
        MergeOutput.merge_files env twice w2 = (Py.Ok success, u) /\
        MergeOutput.trace u = MergeOutput.trace w2 ++ t /\
        MergeOutput.added_files t
        = MergeOutput.all_files once ++ MergeOutput.all_files once).
Proof.
  eexists _, _, _, _.
  split; [apply gather_files_run|]. split; [apply gather_files_run|].
  rewrite gathered_base_dir, gathered_pattern.
  cbn [MergeOutput.base_dir MergeOutput.mergeFilePattern MergeOutput.init].
  set (walk := MergeOutput.os_walk env base).
  set (fresh := MergeOutput.init base pat out).
  assert (Hfiles :
    MergeOutput.all_files (MergeOutput.gathered
                             (MergeOutput.gathered fresh walk) walk)
    = MergeOutput.all_files (MergeOutput.gathered fresh walk)
      ++ MergeOutput.all_files (MergeOutput.gathered fresh walk)).
  { rewrite (gathered_all_files (MergeOutput.gathered fresh walk)).
    rewrite gathered_pattern. f_equal.
    by rewrite gathered_all_files. }
  split; [exact Hfiles|].
  split.
  { rewrite !gathered_file_dict, gathered_pattern.
    apply found_dict_again. }
  split.
  { intros p. rewrite Hfiles, occurrences_app. lia. }
  split.
  { intros Hnodup p Hp.
    by rewrite Hfiles, occurrences_app, (occurrences_NoDup p _ Hnodup Hp). }
  split.
  { eexists _, _, _, _.
    split; [apply estimate_total_size_run|].
    split; [apply estimate_total_size_run|].
    cbn [MergeOutput.extend MergeOutput.sizes].
    rewrite Hfiles, counted_app. lia. }
  eexists _, _, _. split; [apply merge_files_run|].
  split; [reflexivity|].
  by rewrite added_files_merge_report, Hfiles.
Qed.

Lemma gather_files_twice_doubles_witness :
  exists once w1 twice w2,
    MergeOutput.gather_files (Examples.env_plain true)
      (MergeOutput.init "/data" "out_*.root" "merged.root")
      (MergeOutput.start Examples.sizes_1000)
    = (Py.Ok once, w1) /\
    MergeOutput.gather_files (Examples.env_plain true) once w1
    = (Py.Ok twice, w2) /\
    MergeOutput.all_files once = ["/data/out_1.root"; "/data/out_2.root"] /\
    MergeOutput.all_files twice
    = ["/data/out_1.root"; "/data/out_2.root";
       "/data/out_1.root"; "/data/out_2.root"] /\
    MergeOutput.occurrences "/data/out_1.root" (MergeOutput.all_files twice)
    = 2%nat.
Proof.
  destruct (gather_files_twice_doubles (Examples.env_plain true)
              "/data" "out_*.root" "merged.root"
              (MergeOutput.start Examples.sizes_1000))
    as (once & w1 & twice & w2 & H1 & H2 & Hfiles & _ & _ & Hocc & _).
  exists once, w1, twice, w2.
  assert (Honce : MergeOutput.all_files once
                  = ["/data/out_1.root"; "/data/out_2.root"]).
  { rewrite gather_files_run in H1.
    apply pair_equal_spec in H1 as [[= <-] _]. reflexivity. }
  split; [exact H1|]. split; [exact H2|].
  split; [exact Honce|]. split; [by rewrite Hfiles, Honce|].
  apply Hocc.
  - rewrite Honce. repeat constructor; simpl; intuition discriminate.
  - rewrite Honce. by left.
Defined.

(** ** The job descriptor generator *)

(** Unfolds a generator down to the questions it asks the system, and
    reads the fields of the states it builds. *)
Ltac unfold_generator :=
  unfold JobScriptGenerator.generate_local_merge_script,
    JobScriptGenerator.generate_condorMerge_submission_file,
    JobScriptGenerator.list_subdirs, JobScriptGenerator.listdir,
    JobScriptGenerator.write_file, JobScriptGenerator.open_for_writing,
    JobScriptGenerator.write_and_close, JobScriptGenerator.chmod,
    JobScriptGenerator.makedirs, JobScriptGenerator.print, Py.bind, Py.ret.

Ltac read_fields :=
  cbn [JobScriptGenerator.os_listdir JobScriptGenerator.os_path_isdir
       JobScriptGenerator.may_open JobScriptGenerator.encodable
       JobScriptGenerator.may_write JobScriptGenerator.torn
       JobScriptGenerator.may_chmod JobScriptGenerator.may_makedirs
       JobScriptGenerator.umask JobScriptGenerator.file_text
       JobScriptGenerator.file_mode JobScriptGenerator.made_dirs
       JobScriptGenerator.stdout fst snd negb].

(** Splits a run along the answers of the system to its calls. *)
Ltac ask_system :=
  repeat
    (read_fields;
     match goal with
     | |- context [JobScriptGenerator.may_makedirs ?os ?path] =>
         destruct (JobScriptGenerator.may_makedirs os path)
     | |- context [JobScriptGenerator.may_open ?os ?path] =>
         destruct (JobScriptGenerator.may_open os path)
     | |- context [JobScriptGenerator.encodable ?os ?text] =>
         destruct (JobScriptGenerator.encodable os text)
     | |- context [JobScriptGenerator.may_write ?os ?path] =>
         destruct (JobScriptGenerator.may_write os path)
     | |- context [JobScriptGenerator.may_chmod ?os ?path] =>
         destruct (JobScriptGenerator.may_chmod os path)
     end);
  read_fields.

Section Generator.
Import PyStr Py JobScriptGenerator.

Lemma count_app p l1 l2 : count p (l1 ++ l2) = (count p l1 + count p l2)%nat.
Proof. unfold count. by rewrite List.filter_app, length_app. Qed.

Lemma fold_left_append {A} (block : A -> list string) (l : list A)
    (lines : list string) :
  fold_left (fun lines x => lines ++ block x) l lines
  = lines ++ concat (List.map block l).
Proof.
  revert lines. induction l as [|x l IH]; intros lines; simpl.
  - by rewrite app_nil_r.
  - by rewrite IH, <- app_assoc.
Qed.

(** The local script: the header, three lines per subdirectory in the
    order of the listing, the closing line. *)
Lemma local_lines_blocks storage pat subdirs :
  local_lines storage pat subdirs
  = local_header storage
    ++ concat (List.map (local_block pat) subdirs)
    ++ ["echo " +:+ dq +:+ "All merge jobs completed." +:+ dq].
Proof.
  unfold local_lines.
  rewrite (fold_left_append (local_block pat)). by rewrite <- app_assoc.
Qed.

(** The submission file: the header, one stanza per subdirectory. *)
Lemma condor_lines_stanzas storage pat subdirs :
  condor_lines storage pat subdirs
  = condor_header ++ concat (List.map (condor_stanza storage pat) subdirs).
Proof. unfold condor_lines. apply fold_left_append. Qed.

Lemma count_local_blocks pat subdirs :
  count is_invocation (concat (List.map (local_block pat) subdirs))
  = length subdirs.
Proof.
  induction subdirs as [|d subdirs IH]; [done|].
  cbn [List.map concat]. rewrite count_app, IH. reflexivity.
Qed.

Lemma count_condor_stanzas storage pat subdirs :
  count is_queue (concat (List.map (condor_stanza storage pat) subdirs))
  = length subdirs.
Proof.
  induction subdirs as [|d subdirs IH]; [done|].
  cbn [List.map concat]. rewrite count_app, IH. reflexivity.
Qed.

Lemma count_invocations storage pat subdirs :
  count is_invocation (local_lines storage pat subdirs) = length subdirs.
Proof.
  rewrite local_lines_blocks, !count_app, count_local_blocks.
  change (count is_invocation (local_header storage)) with 0%nat.
  change (count is_invocation [_]) with 0%nat. lia.
Qed.

Lemma count_queues storage pat subdirs :
  count is_queue (condor_lines storage pat subdirs) = length subdirs.
Proof.
  rewrite condor_lines_stanzas, count_app, count_condor_stanzas.
  reflexivity.
Qed.

(** *** The runs of the two generators *)

Lemma list_subdirs_run storage os names :
  os_listdir os storage = Ok names ->
  list_subdirs storage os
  = (Ok (List.filter
           (fun d => os_path_isdir os (PosixPath.join storage d)) names),
     os).
Proof. intros H. unfold list_subdirs, bind, listdir. by rewrite H. Qed.

Lemma generate_local_ok storage script pat os os' :
  generate_local_merge_script storage script pat os = (Ok tt, os') ->
  exists names,
    os_listdir os storage = Ok names /\
    file_text os' !! script
    = Some (join nl
              (local_lines storage pat
                 (List.filter
                    (fun d => os_path_isdir os (PosixPath.join storage d))
                    names))) /\
    file_mode os' !! script = Some mode_0755.
Proof.
  unfold_generator.
  destruct (os_listdir os storage) as [names|e] eqn:Hls; [|done].
  destruct (may_open os script); [|done]. read_fields.
  destruct (encodable os _); [|done]. read_fields.
  destruct (may_write os script); [|done]. read_fields.
  destruct (may_chmod os script); [|done].
  intros [= <-]. exists names. read_fields.
  split; [done|]. split; apply lookup_insert_eq.
Qed.

Lemma generate_condor_ok storage script pat os os' :
  generate_condorMerge_submission_file storage script pat os
  = (Ok tt, os') ->
  exists names,
    os_listdir os storage = Ok names /\
    file_text os' !! script
    = Some (join nl
              (condor_lines storage pat
                 (List.filter
                    (fun d => os_path_isdir os (PosixPath.join storage d))
                    names))) /\
    In "merge_condor_logs" (made_dirs os') /\
    made_dirs os' = made_dirs os ++ ["merge_condor_logs"].
Proof.
  unfold_generator.
  destruct (os_listdir os storage) as [names|e] eqn:Hls; [|done].
  destruct (may_makedirs os "merge_condor_logs"); [|done]. read_fields.
  destruct (may_open os script); [|done]. read_fields.
  destruct (encodable os _); [|done]. read_fields.
  destruct (may_write os script); [|done].
  intros [= <-]. exists names. read_fields.
  split; [done|]. split; [apply lookup_insert_eq|].
  split; [|done]. apply in_app_iff. right. by left.
Qed.

End Generator.

(** ** The generated text, line by line *)

Section GeneratedText.
Import PyStr Py JobScriptGenerator.

Lemma one_line_app s t : one_line s -> one_line t -> one_line (s +:+ t).
Proof. unfold one_line. intros Hs Ht. by rewrite has_char_app, Hs, Ht. Qed.

Ltac one_line_tac :=
  repeat match goal with
         | |- one_line (_ +:+ _) => apply one_line_app
         end;
  first [assumption | reflexivity].

Lemma one_line_join root d :
  one_line root -> one_line d -> one_line (PosixPath.join root d).
Proof.
  intros Hr Hd. unfold PosixPath.join.
  destruct (startswith d "/"); [done|].
  destruct (_ || _); one_line_tac.
Qed.

Lemma local_lines_one_line storage pat subdirs :
  one_line storage -> one_line pat -> Forall one_line subdirs ->
  Forall one_line (local_lines storage pat subdirs).
Proof.
  intros Hs Hp Hd. rewrite local_lines_blocks.
  apply Forall_app; split; [|apply Forall_app; split].
  - unfold local_header. repeat constructor; one_line_tac.
  - apply Forall_concat, Forall_map.
    eapply Forall_impl; [exact Hd|]. intros d Hone.
    unfold local_block, progress_line, invocation_line.
    repeat constructor; one_line_tac.
  - repeat constructor; one_line_tac.
Qed.

Lemma condor_lines_one_line storage pat subdirs :
  one_line storage -> one_line pat -> Forall one_line subdirs ->
  Forall one_line (condor_lines storage pat subdirs).
Proof.
  intros Hs Hp Hd. rewrite condor_lines_stanzas.
  apply Forall_app; split.
  - unfold condor_header. repeat constructor; one_line_tac.
  - apply Forall_concat, Forall_map.
    eapply Forall_impl; [exact Hd|]. intros d Hone.
    pose proof (one_line_join storage d Hs Hone) as Hj.
    unfold condor_stanza. repeat constructor; one_line_tac.
Qed.

(** A text written from lines that hold no line feed reads back as those
    lines. *)
Lemma text_lines_join lines :
  lines <> [] -> Forall one_line lines ->
  text_lines (join nl lines) = lines.
Proof. intros Hne Hall. by apply split_join. Qed.

Lemma local_lines_not_nil storage pat subdirs :
  local_lines storage pat subdirs <> [].
Proof. by rewrite local_lines_blocks. Qed.

Lemma condor_lines_not_nil storage pat subdirs :
  condor_lines storage pat subdirs <> [].
Proof. by rewrite condor_lines_stanzas. Qed.

End GeneratedText.

(** A run is the pair of its outcome and its final state. *)
Lemma run_from_fst {A B : Type} (run : A * B) (a : A) :
  fst run = a -> run = (a, snd run).
Proof. intros <-. by destruct run. Qed.

(** C6, as stated, fails on a directory name that holds line feeds.  A
    storage root lists one subdirectory, named [a], [queue], [b] on three
    lines; batch mode completes, and the submission file it writes has six
    queue directives, not one.  Another lists one subdirectory, named [a]
    and [python3 -u mergeOutput.py b] on two lines; local mode completes,
    and the script it writes has four lines that invoke the merge
    orchestrator, not one. *)
Lemma generated_file_count_fails_on_line_feeds :
  let batch :=
    JobScriptGenerator.generate_condorMerge_submission_file "/store"
      "merge_using_condor.sub" "out_*.root" Examples.os_line_feed in
  let local :=
    JobScriptGenerator.generate_local_merge_script "/store"
      "merge_Locally.sh" "out_*.root" Examples.os_command in
  (JobScriptGenerator.os_listdir Examples.os_line_feed "/store"
   = Py.Ok [Examples.name_with_line_feeds] /\
   length
     (List.filter
        (fun d => JobScriptGenerator.os_path_isdir Examples.os_line_feed
                    (PosixPath.join "/store" d))
        [Examples.name_with_line_feeds]) = 1%nat /\
   fst batch = Py.Ok tt /\
   exists text,
     JobScriptGenerator.file_text (snd batch) !! "merge_using_condor.sub"
     = Some text /\
     JobScriptGenerator.count JobScriptGenerator.is_queue
       (JobScriptGenerator.text_lines text) = 6%nat)
  /\ (JobScriptGenerator.os_listdir Examples.os_command "/store"
      = Py.Ok [Examples.name_with_command] /\
      length
        (List.filter
           (fun d => JobScriptGenerator.os_path_isdir Examples.os_command
                       (PosixPath.join "/store" d))
           [Examples.name_with_command]) = 1%nat /\
      fst local = Py.Ok tt /\
      exists text,
        JobScriptGenerator.file_text (snd local) !! "merge_Locally.sh"
        = Some text /\
        JobScriptGenerator.count JobScriptGenerator.is_invocation
          (JobScriptGenerator.text_lines text) = 4%nat).
Proof.
  cbv zeta. split.
  - split; [reflexivity|]. split; [reflexivity|].
    split; [vm_compute; reflexivity|].
    eexists. split; [vm_compute; reflexivity|].
    vm_compute. reflexivity.
  - split; [reflexivity|]. split; [reflexivity|].
    split; [vm_compute; reflexivity|].
    eexists. split; [vm_compute; reflexivity|].
    vm_compute. reflexivity.
Qed.

(** C6, amended.  Let the listing of the storage root succeed and let [N]
    be the number of its entries that are directories.  A completed run of
    local mode has written the lines of [local_lines] joined by line feeds,
    and exactly [N] of these lines invoke the merge orchestrator; a
    completed run of batch mode has written the header followed by [N]
    stanzas, one per subdirectory, each made of four fields, the queue
    directive and an empty line, so exactly [N] of the lines are queue
    directives.  When neither the storage path, the pattern nor a
    subdirectory name holds a line feed, the lines of the written text are
    these lines, so the generated script has exactly [N] invocation lines
    and the generated submission file exactly [N] queue directives. *)
Theorem generator_emits_one_job_per_subdirectory
    (os : JobScriptGenerator.OS) (storage script pat : string)
    (names : list string) :
  JobScriptGenerator.os_listdir os storage = Py.Ok names ->
  let subdirs :=
    List.filter
      (fun d => JobScriptGenerator.os_path_isdir os (PosixPath.join storage d))
      names in
  let N := length subdirs in
  (forall os',
      JobScriptGenerator.generate_local_merge_script storage script pat os
      = (Py.Ok tt, os') ->
      JobScriptGenerator.file_text os' !! script
      = Some (PyStr.join JobScriptGenerator.nl
                (JobScriptGenerator.local_lines storage pat subdirs)))
  /\ JobScriptGenerator.count JobScriptGenerator.is_invocation
       (JobScriptGenerator.local_lines storage pat subdirs) = N
  /\ (forall os',
        JobScriptGenerator.generate_condorMerge_submission_file
          storage script pat os = (Py.Ok tt, os') ->
        JobScriptGenerator.file_text os' !! script
        = Some (PyStr.join JobScriptGenerator.nl
                  (JobScriptGenerator.condor_lines storage pat subdirs)))
  /\ JobScriptGenerator.condor_lines storage pat subdirs
     = JobScriptGenerator.condor_header
       ++ concat (List.map (JobScriptGenerator.condor_stanza storage pat)
                    subdirs)
  /\ length (List.map (JobScriptGenerator.condor_stanza storage pat) subdirs)
     = N
  /\ (forall d, exists fields,
         JobScriptGenerator.condor_stanza storage pat d
         = fields ++ ["queue"; EmptyString] /\
         length fields = 4%nat /\
         JobScriptGenerator.count JobScriptGenerator.is_queue fields = 0%nat)
  /\ JobScriptGenerator.count JobScriptGenerator.is_queue
       (JobScriptGenerator.condor_lines storage pat subdirs) = N
  /\ (JobScriptGenerator.one_line storage ->
      JobScriptGenerator.one_line pat ->
      Forall JobScriptGenerator.one_line subdirs ->
      (forall os',
          JobScriptGenerator.generate_local_merge_script storage script pat os
          = (Py.Ok tt, os') ->
          exists text,
            JobScriptGenerator.file_text os' !! script = Some text /\
            JobScriptGenerator.text_lines text
            = JobScriptGenerator.local_lines storage pat subdirs /\
            JobScriptGenerator.count JobScriptGenerator.is_invocation
              (JobScriptGenerator.text_lines text) = N) /\
      (forall os',
          JobScriptGenerator.generate_condorMerge_submission_file
            storage script pat os = (Py.Ok tt, os') ->
          exists text,
            JobScriptGenerator.file_text os' !! script = Some text /\
            JobScriptGenerator.text_lines text
            = JobScriptGenerator.condor_lines storage pat subdirs /\
            JobScriptGenerator.count JobScriptGenerator.is_queue
              (JobScriptGenerator.text_lines text) = N)).
Proof.
  intros Hls subdirs N.
  assert (Hlocal : forall os',
    JobScriptGenerator.generate_local_merge_script storage script pat os
    = (Py.Ok tt, os') ->
    JobScriptGenerator.file_text os' !! script
    = Some (PyStr.join JobScriptGenerator.nl
              (JobScriptGenerator.local_lines storage pat subdirs))).
  { intros os' Hrun.
    apply generate_local_ok in Hrun as (names' & Hls' & Htext & _).
    rewrite Hls in Hls'. by injection Hls' as <-. }
  assert (Hbatch : forall os',
    JobScriptGenerator.generate_condorMerge_submission_file
      storage script pat os = (Py.Ok tt, os') ->
    JobScriptGenerator.file_text os' !! script
    = Some (PyStr.join JobScriptGenerator.nl
              (JobScriptGenerator.condor_lines storage pat subdirs))).
  { intros os' Hrun.
    apply generate_condor_ok in Hrun as (names' & Hls' & Htext & _).
    rewrite Hls in Hls'. by injection Hls' as <-. }
  split; [exact Hlocal|].
  split; [apply count_invocations|].
  split; [exact Hbatch|].
  split; [apply condor_lines_stanzas|].
  split; [apply length_map|].
  split.
  { intros d. eexists [_; _; _; _]. split; [reflexivity|].
    split; reflexivity. }
  split; [apply count_queues|].
  intros Hs Hp Hd. split; intros os' Hrun; eexists.
  - split; [by apply Hlocal|].
    rewrite text_lines_join;
      [split; [reflexivity | apply count_invocations]
      | apply local_lines_not_nil | by apply local_lines_one_line].
  - split; [by apply Hbatch|].
    rewrite text_lines_join;
      [split; [reflexivity | apply count_queues]
      | apply condor_lines_not_nil | by apply condor_lines_one_line].
Qed.

Lemma generator_emits_one_job_per_subdirectory_witness :
  JobScriptGenerator.count JobScriptGenerator.is_invocation
    (JobScriptGenerator.local_lines "/store" "out_*.root" ["runA"; "runB"])
  = 2%nat
  /\ JobScriptGenerator.count JobScriptGenerator.is_queue
       (JobScriptGenerator.condor_lines "/store" "out_*.root" ["runA"; "runB"])
     = 2%nat
  /\ (exists text,
        JobScriptGenerator.file_text
          (snd (JobScriptGenerator.generate_local_merge_script "/store"
                  "merge_Locally.sh" "out_*.root" Examples.os_store))
          !! "merge_Locally.sh" = Some text /\
        JobScriptGenerator.text_lines text
        = JobScriptGenerator.local_lines "/store" "out_*.root"
            ["runA"; "runB"] /\
        JobScriptGenerator.count JobScriptGenerator.is_invocation
          (JobScriptGenerator.text_lines text) = 2%nat).
Proof.
  pose proof (generator_emits_one_job_per_subdirectory Examples.os_store
                "/store" "merge_Locally.sh" "out_*.root"
                ["runA"; "notes.txt"; "runB"] eq_refl) as H.
  cbv zeta in H.
  destruct H as (_ & Hlocal & _ & _ & _ & _ & Hbatch & Htext).
  split; [exact Hlocal|]. split; [exact Hbatch|].
  destruct Htext as [Hfile _]; [reflexivity | reflexivity | |].
  { repeat constructor. }
  apply Hfile. apply run_from_fst. vm_compute. reflexivity.
Defined.

(** C9.  When [generate_local_merge_script] completes, the permission bits
    of the script it wrote are [0o755]: the execute bit is set for the
    owner, for the group and for the others. *)
Theorem local_script_mode_0755
    (os os' : JobScriptGenerator.OS) (storage script pat : string) :
  JobScriptGenerator.generate_local_merge_script storage script pat os
  = (Py.Ok tt, os') ->
  exists mode,
    JobScriptGenerator.file_mode os' !! script = Some mode /\
    mode = JobScriptGenerator.mode_0755 /\
    mode = 7 * 64 + 5 * 8 + 5 /\
    JobScriptGenerator.owner_execute mode = true /\
    JobScriptGenerator.group_execute mode = true /\
    JobScriptGenerator.other_execute mode = true.
Proof.
  intros Hrun. apply generate_local_ok in Hrun as (names & _ & _ & Hmode).
  exists JobScriptGenerator.mode_0755. by repeat split.
Qed.

Lemma local_script_mode_0755_witness :
  exists mode,
    JobScriptGenerator.file_mode
      (snd (JobScriptGenerator.generate_local_merge_script "/store"
              "merge_Locally.sh" "out_*.root" Examples.os_store))
      !! "merge_Locally.sh" = Some mode /\
    mode = JobScriptGenerator.mode_0755 /\
    mode = 7 * 64 + 5 * 8 + 5 /\
    JobScriptGenerator.owner_execute mode = true /\
    JobScriptGenerator.group_execute mode = true /\
    JobScriptGenerator.other_execute mode = true.
Proof.
  apply (local_script_mode_0755 Examples.os_store _ "/store"
           "merge_Locally.sh" "out_*.root").
  reflexivity.
Defined.

(* ===================================================================== *)
(** * Further properties of the code *)
(* ===================================================================== *)

(** ** The matching rule of [gather_files] *)

Section MatchingRule.
Import PyStr Py MergeOutput.

Lemma contains_empty (s : list N) : contains s [] = true.
Proof. by destruct s. Qed.

End MatchingRule.

(** X2.  Only the text of the pattern before its first star is used: what
    follows the star never changes which files match, and the pattern
    matches exactly like its prefix alone. *)
Theorem text_after_first_star_is_ignored (prefix a b f : string) :
  PyStr.has_char "*" prefix = false ->
  MergeOutput.file_matches (prefix +:+ String "*" a) f
  = MergeOutput.file_matches (prefix +:+ String "*" b) f
  /\ MergeOutput.file_matches (prefix +:+ String "*" a) f
     = MergeOutput.file_matches prefix f.
Proof.
  intros Hprefix. unfold MergeOutput.file_matches.
  rewrite (pattern_prefix_spec prefix (String "*" a) Hprefix)
    by (right; by eexists).
  rewrite (pattern_prefix_spec prefix (String "*" b) Hprefix)
    by (right; by eexists).
  split; [reflexivity|].
  pose proof (pattern_prefix_spec prefix EmptyString Hprefix) as H.
  rewrite app_nil_right in H. by rewrite H by (by left).
Qed.

Lemma text_after_first_star_is_ignored_witness :
  MergeOutput.file_matches ("out_" +:+ String "*" ".root") "out_1.root"
  = MergeOutput.file_matches ("out_" +:+ String "*" ".txt") "out_1.root"
  /\ MergeOutput.file_matches ("out_" +:+ String "*" ".root") "out_1.root"
     = MergeOutput.file_matches "out_" "out_1.root".
Proof.
  apply (text_after_first_star_is_ignored "out_" ".root" ".txt" "out_1.root").
  reflexivity.
Defined.

(** X3.  A pattern that starts with a star, and the empty pattern, select
    every file whose lower-cased name ends with [.root], whatever the rest
    of the name. *)
Theorem star_first_pattern_takes_every_root_file (a f : string) :
  MergeOutput.file_matches (String "*" a) f
  = PyStr.endswith (PyStr.lower f) ".root"
  /\ MergeOutput.file_matches EmptyString f
     = PyStr.endswith (PyStr.lower f) ".root".
Proof.
  unfold MergeOutput.file_matches.
  change (MergeOutput.pattern_prefix (String "*" a)) with EmptyString.
  change (MergeOutput.pattern_prefix EmptyString) with EmptyString.
  change (PyStr.lower_points EmptyString) with (@nil N).
  by rewrite contains_empty, andb_true_r.
Qed.

(** ** What [gather_files] keeps and what it reports *)

Section GatherInvariants.
Import PyStr Py MergeOutput.

Lemma record_found_well_recorded self root found :
  found <> [] -> well_recorded self ->
  well_recorded (record_found self root found).
Proof.
  intros Hne Hself k l. cbn [record_found file_dict all_files].
  destruct (decide (root = k)) as [<- | Hk].
  - rewrite lookup_insert_eq. intros [= <-]. split; [done|].
    intros p Hp. apply in_app_iff. by right.
  - rewrite lookup_insert_ne by done. intros Hl.
    destruct (Hself k l Hl) as [Hl1 Hl2]. split; [done|].
    intros p Hp. apply in_app_iff. left. by apply Hl2.
Qed.

Lemma gathered_well_recorded self walk :
  well_recorded self -> well_recorded (gathered self walk).
Proof.
  revert self. induction walk as [|entry walk IH]; intros self Hself; [done|].
  change (gathered self (entry :: walk))
    with (gathered (gathered self [entry]) walk).
  apply IH. simpl.
  destruct (found_in (mergeFilePattern self) entry) as [|p found] eqn:E;
    [done|].
  by apply record_found_well_recorded.
Qed.

Lemma dir_counts_app t u : dir_counts (t ++ u) = dir_counts t ++ dir_counts u.
Proof. unfold dir_counts. apply omap_app. Qed.

Lemma dir_counts_gather_reports pat walk :
  list_sum (dir_counts (concat (List.map (gather_report pat) walk)))
  = length (discovered pat walk).
Proof.
  unfold discovered. induction walk as [|entry walk IH]; [done|].
  cbn [List.map concat]. rewrite dir_counts_app, list_sum_app, length_app, IH.
  f_equal. unfold gather_report.
  destruct (found_in pat entry); [done|]. simpl. lia.
Qed.

Lemma found_in_without_match pat entry :
  (forall f, In f (snd entry) -> file_matches pat f = false) ->
  found_in pat entry = [].
Proof.
  destruct entry as [[root dirs] files]. simpl. intros Hno.
  unfold matching_files.
  replace (List.filter (file_matches pat) files) with (@nil string); [done|].
  induction files as [|f files IH]; [done|].
  simpl. rewrite (Hno f) by (by left). apply IH.
  intros g Hg. apply Hno. by right.
Qed.

Lemma gathered_without_match self walk :
  (forall entry f, In entry walk -> In f (snd entry) ->
                   file_matches (mergeFilePattern self) f = false) ->
  gathered self walk = self /\
  concat (List.map (gather_report (mergeFilePattern self)) walk) = [].
Proof.
  induction walk as [|entry walk IH]; intros Hno; [done|].
  assert (E : found_in (mergeFilePattern self) entry = []).
  { apply found_in_without_match. intros f Hf. apply (Hno entry); [by left|done]. }
  destruct IH as [IH1 IH2].
  { intros e f He. apply Hno. by right. }
  split.
  - simpl. by rewrite E.
  - cbn [List.map concat]. unfold gather_report at 1. by rewrite E.
Qed.

End GatherInvariants.

(** X4.  [gather_files] keeps the two collections of the object in step.
    If no directory of [file_dict] has an empty list and every path listed
    in [file_dict] is in [all_files], the same holds after the call; the
    call only appends to [all_files], never raises, and leaves the base
    directory, the pattern, the output name and the file sizes alone.  The
    fresh object of [__init__] starts in that state. *)
Theorem gather_files_keeps_collections_in_step
    (env : MergeOutput.Env) (self : MergeOutput.RootFileMerger)
    (w : MergeOutput.World) :
  MergeOutput.well_recorded self ->
  exists self' w',
    MergeOutput.gather_files env self w = (Py.Ok self', w') /\
    MergeOutput.well_recorded self' /\
    (exists added,
        MergeOutput.all_files self' = MergeOutput.all_files self ++ added) /\
    MergeOutput.base_dir self' = MergeOutput.base_dir self /\
    MergeOutput.mergeFilePattern self' = MergeOutput.mergeFilePattern self /\
    MergeOutput.output_file_name self' = MergeOutput.output_file_name self /\
    MergeOutput.sizes w' = MergeOutput.sizes w.
Proof.
  intros Hself. eexists _, _. split; [apply gather_files_run|].
  split; [by apply gathered_well_recorded|].
  split; [eexists; apply gathered_all_files|].
  split; [apply gathered_base_dir|].
  split; [apply gathered_pattern|].
  split; [apply gathered_output | reflexivity].
Qed.

Lemma gather_files_keeps_collections_in_step_witness :
  exists self' w',
    MergeOutput.gather_files Examples.env_loose
      (MergeOutput.init "/data" "out_*.root" "merged.root")
      (MergeOutput.start Examples.sizes_1000) = (Py.Ok self', w') /\
    MergeOutput.well_recorded self' /\
    (exists added, MergeOutput.all_files self' = [] ++ added) /\
    MergeOutput.base_dir self' = "/data" /\
    MergeOutput.mergeFilePattern self' = "out_*.root" /\
    MergeOutput.output_file_name self' = "merged.root" /\
    MergeOutput.sizes w' = Examples.sizes_1000.
Proof.
  apply (gather_files_keeps_collections_in_step Examples.env_loose
           (MergeOutput.init "/data" "out_*.root" "merged.root")
           (MergeOutput.start Examples.sizes_1000)).
  intros root found H. simpl in H. rewrite lookup_empty in H. discriminate H.
Defined.

(** X5.  The per-directory counts that [gather_files] logs add up to the
    number of paths the call appends to [all_files]. *)
Theorem gather_files_counts_add_up
    (env : MergeOutput.Env) (self : MergeOutput.RootFileMerger)
    (w : MergeOutput.World) :
  exists self' w' t,
    MergeOutput.gather_files env self w = (Py.Ok self', w') /\
    MergeOutput.trace w' = MergeOutput.trace w ++ t /\
    length (MergeOutput.all_files self')
    = (length (MergeOutput.all_files self)
       + list_sum (MergeOutput.dir_counts t))%nat.
Proof.
  eexists _, _, _. split; [apply gather_files_run|].
  split; [reflexivity|].
  rewrite gathered_all_files, length_app. f_equal.
  change (MergeOutput.dir_counts (MergeOutput.Enter MergeOutput.Gather_files :: ?t))
    with (MergeOutput.dir_counts t).
  symmetry. apply dir_counts_gather_reports.
Qed.

(** X6.  When no file of the walk matches, [gather_files] changes nothing
    in the object and logs nothing: the guard of line 36 skips every
    directory. *)
Theorem gather_files_without_match
    (env : MergeOutput.Env) (self : MergeOutput.RootFileMerger)
    (w : MergeOutput.World) :
  (forall root dirs files f,
      In (root, dirs, files)
         (MergeOutput.os_walk env (MergeOutput.base_dir self)) ->
      In f files ->
      MergeOutput.file_matches (MergeOutput.mergeFilePattern self) f = false) ->
  MergeOutput.gather_files env self w
  = (Py.Ok self,
     MergeOutput.extend w [MergeOutput.Enter MergeOutput.Gather_files]).
Proof.
  intros Hno. rewrite gather_files_run.
  destruct (gathered_without_match self
              (MergeOutput.os_walk env (MergeOutput.base_dir self)))
    as [-> ->]; [|reflexivity].
  intros [[root dirs] files] f He Hf. by apply (Hno root dirs files).
Qed.

Lemma gather_files_without_match_witness :
  MergeOutput.gather_files (Examples.env_plain true)
    (MergeOutput.init "/data" "hist_*.root" "merged.root")
    (MergeOutput.start Examples.sizes_1000)
  = (Py.Ok (MergeOutput.init "/data" "hist_*.root" "merged.root"),
     MergeOutput.extend (MergeOutput.start Examples.sizes_1000)
       [MergeOutput.Enter MergeOutput.Gather_files]).
Proof.
  apply (gather_files_without_match (Examples.env_plain true)
           (MergeOutput.init "/data" "hist_*.root" "merged.root")
           (MergeOutput.start Examples.sizes_1000)).
  intros root dirs files f [H|[]] Hf. injection H as <- <- <-.
  destruct Hf as [<-|[<-|[<-|[]]]]; reflexivity.
Defined.

(** ** Estimation, merge and comparison, step by step *)

Section Steps.
Import PyStr Py MergeOutput.

Lemma counted_Permutation sz l1 l2 :
  Permutation l1 l2 -> counted sz l1 = counted sz l2.
Proof.
  induction 1 as [|f l1 l2 _ IH|f g l|l1 l2 l3 _ IH1 _ IH2].
  - reflexivity.
  - by rewrite (counted_cons sz f l1), (counted_cons sz f l2), IH.
  - simpl. destruct (sz f), (sz g); lia.
  - by rewrite IH1.
Qed.

Lemma engine_calls_app t u :
  engine_calls (t ++ u) = engine_calls t ++ engine_calls u.
Proof. unfold engine_calls. apply omap_app. Qed.

Lemma entries_app t u : entries (t ++ u) = entries t ++ entries u.
Proof. unfold entries. apply omap_app. Qed.

Lemma logged_app t u : logged (t ++ u) = logged t ++ logged u.
Proof. unfold logged. apply omap_app. Qed.

Lemma differences_app t u :
  differences (t ++ u) = differences t ++ differences u.
Proof. unfold differences. apply omap_app. Qed.

Lemma engine_calls_add_reports files :
  engine_calls (concat (List.map add_report files)) = List.map AddFile files.
Proof.
  induction files as [|f files IH]; [done|].
  cbn [List.map concat]. rewrite engine_calls_app, IH. reflexivity.
Qed.

Lemma engine_calls_merge_report self success :
  engine_calls (merge_report self success)
  = [New_TFileMerger false; SetPrintLevel 0;
     OutputFile (output_file_name self)]
    ++ List.map AddFile (all_files self) ++ [Merge success].
Proof.
  unfold merge_report.
  rewrite !engine_calls_app, engine_calls_add_reports.
  by destruct success.
Qed.

(** The steps other than [merge_files] make no call on the engine and
    enter no method but their own. *)
Lemma gather_reports_silent pat walk :
  engine_calls (concat (List.map (gather_report pat) walk)) = [] /\
  entries (concat (List.map (gather_report pat) walk)) = [].
Proof.
  induction walk as [|entry walk [IH1 IH2]]; [done|].
  cbn [List.map concat]. rewrite engine_calls_app, entries_app, IH1, IH2.
  unfold gather_report. by destruct (found_in pat entry).
Qed.

Lemma size_reports_silent sz files :
  engine_calls (concat (List.map (size_report sz) files)) = [] /\
  entries (concat (List.map (size_report sz) files)) = [].
Proof.
  induction files as [|f files [IH1 IH2]]; [done|].
  cbn [List.map concat]. rewrite engine_calls_app, entries_app, IH1, IH2.
  unfold size_report. by destruct (sz f).
Qed.

Lemma add_reports_enter_nothing files :
  entries (concat (List.map add_report files)) = [].
Proof.
  induction files as [|f files IH]; [done|].
  cbn [List.map concat]. by rewrite entries_app, IH.
Qed.

Lemma estimate_report_silent sz files :
  engine_calls (estimate_report sz files) = [] /\
  entries (estimate_report sz files) = [Estimate_total_size].
Proof.
  unfold estimate_report.
  change (Enter Estimate_total_size :: ?t)
    with ([Enter Estimate_total_size] ++ t).
  rewrite !engine_calls_app, !entries_app.
  destruct (size_reports_silent sz files) as [-> ->]. by split.
Qed.

Lemma compare_report_silent sz out estimated_size :
  engine_calls (compare_report sz out estimated_size) = [] /\
  entries (compare_report sz out estimated_size) = [Compare_sizes].
Proof. unfold compare_report. by destruct (sz out). Qed.

Lemma entries_merge_report self success :
  entries (merge_report self success) = [Merge_files].
Proof.
  unfold merge_report.
  rewrite !entries_app, add_reports_enter_nothing. by destruct success.
Qed.

(** The calls a run of [main] makes on the engine. *)
Lemma engine_calls_main_report env dir pat out sz :
  let base := os_path_abspath env dir in
  let found := discovered pat (os_walk env base) in
  let merger :=
    {| isLocal := false; printLevel := 0; outputFile := Some out;
       inputFiles := found |} in
  engine_calls (main_report env dir pat out sz)
  = [New_TFileMerger false; SetPrintLevel 0; OutputFile out]
    ++ List.map AddFile found ++ [Merge (fst (engine_Merge env merger sz))].
Proof.
  intros base found merger. unfold main_report. cbv zeta. fold base.
  set (self := gathered (init base pat out) (os_walk env base)).
  assert (Hfiles : all_files self = found).
  { unfold self. by rewrite gathered_all_files. }
  assert (Hout : output_file_name self = out).
  { unfold self. by rewrite gathered_output. }
  assert (Hmerger : loaded_merger self = merger).
  { unfold loaded_merger, merger. by rewrite Hfiles, Hout. }
  rewrite Hmerger.
  change (Enter Gather_files :: ?t) with ([Enter Gather_files] ++ t).
  rewrite !engine_calls_app, engine_calls_merge_report, Hfiles, Hout.
  destruct (gather_reports_silent pat (os_walk env base)) as [-> _].
  destruct (estimate_report_silent sz found) as [-> _].
  destruct (fst (engine_Merge env merger sz)).
  - destruct (compare_report_silent (snd (engine_Merge env merger sz)) out
                (counted sz found)) as [-> _].
    simpl. by rewrite app_nil_r.
  - simpl. by rewrite app_nil_r.
Qed.

(** The methods a run of [main] enters. *)
Lemma entries_main_report env dir pat out sz :
  let base := os_path_abspath env dir in
  let self := gathered (init base pat out) (os_walk env base) in
  entries (main_report env dir pat out sz)
  = [Gather_files; Estimate_total_size; Merge_files]
    ++ (if fst (engine_Merge env (loaded_merger self) sz)
        then [Compare_sizes] else []).
Proof.
  intros base self. unfold main_report. cbv zeta. fold base. fold self.
  change (Enter Gather_files :: ?t) with ([Enter Gather_files] ++ t).
  rewrite !entries_app, entries_merge_report.
  destruct (gather_reports_silent pat (os_walk env base)) as [_ ->].
  destruct (estimate_report_silent sz (all_files self)) as [_ ->].
  destruct (fst (engine_Merge env (loaded_merger self) sz)).
  - by destruct (compare_report_silent
                   (snd (engine_Merge env (loaded_merger self) sz))
                   (output_file_name self)
                   (counted sz (all_files self))) as [_ ->].
  - reflexivity.
Qed.

Lemma merge_calls_of_engine_calls t :
  merge_calls t
  = length (List.filter
              (fun c => match c with Merge _ => true | _ => false end)
              (engine_calls t)).
Proof.
  unfold merge_calls, engine_calls.
  induction t as [|[m|f|[]] t IH]; simpl;
    first [done | exact IH | f_equal; exact IH].
Qed.

Lemma added_files_of_engine_calls t :
  added_files t
  = omap (fun c => match c with AddFile p => Some p | _ => None end)
      (engine_calls t).
Proof.
  unfold added_files, engine_calls.
  induction t as [|[m|f|[]] t IH]; simpl;
    first [done | exact IH | f_equal; exact IH].
Qed.

Lemma no_Merge_among_AddFile files :
  List.filter (fun c => match c with Merge _ => true | _ => false end)
    (List.map AddFile files) = [].
Proof. induction files as [|f files IH]; [done|]. exact IH. Qed.

Lemma paths_of_AddFile files :
  omap (fun c => match c with AddFile p => Some p | _ => None end)
    (List.map AddFile files) = files.
Proof. induction files as [|f files IH]; [done|]. simpl. f_equal. exact IH. Qed.

Lemma estimate_logged_in_main env dir pat out sz :
  In (Log (MsgEstimatedKB
             (counted sz
                (discovered pat (os_walk env (os_path_abspath env dir))))))
     (main_report env dir pat out sz).
Proof.
  unfold main_report. cbv zeta. rewrite gathered_all_files.
  cbn [init all_files mergeFilePattern].
  apply in_or_app. right. apply in_or_app. right. apply in_or_app. left.
  unfold estimate_report. right.
  apply in_or_app. right. right. by left.
Qed.

Lemma discovered_without_match pat walk :
  (forall entry f, In entry walk -> In f (snd entry) ->
                   file_matches pat f = false) ->
  discovered pat walk = [].
Proof.
  unfold discovered. induction walk as [|entry walk IH]; intros Hno; [done|].
  cbn [List.map concat]. rewrite found_in_without_match.
  - apply IH. intros e f He. apply Hno. by right.
  - intros f Hf. apply (Hno entry); [by left | done].
Qed.

End Steps.

(** X7.  The estimate does not depend on the order of discovery: two
    objects whose [all_files] are rearrangements of one another get the
    same estimate over the same file system. *)
Theorem estimate_total_size_ignores_order
    (a b : MergeOutput.RootFileMerger) (w : MergeOutput.World) :
  Permutation (MergeOutput.all_files a) (MergeOutput.all_files b) ->
  exists total_size wa wb,
    MergeOutput.estimate_total_size a w = (Py.Ok total_size, wa) /\
    MergeOutput.estimate_total_size b w = (Py.Ok total_size, wb).
Proof.
  intros Hperm. eexists _, _, _.
  split; [apply estimate_total_size_run|].
  rewrite estimate_total_size_run.
  by rewrite (counted_Permutation _ _ _ Hperm).
Qed.

Lemma estimate_total_size_ignores_order_witness :
  exists total_size wa wb,
    MergeOutput.estimate_total_size
      {| MergeOutput.base_dir := "/data";
         MergeOutput.mergeFilePattern := "out_*.root";
         MergeOutput.output_file_name := "merged.root";
         MergeOutput.file_dict := ∅;
         MergeOutput.all_files := ["/data/out_1.root"; "/data/skip.dat"] |}
      (MergeOutput.start Examples.sizes_1000) = (Py.Ok total_size, wa) /\
    MergeOutput.estimate_total_size
      {| MergeOutput.base_dir := "/data";
         MergeOutput.mergeFilePattern := "out_*.root";
         MergeOutput.output_file_name := "merged.root";
         MergeOutput.file_dict := ∅;
         MergeOutput.all_files := ["/data/skip.dat"; "/data/out_1.root"] |}
      (MergeOutput.start Examples.sizes_1000) = (Py.Ok total_size, wb).
Proof.
  apply (estimate_total_size_ignores_order
    {| MergeOutput.base_dir := "/data";
       MergeOutput.mergeFilePattern := "out_*.root";
       MergeOutput.output_file_name := "merged.root";
       MergeOutput.file_dict := ∅;
       MergeOutput.all_files := ["/data/out_1.root"; "/data/skip.dat"] |}
    {| MergeOutput.base_dir := "/data";
       MergeOutput.mergeFilePattern := "out_*.root";
       MergeOutput.output_file_name := "merged.root";
       MergeOutput.file_dict := ∅;
       MergeOutput.all_files := ["/data/skip.dat"; "/data/out_1.root"] |}
    (MergeOutput.start Examples.sizes_1000)).
  simpl. apply perm_swap.
Defined.

(** X8.  The calls [merge_files] makes on the engine are, in this order:
    the construction with [False], [SetPrintLevel(0)], [OutputFile] with the
    output name, one [AddFile] per path of [all_files] in the order of the
    list, and last one [Merge()]. *)
Theorem merge_files_engine_protocol
    (env : MergeOutput.Env) (self : MergeOutput.RootFileMerger)
    (w : MergeOutput.World) :
  exists success w' t,
    MergeOutput.merge_files env self w = (Py.Ok success, w') /\
    MergeOutput.trace w' = MergeOutput.trace w ++ t /\
    MergeOutput.engine_calls t
    = [MergeOutput.New_TFileMerger false; MergeOutput.SetPrintLevel 0;
       MergeOutput.OutputFile (MergeOutput.output_file_name self)]
      ++ List.map MergeOutput.AddFile (MergeOutput.all_files self)
      ++ [MergeOutput.Merge success].
Proof.
  eexists _, _, _. split; [apply merge_files_run|].
  split; [reflexivity | apply engine_calls_merge_report].
Qed.

(** X9.  [compare_sizes] never raises and leaves the file sizes alone.  When
    the size of the output file can be read it returns that size and logs
    one difference, the size less the estimate; when it cannot, it returns
    [None], logs the failure and logs no difference. *)
Theorem compare_sizes_never_raises
    (self : MergeOutput.RootFileMerger) (estimated_size : Z)
    (w : MergeOutput.World) :
  exists r w' t,
    MergeOutput.compare_sizes self estimated_size w = (Py.Ok r, w') /\
    MergeOutput.trace w' = MergeOutput.trace w ++ t /\
    MergeOutput.sizes w' = MergeOutput.sizes w /\
    (forall final,
        MergeOutput.sizes w (MergeOutput.output_file_name self)
        = Py.Ok final ->
        r = Some final /\
        MergeOutput.differences t = [final - estimated_size]) /\
    (forall e,
        MergeOutput.sizes w (MergeOutput.output_file_name self)
        = Py.Raise e ->
        r = None /\
        In (MergeOutput.MsgMergedSizeFailed e) (MergeOutput.logged t) /\
        MergeOutput.differences t = []).
Proof.
  eexists _, _, _. split; [apply compare_sizes_run|].
  split; [reflexivity|]. split; [reflexivity|].
  unfold MergeOutput.compare_report.
  split.
  - intros final ->. by split.
  - intros e ->. split; [done|]. split; [|done].
    simpl. right. by left.
Qed.

(** X10.  Every run of [main] enters the steps in one order: discovery,
    estimation, merge, and then the comparison if and only if the engine's
    [Merge()] reported success; [Merge()] is called exactly once. *)
Theorem main_runs_the_steps_in_order
    (env : MergeOutput.Env) (dir pat out : string)
    (sz : string -> Py.result Z) :
  exists r w' success,
    MergeOutput.main env dir pat out (MergeOutput.start sz) = (r, w') /\
    MergeOutput.merge_calls (MergeOutput.trace w') = 1%nat /\
    In (MergeOutput.Engine (MergeOutput.Merge success))
       (MergeOutput.trace w') /\
    MergeOutput.entries (MergeOutput.trace w')
    = [MergeOutput.Gather_files; MergeOutput.Estimate_total_size;
       MergeOutput.Merge_files]
      ++ (if success then [MergeOutput.Compare_sizes] else []).
Proof.
  eexists _, _, _. split; [apply main_run|].
  cbn [MergeOutput.trace MergeOutput.start MergeOutput.sizes app].
  split; [|split; [|apply entries_main_report]].
  - pose proof (engine_calls_main_report env dir pat out sz) as H.
    cbv zeta in H.
    rewrite merge_calls_of_engine_calls, H, !List.filter_app, !length_app.
    by rewrite no_Merge_among_AddFile.
  - unfold MergeOutput.main_report. cbv zeta.
    rewrite !in_app_iff. do 3 right. left.
    apply merge_report_has_flag.
Qed.

(** X11.  No run of [main] returns normally.  Whatever the engine reports,
    the run logs the completion message and then raises [NameError] for the
    name [self] on line 141; the completion message is the last one
    logged, so the closing rule of line 141 is never written. *)
Theorem main_always_ends_in_NameError
    (env : MergeOutput.Env) (dir pat out : string) (w : MergeOutput.World) :
  exists w',
    MergeOutput.main env dir pat out w
    = (Py.Raise (Py.NameError "self"), w') /\
    last (MergeOutput.logged (MergeOutput.trace w'))
    = Some MergeOutput.MsgJobCompleted.
Proof.
  eexists. split; [apply main_run|].
  cbn [MergeOutput.trace]. unfold MergeOutput.main_report. cbv zeta.
  rewrite !app_assoc, logged_app. apply last_snoc.
Qed.

(** X12.  In a run of [main] the engine is given exactly the discovered
    paths, in the order of discovery, between [OutputFile] and the single
    [Merge()]; and the estimate that is logged is the sum of the readable
    sizes of those same paths. *)
Theorem main_sizes_what_it_merges
    (env : MergeOutput.Env) (dir pat out : string)
    (sz : string -> Py.result Z) :
  exists r w' success,
    MergeOutput.main env dir pat out (MergeOutput.start sz) = (r, w') /\
    MergeOutput.engine_calls (MergeOutput.trace w')
    = [MergeOutput.New_TFileMerger false; MergeOutput.SetPrintLevel 0;
       MergeOutput.OutputFile out]
      ++ List.map MergeOutput.AddFile
           (MergeOutput.added_files (MergeOutput.trace w'))
      ++ [MergeOutput.Merge success] /\
    MergeOutput.added_files (MergeOutput.trace w')
    = MergeOutput.discovered pat
        (MergeOutput.os_walk env (MergeOutput.os_path_abspath env dir)) /\
    In (MergeOutput.MsgEstimatedKB
          (MergeOutput.counted sz
             (MergeOutput.added_files (MergeOutput.trace w'))))
       (MergeOutput.logged (MergeOutput.trace w')).
Proof.
  eexists _, _, _. split; [apply main_run|].
  cbn [MergeOutput.trace MergeOutput.start MergeOutput.sizes app].
  pose proof (engine_calls_main_report env dir pat out sz) as Hcalls.
  cbv zeta in Hcalls.
  assert (Hadded :
    MergeOutput.added_files (MergeOutput.main_report env dir pat out sz)
    = MergeOutput.discovered pat
        (MergeOutput.os_walk env (MergeOutput.os_path_abspath env dir))).
  { rewrite added_files_of_engine_calls, Hcalls, !omap_app.
    rewrite paths_of_AddFile. simpl. by rewrite app_nil_r. }
  rewrite Hadded. split; [exact Hcalls|]. split; [reflexivity|].
  apply in_logged, estimate_logged_in_main.
Qed.

(** X13.  When no file of the walk matches, a run of [main] still goes
    through the merge: the estimate that is logged is 0 and the engine is
    constructed, given its output path and asked to [Merge()] with no input
    file at all. *)
Theorem main_with_nothing_to_merge
    (env : MergeOutput.Env) (dir pat out : string)
    (sz : string -> Py.result Z) :
  (forall root dirs files f,
      In (root, dirs, files)
         (MergeOutput.os_walk env (MergeOutput.os_path_abspath env dir)) ->
      In f files ->
      MergeOutput.file_matches pat f = false) ->
  exists r w' success,
    MergeOutput.main env dir pat out (MergeOutput.start sz) = (r, w') /\
    MergeOutput.engine_calls (MergeOutput.trace w')
    = [MergeOutput.New_TFileMerger false; MergeOutput.SetPrintLevel 0;
       MergeOutput.OutputFile out; MergeOutput.Merge success] /\
    MergeOutput.added_files (MergeOutput.trace w') = [] /\
    In (MergeOutput.MsgEstimatedKB 0)
       (MergeOutput.logged (MergeOutput.trace w')).
Proof.
  intros Hno.
  assert (Hnone :
    MergeOutput.discovered pat
      (MergeOutput.os_walk env (MergeOutput.os_path_abspath env dir)) = []).
  { apply discovered_without_match.
    intros [[root dirs] files] f He Hf. by apply (Hno root dirs files). }
  eexists _, _, _. split; [apply main_run|].
  cbn [MergeOutput.trace MergeOutput.start MergeOutput.sizes app].
  pose proof (engine_calls_main_report env dir pat out sz) as Hcalls.
  cbv zeta in Hcalls. rewrite Hnone in Hcalls.
  split; [exact Hcalls|]. split.
  - by rewrite added_files_of_engine_calls, Hcalls.
  - apply in_logged.
    pose proof (estimate_logged_in_main env dir pat out sz) as H.
    by rewrite Hnone in H.
Qed.

Lemma main_with_nothing_to_merge_witness :
  exists r w' success,
    MergeOutput.main (Examples.env_plain true) "/data" "hist_*.root"
      "merged.root" (MergeOutput.start Examples.sizes_1000) = (r, w') /\
    MergeOutput.engine_calls (MergeOutput.trace w')
    = [MergeOutput.New_TFileMerger false; MergeOutput.SetPrintLevel 0;
       MergeOutput.OutputFile "merged.root"; MergeOutput.Merge success] /\
    MergeOutput.added_files (MergeOutput.trace w') = [] /\
    In (MergeOutput.MsgEstimatedKB 0)
       (MergeOutput.logged (MergeOutput.trace w')).
Proof.
  apply (main_with_nothing_to_merge (Examples.env_plain true) "/data"
           "hist_*.root" "merged.root" Examples.sizes_1000).
  intros root dirs files f [H|[]] Hf. injection H as <- <- <-.
  destruct Hf as [<-|[<-|[<-|[]]]]; reflexivity.
Defined.

(** ** The generators: order, size, failures and side effects *)

Section GeneratorRuns.
Import PyStr Py JobScriptGenerator.




(** A file created by [open(path, "w")] has no execute bit, whatever the
    umask: [0o666] has none. *)
Lemma new_file_not_executable (mask : Z) :
  owner_execute (Z.land 438 (Z.lnot mask)) = false /\
  group_execute (Z.land 438 (Z.lnot mask)) = false /\
  other_execute (Z.land 438 (Z.lnot mask)) = false.
Proof.
  unfold owner_execute, group_execute, other_execute.
  by rewrite !Z.land_spec.
Qed.

End GeneratorRuns.





(** X16.  When the storage root cannot be listed, both generators raise the
    error of [os.listdir] and do nothing else: no file is written, no
    directory is created (not even the log directory of batch mode) and
    nothing is printed. *)
Theorem generators_stop_when_listing_fails
    (os : JobScriptGenerator.OS) (storage script pat : string) (e : Py.exn) :
  JobScriptGenerator.os_listdir os storage = Py.Raise e ->
  JobScriptGenerator.generate_local_merge_script storage script pat os
  = (Py.Raise e, os)
  /\ JobScriptGenerator.generate_condorMerge_submission_file
       storage script pat os = (Py.Raise e, os).
Proof. intros Hls. unfold_generator. by rewrite Hls. Qed.

Lemma generators_stop_when_listing_fails_witness :
  JobScriptGenerator.generate_local_merge_script "/nowhere"
    "merge_Locally.sh" "out_*.root" Examples.os_store
  = (Py.Raise (Py.OSError "/nowhere"), Examples.os_store)
  /\ JobScriptGenerator.generate_condorMerge_submission_file "/nowhere"
       "merge_using_condor.sub" "out_*.root" Examples.os_store
     = (Py.Raise (Py.OSError "/nowhere"), Examples.os_store).
Proof.
  split.
  - apply (generators_stop_when_listing_fails Examples.os_store "/nowhere"
             "merge_Locally.sh" "out_*.root" (Py.OSError "/nowhere")).
    reflexivity.
  - apply (generators_stop_when_listing_fails Examples.os_store "/nowhere"
             "merge_using_condor.sub" "out_*.root" (Py.OSError "/nowhere")).
    reflexivity.
Defined.

(** X17.  When the descriptor cannot be opened for writing, local mode
    raises and leaves the system as it found it; batch mode raises too, but
    by then it has created the log directory: that directory stays, while
    no file is written and nothing is printed. *)
Theorem generators_when_the_file_cannot_be_opened
    (os : JobScriptGenerator.OS) (storage script pat : string)
    (names : list string) :
  JobScriptGenerator.os_listdir os storage = Py.Ok names ->
  JobScriptGenerator.may_open os script = false ->
  JobScriptGenerator.generate_local_merge_script storage script pat os
  = (Py.Raise (Py.OSError script), os)
  /\ (JobScriptGenerator.may_makedirs os "merge_condor_logs" = true ->
      exists os',
        JobScriptGenerator.generate_condorMerge_submission_file
          storage script pat os = (Py.Raise (Py.OSError script), os') /\
        JobScriptGenerator.made_dirs os'
        = JobScriptGenerator.made_dirs os ++ ["merge_condor_logs"] /\
        JobScriptGenerator.file_text os' = JobScriptGenerator.file_text os /\
        JobScriptGenerator.file_mode os' = JobScriptGenerator.file_mode os /\
        JobScriptGenerator.stdout os' = JobScriptGenerator.stdout os).
Proof.
  intros Hls Hopen. split.
  - unfold_generator. by rewrite Hls, Hopen.
  - intros Hmk. unfold_generator. rewrite Hls, Hmk. simpl. rewrite Hopen.
    eexists. split; [reflexivity|]. by repeat split.
Qed.

Lemma generators_when_the_file_cannot_be_opened_witness :
  JobScriptGenerator.generate_local_merge_script "/store" "merge_Locally.sh"
    "out_*.root" Examples.os_read_only
  = (Py.Raise (Py.OSError "merge_Locally.sh"), Examples.os_read_only).
Proof.
  apply (generators_when_the_file_cannot_be_opened Examples.os_read_only
           "/store" "merge_Locally.sh" "out_*.root"
           ["runA"; "notes.txt"; "runB"]); reflexivity.
Defined.

(** X18.  When the script is written but its mode cannot be changed, local
    mode raises after the write: the script is on disk with its full text,
    the success line is not printed, and a script that did not exist before
    is left with its creation mode [0o666 & ~umask], which has no execute
    bit at all. *)
Theorem local_script_when_chmod_fails
    (os : JobScriptGenerator.OS) (storage script pat : string)
    (names : list string) :
  let text :=
    PyStr.join JobScriptGenerator.nl
      (JobScriptGenerator.local_lines storage pat
         (List.filter
            (fun d => JobScriptGenerator.os_path_isdir os
                        (PosixPath.join storage d))
            names)) in
  JobScriptGenerator.os_listdir os storage = Py.Ok names ->
  JobScriptGenerator.may_open os script = true ->
  JobScriptGenerator.encodable os text = true ->
  JobScriptGenerator.may_write os script = true ->
  JobScriptGenerator.may_chmod os script = false ->
  exists os',
    JobScriptGenerator.generate_local_merge_script storage script pat os
    = (Py.Raise (Py.OSError script), os') /\
    JobScriptGenerator.file_text os' !! script = Some text /\
    JobScriptGenerator.stdout os' = JobScriptGenerator.stdout os /\
    (JobScriptGenerator.file_mode os !! script = None ->
     exists mode,
       JobScriptGenerator.file_mode os' !! script = Some mode /\
       mode = Z.land 438 (Z.lnot (JobScriptGenerator.umask os)) /\
       JobScriptGenerator.owner_execute mode = false /\
       JobScriptGenerator.group_execute mode = false /\
       JobScriptGenerator.other_execute mode = false).
Proof.
  intros text Hls Hopen Henc Hwrite Hchmod. unfold_generator.
  rewrite Hls, Hopen. read_fields. fold text. rewrite Henc. read_fields.
  rewrite Hwrite. read_fields. rewrite Hchmod.
  eexists. split; [reflexivity|]. read_fields.
  split; [apply lookup_insert_eq|]. split; [reflexivity|].
  intros ->. eexists. split; [apply lookup_insert_eq|].
  split; [reflexivity|]. apply new_file_not_executable.
Qed.

Lemma local_script_when_chmod_fails_witness :
  exists os',
    JobScriptGenerator.generate_local_merge_script "/store"
      "merge_Locally.sh" "out_*.root" Examples.os_no_chmod
    = (Py.Raise (Py.OSError "merge_Locally.sh"), os') /\
    JobScriptGenerator.stdout os' = [] /\
    exists mode,
      JobScriptGenerator.file_mode os' !! "merge_Locally.sh" = Some mode /\
      mode = 6 * 64 + 4 * 8 + 4 /\
      JobScriptGenerator.owner_execute mode = false.
Proof.
  destruct (local_script_when_chmod_fails Examples.os_no_chmod "/store"
              "merge_Locally.sh" "out_*.root" ["runA"; "notes.txt"; "runB"]
              eq_refl eq_refl eq_refl eq_refl eq_refl)
    as (os' & Hrun & _ & Hout & Hmode).
  exists os'. split; [exact Hrun|]. split; [exact Hout|].
  destruct (Hmode eq_refl) as (mode & Hm & Hvalue & Hx & _).
  exists mode. split; [exact Hm|]. split; [exact Hvalue | exact Hx].
Defined.

(** X19.  Batch mode never touches permission bits: after a completed run
    the submission file keeps the mode it had, and a file that did not exist
    before has the creation mode [0o666 & ~umask], with no execute bit. *)
Theorem batch_mode_sets_no_execute_bit
    (os os' : JobScriptGenerator.OS) (storage script pat : string) :
  JobScriptGenerator.generate_condorMerge_submission_file storage script pat os
  = (Py.Ok tt, os') ->
  JobScriptGenerator.file_mode os' !! script
  = Some (match JobScriptGenerator.file_mode os !! script with
          | Some mode => mode
          | None => Z.land 438 (Z.lnot (JobScriptGenerator.umask os))
          end)
  /\ (JobScriptGenerator.file_mode os !! script = None ->
      exists mode,
        JobScriptGenerator.file_mode os' !! script = Some mode /\
        JobScriptGenerator.owner_execute mode = false /\
        JobScriptGenerator.group_execute mode = false /\
        JobScriptGenerator.other_execute mode = false).
Proof.
  unfold_generator.
  destruct (JobScriptGenerator.os_listdir os storage) as [names|e]; [|done].
  destruct (JobScriptGenerator.may_makedirs os "merge_condor_logs"); [|done].
  read_fields. destruct (JobScriptGenerator.may_open os script); [|done].
  read_fields. destruct (JobScriptGenerator.encodable os _); [|done].
  read_fields. destruct (JobScriptGenerator.may_write os script); [|done].
  intros [= <-]. read_fields.
  destruct (JobScriptGenerator.file_mode os !! script) as [mode|] eqn:Hmode.
  - split; [exact Hmode | done].
  - split; [apply lookup_insert_eq|]. intros _.
    eexists. split; [apply lookup_insert_eq|].
    apply new_file_not_executable.
Qed.

Lemma batch_mode_sets_no_execute_bit_witness :
  JobScriptGenerator.file_mode
    (snd (JobScriptGenerator.generate_condorMerge_submission_file "/store"
            "merge_using_condor.sub" "out_*.root" Examples.os_store))
    !! "merge_using_condor.sub"
  = Some (Z.land 438 (Z.lnot 18)).
Proof.
  apply (batch_mode_sets_no_execute_bit Examples.os_store _ "/store"
           "merge_using_condor.sub" "out_*.root").
  apply run_from_fst. vm_compute. reflexivity.
Defined.

(** What a run of a generator leaves of the other files, of the
    directories and of the output, whatever its outcome. *)
Lemma generators_frame
    (os : JobScriptGenerator.OS) (storage script pat path : string) :
  path <> script ->
  JobScriptGenerator.file_text
    (snd (JobScriptGenerator.generate_local_merge_script storage script pat os))
    !! path = JobScriptGenerator.file_text os !! path
  /\ JobScriptGenerator.file_mode
       (snd (JobScriptGenerator.generate_local_merge_script
               storage script pat os))
       !! path = JobScriptGenerator.file_mode os !! path
  /\ JobScriptGenerator.file_text
       (snd (JobScriptGenerator.generate_condorMerge_submission_file
               storage script pat os))
       !! path = JobScriptGenerator.file_text os !! path
  /\ JobScriptGenerator.file_mode
       (snd (JobScriptGenerator.generate_condorMerge_submission_file
               storage script pat os))
       !! path = JobScriptGenerator.file_mode os !! path.
Proof.
  intros Hother. assert (Hother' : script <> path) by congruence.
  unfold_generator.
  destruct (JobScriptGenerator.os_listdir os storage) as [names|e];
    [|done].
  ask_system;
    destruct (JobScriptGenerator.file_mode os !! script); read_fields;
    by rewrite ?lookup_insert_ne by done.
Qed.

Lemma generators_made_dirs
    (os : JobScriptGenerator.OS) (storage script pat : string) :
  JobScriptGenerator.made_dirs
    (snd (JobScriptGenerator.generate_local_merge_script storage script pat os))
  = JobScriptGenerator.made_dirs os
  /\ JobScriptGenerator.made_dirs
       (snd (JobScriptGenerator.generate_condorMerge_submission_file
               storage script pat os))
     = JobScriptGenerator.made_dirs os ++
       match JobScriptGenerator.os_listdir os storage with
       | Py.Ok _ =>
           if JobScriptGenerator.may_makedirs os "merge_condor_logs"
           then ["merge_condor_logs"] else []
       | Py.Raise _ => []
       end.
Proof.
  unfold_generator.
  destruct (JobScriptGenerator.os_listdir os storage) as [names|e];
    [|by rewrite app_nil_r].
  ask_system; by rewrite ?app_nil_r.
Qed.

(** X20.  A generator touches only the descriptor it is asked to write:
    whatever the outcome of the run, the text and the mode of every other
    file are what they were. *)
Theorem generators_touch_only_their_file
    (os : JobScriptGenerator.OS) (storage script pat path : string) :
  path <> script ->
  let after_local :=
    snd (JobScriptGenerator.generate_local_merge_script storage script pat os)
  in
  let after_batch :=
    snd (JobScriptGenerator.generate_condorMerge_submission_file
           storage script pat os) in
  JobScriptGenerator.file_text after_local !! path
  = JobScriptGenerator.file_text os !! path
  /\ JobScriptGenerator.file_mode after_local !! path
     = JobScriptGenerator.file_mode os !! path
  /\ JobScriptGenerator.file_text after_batch !! path
     = JobScriptGenerator.file_text os !! path
  /\ JobScriptGenerator.file_mode after_batch !! path
     = JobScriptGenerator.file_mode os !! path.
Proof. intros Hother. cbv zeta. by apply generators_frame. Qed.

Lemma generators_touch_only_their_file_witness :
  JobScriptGenerator.file_text
    (snd (JobScriptGenerator.generate_local_merge_script "/store"
            "merge_Locally.sh" "out_*.root" Examples.os_store))
    !! "merge_using_condor.sub" = None
  /\ JobScriptGenerator.file_mode
       (snd (JobScriptGenerator.generate_local_merge_script "/store"
               "merge_Locally.sh" "out_*.root" Examples.os_store))
       !! "merge_using_condor.sub" = None.
Proof.
  destruct (generators_touch_only_their_file Examples.os_store "/store"
              "merge_Locally.sh" "out_*.root" "merge_using_condor.sub")
    as (Htext & Hmode & _); [discriminate|].
  split; [exact Htext | exact Hmode].
Defined.

(** X21.  Local mode never creates a directory.  Batch mode asks for exactly
    one, [merge_condor_logs], once the listing has succeeded, and for
    nothing when the listing fails. *)
Theorem only_batch_mode_creates_the_log_directory
    (os : JobScriptGenerator.OS) (storage script pat : string) :
  JobScriptGenerator.made_dirs
    (snd (JobScriptGenerator.generate_local_merge_script storage script pat os))
  = JobScriptGenerator.made_dirs os
  /\ JobScriptGenerator.made_dirs
       (snd (JobScriptGenerator.generate_condorMerge_submission_file
               storage script pat os))
     = JobScriptGenerator.made_dirs os ++
       match JobScriptGenerator.os_listdir os storage with
       | Py.Ok _ =>
           if JobScriptGenerator.may_makedirs os "merge_condor_logs"
           then ["merge_condor_logs"] else []
       | Py.Raise _ => []
       end.
Proof. apply generators_made_dirs. Qed.

(** X22.  A generator prints its one line, naming the descriptor, exactly
    when it completes; a run that raises prints nothing. *)
Theorem generators_print_only_on_success
    (os : JobScriptGenerator.OS) (storage script pat : string) :
  JobScriptGenerator.stdout
    (snd (JobScriptGenerator.generate_local_merge_script storage script pat os))
  = JobScriptGenerator.stdout os ++
    match fst (JobScriptGenerator.generate_local_merge_script
                 storage script pat os) with
    | Py.Ok _ => ["Local run script generated: " +:+ script]
    | Py.Raise _ => []
    end
  /\ JobScriptGenerator.stdout
       (snd (JobScriptGenerator.generate_condorMerge_submission_file
               storage script pat os))
     = JobScriptGenerator.stdout os ++
       match fst (JobScriptGenerator.generate_condorMerge_submission_file
                    storage script pat os) with
       | Py.Ok _ => ["Condor submission file generated: " +:+ script]
       | Py.Raise _ => []
       end.
Proof.
  unfold_generator.
  destruct (JobScriptGenerator.os_listdir os storage) as [names|e];
    [|simpl; by rewrite !app_nil_r].
  ask_system; by rewrite ?app_nil_r.
Qed.

(** The runs of [main] that return are the completed runs of the generator
    of the mode, on the storage path and the pattern of lines 83-84. *)
Lemma main_returned_local username os os' :
  JobScriptGenerator.main username (Some "local") os
  = (JobScriptGenerator.Returned, os') ->
  JobScriptGenerator.generate_local_merge_script
    (JobScriptGenerator.main_storage_path username) "merge_Locally.sh"
    "out_*.root" os = (Py.Ok tt, os').
Proof.
  change (JobScriptGenerator.main username (Some "local") os)
    with (let '(r, os') :=
            JobScriptGenerator.generate_local_merge_script
              (JobScriptGenerator.main_storage_path username)
              "merge_Locally.sh" "out_*.root" os in
          (JobScriptGenerator.ending_of r, os')).
  destruct (JobScriptGenerator.generate_local_merge_script _ _ _ os)
    as [[[]|e] o]; [|discriminate].
  by intros [= <-].
Qed.

Lemma main_returned_condor username os os' :
  JobScriptGenerator.main username (Some "condor") os
  = (JobScriptGenerator.Returned, os') ->
  JobScriptGenerator.generate_condorMerge_submission_file
    (JobScriptGenerator.main_storage_path username) "merge_using_condor.sub"
    "out_*.root" os = (Py.Ok tt, os').
Proof.
  change (JobScriptGenerator.main username (Some "condor") os)
    with (let '(r, os') :=
            JobScriptGenerator.generate_condorMerge_submission_file
              (JobScriptGenerator.main_storage_path username)
              "merge_using_condor.sub" "out_*.root" os in
          (JobScriptGenerator.ending_of r, os')).
  destruct (JobScriptGenerator.generate_condorMerge_submission_file _ _ _ os)
    as [[[]|e] o]; [|discriminate].
  by intros [= <-].
Qed.

(** X23.  [main] writes one artifact per run.  The storage path it lists is
    [/eos/cms/store/group/phys_jetmet/<user>/JMETriggerAnalysis/JESC/JESC_ntuple/250407_winter25v9/],
    where [<user>] is the value of the environment variable [USER], or the
    word None when the variable is not set; the pattern is [out_*.root].
    With [--mode local] a run that returns has written the local script for
    the subdirectories of that path to [merge_Locally.sh], with mode
    [0o755], has not touched [merge_using_condor.sub] and has created no
    directory.  With [--mode condor] a run that returns has written the
    submission file for these subdirectories to [merge_using_condor.sub],
    has created [merge_condor_logs] and has not touched [merge_Locally.sh].
    With any other value of [--mode], or without the flag, the process
    exits with status 2 and nothing is listed, written, created or
    printed. *)
Theorem generator_main_writes_one_artifact
    (username : option string) (os : JobScriptGenerator.OS) :
  let storage_path :=
    "/eos/cms/store/group/phys_jetmet/" +:+
    match username with Some name => name | None => "None" end +:+
    "/JMETriggerAnalysis/JESC/JESC_ntuple/250407_winter25v9/" in
  (forall os',
      JobScriptGenerator.main username (Some "local") os
      = (JobScriptGenerator.Returned, os') ->
      (exists names,
          JobScriptGenerator.os_listdir os storage_path = Py.Ok names /\
          JobScriptGenerator.file_text os' !! "merge_Locally.sh"
          = Some (PyStr.join JobScriptGenerator.nl
                    (JobScriptGenerator.local_lines storage_path "out_*.root"
                       (List.filter
                          (fun d => JobScriptGenerator.os_path_isdir os
                                      (PosixPath.join storage_path d))
                          names)))) /\
      JobScriptGenerator.file_mode os' !! "merge_Locally.sh" = Some 493 /\
      JobScriptGenerator.file_text os' !! "merge_using_condor.sub"
      = JobScriptGenerator.file_text os !! "merge_using_condor.sub" /\
      JobScriptGenerator.made_dirs os' = JobScriptGenerator.made_dirs os)
  /\ (forall os',
        JobScriptGenerator.main username (Some "condor") os
        = (JobScriptGenerator.Returned, os') ->
        (exists names,
            JobScriptGenerator.os_listdir os storage_path = Py.Ok names /\
            JobScriptGenerator.file_text os' !! "merge_using_condor.sub"
            = Some (PyStr.join JobScriptGenerator.nl
                      (JobScriptGenerator.condor_lines storage_path
                         "out_*.root"
                         (List.filter
                            (fun d => JobScriptGenerator.os_path_isdir os
                                        (PosixPath.join storage_path d))
                            names)))) /\
        JobScriptGenerator.file_text os' !! "merge_Locally.sh"
        = JobScriptGenerator.file_text os !! "merge_Locally.sh" /\
        JobScriptGenerator.file_mode os' !! "merge_Locally.sh"
        = JobScriptGenerator.file_mode os !! "merge_Locally.sh" /\
        JobScriptGenerator.made_dirs os'
        = JobScriptGenerator.made_dirs os ++ ["merge_condor_logs"])
  /\ (forall mode,
        mode <> Some "local" -> mode <> Some "condor" ->
        JobScriptGenerator.main username mode os
        = (JobScriptGenerator.Exited 2, os)).
Proof.
  intros storage_path.
  change storage_path with (JobScriptGenerator.main_storage_path username).
  clear storage_path.
  split; [|split].
  - intros os' Hrun. apply main_returned_local in Hrun.
    pose proof (generators_frame os
                  (JobScriptGenerator.main_storage_path username)
                  "merge_Locally.sh" "out_*.root" "merge_using_condor.sub")
      as Hframe.
    pose proof (generators_made_dirs os
                  (JobScriptGenerator.main_storage_path username)
                  "merge_Locally.sh" "out_*.root") as [Hdirs _].
    rewrite Hrun in Hframe, Hdirs.
    destruct Hframe as (Htext & _); [discriminate|].
    apply generate_local_ok in Hrun as (names & Hls & Hfile & Hmode).
    split; [by exists names|]. by repeat split.
  - intros os' Hrun. apply main_returned_condor in Hrun.
    pose proof (generators_frame os
                  (JobScriptGenerator.main_storage_path username)
                  "merge_using_condor.sub" "out_*.root" "merge_Locally.sh")
      as Hframe.
    rewrite Hrun in Hframe.
    destruct Hframe as (_ & _ & Htext & Hmode); [discriminate|].
    apply generate_condor_ok in Hrun as (names & Hls & Hfile & _ & Hdirs).
    split; [by exists names|]. by repeat split.
  - intros [mode|] Hlocal Hcondor; [|reflexivity].
    unfold JobScriptGenerator.main.
    destruct (String.eqb_spec mode "local") as [->|_]; [done|].
    by destruct (String.eqb_spec mode "condor") as [->|_].
Qed.

Lemma generator_main_writes_one_artifact_witness :
  JobScriptGenerator.file_mode
    (snd (JobScriptGenerator.main (Some "alice") (Some "local")
            Examples.os_eos_alice))
    !! "merge_Locally.sh" = Some 493
  /\ JobScriptGenerator.made_dirs
       (snd (JobScriptGenerator.main (Some "alice") (Some "condor")
               Examples.os_eos_alice))
     = ["merge_condor_logs"]
  /\ JobScriptGenerator.main (Some "alice") (Some "batch")
       Examples.os_eos_alice
     = (JobScriptGenerator.Exited 2, Examples.os_eos_alice)
  /\ JobScriptGenerator.main (Some "alice") None Examples.os_eos_alice
     = (JobScriptGenerator.Exited 2, Examples.os_eos_alice).
Proof.
  destruct (generator_main_writes_one_artifact (Some "alice")
              Examples.os_eos_alice) as (Hlocal & Hbatch & Hother).
  split; [|split; [|split]].
  - apply (Hlocal (snd (JobScriptGenerator.main (Some "alice") (Some "local")
                          Examples.os_eos_alice))).
    apply run_from_fst. vm_compute. reflexivity.
  - apply (Hbatch (snd (JobScriptGenerator.main (Some "alice") (Some "condor")
                          Examples.os_eos_alice))).
    apply run_from_fst. vm_compute. reflexivity.
  - apply Hother; discriminate.
  - apply Hother; discriminate.
Defined.

(** X24.  When the text of the local script cannot be encoded for the file
    (a subdirectory name that is not valid text, say), local mode raises
    [UnicodeEncodeError] from [f.write]: by then the script has been
    created, or emptied, by [open]; it is left empty, with the mode it had
    or, if it is new, the creation mode [0o666 & ~umask]; [os.chmod] is not
    reached and nothing is printed. *)
Theorem local_script_when_text_cannot_be_encoded
    (os : JobScriptGenerator.OS) (storage script pat : string)
    (names : list string) :
  let text :=
    PyStr.join JobScriptGenerator.nl
      (JobScriptGenerator.local_lines storage pat
         (List.filter
            (fun d => JobScriptGenerator.os_path_isdir os
                        (PosixPath.join storage d))
            names)) in
  JobScriptGenerator.os_listdir os storage = Py.Ok names ->
  JobScriptGenerator.may_open os script = true ->
  JobScriptGenerator.encodable os text = false ->
  exists os',
    JobScriptGenerator.generate_local_merge_script storage script pat os
    = (Py.Raise (Py.UnicodeEncodeError text), os') /\
    JobScriptGenerator.file_text os' !! script = Some EmptyString /\
    JobScriptGenerator.file_mode os' !! script
    = Some (match JobScriptGenerator.file_mode os !! script with
            | Some mode => mode
            | None => Z.land 438 (Z.lnot (JobScriptGenerator.umask os))
            end) /\
    JobScriptGenerator.stdout os' = JobScriptGenerator.stdout os.
Proof.
  intros text Hls Hopen Henc. unfold_generator.
  rewrite Hls, Hopen. read_fields. fold text. rewrite Henc. read_fields.
  eexists. split; [reflexivity|]. read_fields.
  split; [apply lookup_insert_eq|]. split; [|reflexivity].
  destruct (JobScriptGenerator.file_mode os !! script) as [mode|] eqn:Hmode;
    [exact Hmode | apply lookup_insert_eq].
Qed.

Lemma local_script_when_text_cannot_be_encoded_witness :
  exists text os',
    JobScriptGenerator.generate_local_merge_script "/store"
      "merge_Locally.sh" "out_*.root" Examples.os_stray_byte
    = (Py.Raise (Py.UnicodeEncodeError text), os') /\
    JobScriptGenerator.file_text os' !! "merge_Locally.sh"
    = Some EmptyString /\
    JobScriptGenerator.file_mode os' !! "merge_Locally.sh"
    = Some (6 * 64 + 4 * 8 + 4) /\
    JobScriptGenerator.stdout os' = [].
Proof.
  eexists.
  apply (local_script_when_text_cannot_be_encoded Examples.os_stray_byte
           "/store" "merge_Locally.sh" "out_*.root"
           [Examples.name_with_stray_byte]);
    [reflexivity | reflexivity | vm_compute; reflexivity].
Defined.

(** X25.  The generators complete when the system lets them: once the
    storage root is listed, the descriptor opened, its text encoded and
    taken by the system, local mode completes if the mode of the script can
    be changed, and batch mode completes if the log directory can be made;
    each then prints its one line. *)
Theorem generators_complete_when_the_system_allows
    (os : JobScriptGenerator.OS) (storage script pat : string)
    (names : list string) :
  let subdirs :=
    List.filter
      (fun d => JobScriptGenerator.os_path_isdir os (PosixPath.join storage d))
      names in
  JobScriptGenerator.os_listdir os storage = Py.Ok names ->
  JobScriptGenerator.may_open os script = true ->
  JobScriptGenerator.may_write os script = true ->
  (JobScriptGenerator.encodable os
     (PyStr.join JobScriptGenerator.nl
        (JobScriptGenerator.local_lines storage pat subdirs)) = true ->
   JobScriptGenerator.may_chmod os script = true ->
   exists os',
     JobScriptGenerator.generate_local_merge_script storage script pat os
     = (Py.Ok tt, os') /\
     JobScriptGenerator.stdout os'
     = JobScriptGenerator.stdout os
       ++ ["Local run script generated: " +:+ script])
  /\ (JobScriptGenerator.encodable os
        (PyStr.join JobScriptGenerator.nl
           (JobScriptGenerator.condor_lines storage pat subdirs)) = true ->
      JobScriptGenerator.may_makedirs os "merge_condor_logs" = true ->
      exists os',
        JobScriptGenerator.generate_condorMerge_submission_file
          storage script pat os = (Py.Ok tt, os') /\
        JobScriptGenerator.stdout os'
        = JobScriptGenerator.stdout os
          ++ ["Condor submission file generated: " +:+ script]).
Proof.
  intros subdirs Hls Hopen Hwrite. split.
  - intros Henc Hchmod. unfold_generator.
    rewrite Hls, Hopen. read_fields. fold subdirs. rewrite Henc. read_fields.
    rewrite Hwrite. read_fields. rewrite Hchmod.
    eexists. split; reflexivity.
  - intros Henc Hmk. unfold_generator.
    rewrite Hls, Hmk. read_fields. rewrite Hopen. read_fields.
    fold subdirs. rewrite Henc. read_fields. rewrite Hwrite.
    eexists. split; reflexivity.
Qed.

Lemma generators_complete_when_the_system_allows_witness :
  (exists os',
      JobScriptGenerator.generate_local_merge_script "/store"
        "merge_Locally.sh" "out_*.root" Examples.os_store
      = (Py.Ok tt, os') /\
      JobScriptGenerator.stdout os'
      = ["Local run script generated: merge_Locally.sh"])
  /\ (exists os',
        JobScriptGenerator.generate_condorMerge_submission_file "/store"
          "merge_Locally.sh" "out_*.root" Examples.os_store
        = (Py.Ok tt, os') /\
        JobScriptGenerator.stdout os'
        = ["Condor submission file generated: merge_Locally.sh"]).
Proof.
  destruct (generators_complete_when_the_system_allows Examples.os_store
              "/store" "merge_Locally.sh" "out_*.root"
              ["runA"; "notes.txt"; "runB"] eq_refl eq_refl eq_refl)
    as [Hlocal Hbatch].
  split.
  - apply Hlocal; [vm_compute; reflexivity | reflexivity].
  - apply Hbatch; [vm_compute; reflexivity | reflexivity].
Defined.

(** X26.  When the system refuses the data of the local script (a full
    disk, say), local mode raises [OSError] when the file is closed: the
    script holds what the system kept of the text, its mode is the one it
    had or, if it is new, the creation mode [0o666 & ~umask]; [os.chmod] is
    not reached and nothing is printed. *)
Theorem local_script_when_write_is_refused
    (os : JobScriptGenerator.OS) (storage script pat : string)
    (names : list string) :
  let text :=
    PyStr.join JobScriptGenerator.nl
      (JobScriptGenerator.local_lines storage pat
         (List.filter
            (fun d => JobScriptGenerator.os_path_isdir os
                        (PosixPath.join storage d))
            names)) in
  JobScriptGenerator.os_listdir os storage = Py.Ok names ->
  JobScriptGenerator.may_open os script = true ->
  JobScriptGenerator.encodable os text = true ->
  JobScriptGenerator.may_write os script = false ->
  exists os',
    JobScriptGenerator.generate_local_merge_script storage script pat os
    = (Py.Raise (Py.OSError script), os') /\
    JobScriptGenerator.file_text os' !! script
    = Some (JobScriptGenerator.torn os script text) /\
    JobScriptGenerator.file_mode os' !! script
    = Some (match JobScriptGenerator.file_mode os !! script with
            | Some mode => mode
            | None => Z.land 438 (Z.lnot (JobScriptGenerator.umask os))
            end) /\
    JobScriptGenerator.stdout os' = JobScriptGenerator.stdout os.
Proof.
  intros text Hls Hopen Henc Hwrite. unfold_generator.
  rewrite Hls, Hopen. read_fields. fold text. rewrite Henc. read_fields.
  rewrite Hwrite. read_fields.
  eexists. split; [reflexivity|]. read_fields.
  split; [apply lookup_insert_eq|]. split; [|reflexivity].
  destruct (JobScriptGenerator.file_mode os !! script) as [mode|] eqn:Hmode;
    [exact Hmode | apply lookup_insert_eq].
Qed.

Lemma local_script_when_write_is_refused_witness :
  exists os',
    JobScriptGenerator.generate_local_merge_script "/store"
      "merge_Locally.sh" "out_*.root" Examples.os_disk_full
    = (Py.Raise (Py.OSError "merge_Locally.sh"), os') /\
    JobScriptGenerator.file_text os' !! "merge_Locally.sh"
    = Some EmptyString /\
    JobScriptGenerator.file_mode os' !! "merge_Locally.sh"
    = Some (6 * 64 + 4 * 8 + 4) /\
    JobScriptGenerator.stdout os' = [].
Proof.
  apply (local_script_when_write_is_refused Examples.os_disk_full
           "/store" "merge_Locally.sh" "out_*.root"
           ["runA"; "notes.txt"; "runB"]);
    [reflexivity | reflexivity | vm_compute; reflexivity | reflexivity].
Defined.
